(** * Alpha Predator front end: analysis flow, portfolio ledger, error triage

    A shallow embedding of the script blocks of the Vue components

    - [frontend/src/components/AnalysisFlow.vue] (three-step analysis flow),
    - the portfolio manager in its two versions: the one persisted in
      localStorage (second document of [AnalysisFlow.vue]) and the one backed
      by [/api/portfolio] ([unnamed/part_000]),
    - the dashboard ([unnamed/part_001], [frontend/src/components/Dashboard.vue]),

    followed by the properties proved about them.

    Conventions of the embedding.
    - A JavaScript [number] is an exact rational ([Q]); NaN, infinities and
      binary rounding are outside the model.
    - A JavaScript string is a [string]. An ASCII text is given by its
      characters, one [ascii] each, which are its UTF-16 code units; the
      literals of the source that are not ASCII are given by their UTF-8
      bytes, which keeps [includes] and [===] as they are in the source.
      [length], [substring] and [trim] agree with the source on ASCII text,
      and the statements that rest on them are made for ASCII text.
    - A [ref] of the component is a field of a state record; a function of the
      component is a function from state to state.
    - A network call is answered by an oracle passed as an argument; the calls
      made, the alerts raised and the console messages are kept in an event
      log, oldest first.
    - An [async] function is given twice where interleavings matter: as the
      pair (part before the [await], part after it) and as the run in which
      nothing else happens in between. *)

From Stdlib Require Import ZArith QArith Qround Lqa String Ascii Bool Lia.
From stdpp Require Import base list strings.

Open Scope Z_scope.

(** ** JavaScript primitives used by the components *)

Module Js.

(** Values read out of a parsed JSON payload typed [any]. [JObject] stands
    for any object that is not an array; arrays, which have an [includes] of
    their own, are left out. *)
Inductive JsVal : Type :=
| JUndefined
| JNull
| JBool (b : bool)
| JNum (x : Q)
| JStr (s : string)
| JObject.

(** Outcome of a call that may raise; [Throw] carries the [message] of the
    error raised, which is what a [catch] block of the components shows. *)
Inductive Completion (A : Type) : Type :=
| Return (a : A)
| Throw (error : string).
Arguments Return {A} a.
Arguments Throw {A} error.

Definition truthy_num (x : Q) : bool := negb (Qeq_bool x 0).

Definition truthy_str (s : string) : bool :=
  match s with EmptyString => false | String _ _ => true end.

Definition truthy (v : JsVal) : bool :=
  match v with
  | JUndefined | JNull => false
  | JBool b => b
  | JNum x => truthy_num x
  | JStr s => truthy_str s
  | JObject => true
  end.

(** [a || b] on strings. *)
Definition or_str (a b : string) : string := if truthy_str a then a else b.

(** [a || b] where [a] may be absent. *)
Definition or_opt_str (a : option string) (b : string) : string :=
  match a with Some s => or_str s b | None => b end.

(** [a || b] on an optional number and a number. *)
Definition or_opt_num (a : option Q) (b : Q) : Q :=
  match a with
  | Some x => if truthy_num x then x else b
  | None => b
  end.

Definition Qlt_bool (x y : Q) : bool := negb (Qle_bool y x).

(** [Math.round]: nearest integer, halves towards plus infinity. *)
Definition Math_round (x : Q) : Z := Qfloor (x + (1 # 2)).

(** Integer part, towards zero. *)
Definition Qtrunc (x : Q) : Z := Z.quot (Qnum x) (Zpos (Qden x)).

(** [x % m]: remainder with the sign of [x]. *)
Definition rem (x m : Q) : Q := (x - m * inject_Z (Qtrunc (x / m)))%Q.

(** [s.includes(sub)]. *)
Fixpoint includes (sub s : string) : bool :=
  String.prefix sub s
  || match s with
     | EmptyString => false
     | String _ rest => includes sub rest
     end.

(** [s.substring(0, n)]. *)
Definition substring0 (n : nat) (s : string) : string := String.substring 0 n s.

Definition upper_char (c : ascii) : ascii :=
  let n := nat_of_ascii c in
  if ((97 <=? n)%nat && (n <=? 122)%nat)%bool then ascii_of_nat (n - 32) else c.

(** [s.toUpperCase()] on ASCII letters. *)
Fixpoint toUpperCase (s : string) : string :=
  match s with
  | EmptyString => EmptyString
  | String c rest => String (upper_char c) (toUpperCase rest)
  end.

Definition nl : string := String (ascii_of_nat 10) EmptyString.

Definition isWhiteSpace (c : ascii) : bool :=
  let n := nat_of_ascii c in
  ((9 <=? n)%nat && (n <=? 13)%nat) || (n =? 32)%nat || (n =? 160)%nat.

Fixpoint trimStart (s : string) : string :=
  match s with
  | EmptyString => EmptyString
  | String c rest => if isWhiteSpace c then trimStart rest else s
  end.

Fixpoint trimEnd (s : string) : string :=
  match s with
  | EmptyString => EmptyString
  | String c rest =>
      match trimEnd rest with
      | EmptyString => if isWhiteSpace c then EmptyString else String c EmptyString
      | kept => String c kept
      end
  end.

(** [s.trim()] on a text whose code units are all below 256, where the
    white space is 9 to 13, 32 and 160; [trim] also strips the white space
    above 255 (U+1680, U+2000 to U+200A, U+2028, U+2029, U+202F, U+205F,
    U+3000, U+FEFF), which such a text does not have. *)
Definition trim (s : string) : string := trimEnd (trimStart s).

(** [a || b] on values. *)
Definition or_val (a b : JsVal) : JsVal := if truthy a then a else b.

(** [v === false] *)
Definition isFalse (v : JsVal) : bool :=
  match v with JBool false => true | _ => false end.

End Js.

(** ** Wall clock *)

Module Clock.

(** What the components read from [new Date()]: [getDay] (0 is Sunday, 6 is
    Saturday), [getHours], [getMinutes]; seconds are carried to show that no
    function below looks at them. *)
Record JsDate : Type := mkDate {
  getDay : Z;
  getHours : Z;
  getMinutes : Z;
  getSeconds : Z
}.

Definition wellFormed (d : JsDate) : Prop :=
  0 <= getDay d <= 6 /\ 0 <= getHours d <= 23 /\ 0 <= getMinutes d <= 59
  /\ 0 <= getSeconds d <= 59.

Definition minuteOfDay (d : JsDate) : Z := getHours d * 60 + getMinutes d.

Definition weekend (d : JsDate) : Prop := getDay d = 0 \/ getDay d = 6.

End Clock.

(** ** Dashboard: trading session and error classification *)

Module Dashboard.
Import Js Clock.

(** [isMarketOpen] of the dashboard, with [new Date()] as its argument. *)
Definition isMarketOpen (now : JsDate) : bool :=
  let day := getDay now in
  if (day =? 0) || (day =? 6) then false
  else
    let hours := getHours now in
    let minutes := getMinutes now in
    let time := hours * 100 + minutes in
    ((930 <=? time) && (time <=? 1130)) || ((1300 <=? time) && (time <=? 1500)).

Record Alert : Type := mkAlert {
  title : string;
  message : string;
  details : option string
}.

(** The object handed to [parseApiError]: nullish, or something with the
    three properties the function reads. *)
Inductive Payload : Type :=
| PNullish
| PObject (detail success content : JsVal).

(** [data?.p] *)
Definition detailOf (data : Payload) : JsVal :=
  match data with PNullish => JUndefined | PObject d _ _ => d end.
Definition successOf (data : Payload) : JsVal :=
  match data with PNullish => JUndefined | PObject _ s _ => s end.
Definition contentOf (data : Payload) : JsVal :=
  match data with PNullish => JUndefined | PObject _ _ c => c end.

Definition quotaAlert : Alert :=
  {| title := "🚫 API 配额已用尽";
     message := "Gemini API 免费配额已达到限制。";
     details := Some ("解决方案：" ++ nl ++ "1. 等待配额重置（通常每日重置）" ++ nl
                      ++ "2. 升级到 Google Cloud 付费计划" ++ nl
                      ++ "3. 在 .env 中配置 OpenAI API Key 并切换提供商")%string |}.

Definition permissionAlert : Alert :=
  {| title := "🔒 数据源权限不足";
     message := "Tushare 账户积分不足，无法访问此数据接口。";
     details := Some ("解决方案：" ++ nl ++ "1. 访问 tushare.pro 登录您的账户" ++ nl
                      ++ "2. 通过完成任务积累积分" ++ nl
                      ++ "3. 或升级到付费会员获取更多权限")%string |}.

(** [substring] and [length] count UTF-16 code units; the two alerts below
    are those of the source for a text given as its code units, one [ascii]
    each, which is how an ASCII text is written. *)
Definition genericAlert (detail : string) : Alert :=
  {| title := "⚠️ 请求失败";
     message := substring0 200 detail;
     details := if (200 <? String.length detail)%nat then Some detail else None |}.

Definition llmQuotaAlert (content : string) : Alert :=
  {| title := "🚫 API 配额已用尽";
     message := "LLM 服务配额不足";
     details := Some (substring0 500 content) |}.

Definition unknownAlert (defaultMessage : string) : Alert :=
  {| title := "❌ 操作失败"; message := defaultMessage; details := None |}.

Definition isQuotaText (detail : string) : bool :=
  includes "429" detail || includes "quota" detail || includes "exceeded" detail.

Definition isPermissionText (detail : string) : bool :=
  includes "没有接口访问权限" detail || includes "tushare.pro" detail.

(** The second test of [parseApiError], on [data.content]; a truthy content
    that is no string has no [includes] and the call raises. *)
Definition parseContent (data : Payload) (defaultMessage : string) : Completion Alert :=
  match successOf data with
  | JBool false =>
      if truthy (contentOf data) then
        match contentOf data with
        | JStr content =>
            if includes "429" content || includes "quota" content
            then Return (llmQuotaAlert content)
            else Return (unknownAlert defaultMessage)
        | _ => Throw "content.includes is not a function"
        end
      else Return (unknownAlert defaultMessage)
  | _ => Return (unknownAlert defaultMessage)
  end.

Definition parseApiError (data : Payload) (defaultMessage : string) : Completion Alert :=
  match detailOf data with
  | JStr detail =>
      if truthy_str detail then
        if isQuotaText detail then Return quotaAlert
        else if isPermissionText detail then Return permissionAlert
        else Return (genericAlert detail)
      else parseContent data defaultMessage
  | _ => parseContent data defaultMessage
  end.

(** The getter of the computed [marketStatus], with the [new Date()] it
    reads as its argument. The getter reads no ref, so it runs when the
    label is first rendered and the label is not computed again. *)
Definition marketStatus (now : JsDate) : string :=
  let day := getDay now in
  if (day =? 0) || (day =? 6) then "休市"
  else
    let hours := getHours now in
    let minutes := getMinutes now in
    let time := hours * 100 + minutes in
    if time <? 930 then "未开盘"
    else if time <=? 1130 then "交易中"
    else if time <? 1300 then "午休"
    else if time <=? 1500 then "交易中"
    else "已收盘".

(** *** The alert banner and the stock diagnosis of the dashboard *)

Inductive Severity : Type := sev_error | sev_warning | sev_info.

(** The object kept in [errorMessage]: [type] and the three texts. *)
Record Banner : Type := mkBanner {
  severity : Severity;
  alert : Alert
}.

Record DiagnoseResult : Type := mkDiagnoseResult {
  result_stock : JsVal;
  result_content : JsVal;
  result_signal : JsVal
}.

(** The refs of the dashboard used by the diagnosis tab, and the titles the
    pending [setTimeout] callbacks of [showError] hold, oldest first; all
    have the same delay, so they run in this order. *)
Record Panel : Type := mkPanel {
  errorMessage : option Banner;
  timers : list string;
  isDiagnosing : bool;
  stockCode : string;
  diagnoseResult : option DiagnoseResult
}.

Definition initialPanel : Panel :=
  {| errorMessage := None; timers := []; isDiagnosing := false;
     stockCode := ""; diagnoseResult := None |}.

Definition showError (type : Severity) (title message : string)
           (details : option string) (p : Panel) : Panel :=
  {| errorMessage := Some (mkBanner type (mkAlert title message details));
     timers := timers p ++ [title];
     isDiagnosing := isDiagnosing p; stockCode := stockCode p;
     diagnoseResult := diagnoseResult p |}.

Definition setErrorMessage (b : option Banner) (p : Panel) : Panel :=
  {| errorMessage := b; timers := timers p;
     isDiagnosing := isDiagnosing p; stockCode := stockCode p;
     diagnoseResult := diagnoseResult p |}.

Definition closeError (p : Panel) : Panel := setErrorMessage None p.

(** The callback of the oldest pending timer runs: it closes the banner if
    the banner on display has the title the timer was set for. *)
Definition timeoutFires (p : Panel) : Panel :=
  match timers p with
  | [] => p
  | title0 :: rest =>
      {| errorMessage :=
           match errorMessage p with
           | Some b => if String.eqb (title (alert b)) title0 then None else Some b
           | None => None
           end;
         timers := rest;
         isDiagnosing := isDiagnosing p; stockCode := stockCode p;
         diagnoseResult := diagnoseResult p |}
  end.

Definition setDiagnosing (b : bool) (p : Panel) : Panel :=
  {| errorMessage := errorMessage p; timers := timers p;
     isDiagnosing := b; stockCode := stockCode p;
     diagnoseResult := diagnoseResult p |}.

Definition setStockCode (code : string) (p : Panel) : Panel :=
  {| errorMessage := errorMessage p; timers := timers p;
     isDiagnosing := isDiagnosing p; stockCode := code;
     diagnoseResult := diagnoseResult p |}.

Definition setDiagnoseResult (r : DiagnoseResult) (p : Panel) : Panel :=
  {| errorMessage := errorMessage p; timers := timers p;
     isDiagnosing := isDiagnosing p; stockCode := stockCode p;
     diagnoseResult := Some r |}.

Inductive ApiStatus : Type := connecting | connected | status_error.

Definition isConnected (a : ApiStatus) : bool :=
  match a with connected => true | _ => false end.

(** A parsed reply body: [null], or something with the properties the
    dashboard reads. *)
Inductive Body : Type :=
| BodyNull
| BodyObject (detail success content stock signal : JsVal).

Definition payloadOf (data : Body) : Payload :=
  match data with
  | BodyNull => PNullish
  | BodyObject d s c _ _ => PObject d s c
  end.

(** How a request of the dashboard ends: [fetch] or [response.json()]
    rejects with an error whose [message] is given, or a body arrives with
    [response.ok] as given. *)
Inductive HttpReply : Type :=
| HttpRejects (message : option string)
| HttpBody (ok : bool) (data : Body).

Inductive DashEffect : Type :=
| ScanRequest (code : string)
| DiagnoseRequest (code : string)
| DashConsoleError (text : string).

(** How the [try] block of [runDiagnose] ends. *)
Inductive Tried : Type :=
| Done (p : Panel)
| Raised (message : option string).

(** [parseApiError] followed by [showError] and [return]. *)
Definition reportApiError (data : Body) (defaultMessage : string) (p : Panel) : Tried :=
  match parseApiError (payloadOf data) defaultMessage with
  | Return e => Done (showError sev_error (title e) (message e) (details e) p)
  | Throw m => Raised (Some m)
  end.

(** The [message] of the error raised by reading a property of [null]; the
    engine adds the name of the property, left out here. *)
Definition nullRead : option string :=
  Some "Cannot read properties of null"%string.

(** The [try] block of [runDiagnose]. *)
Definition tryDiagnose (scan diagnose : HttpReply) (p : Panel) : Tried * list DashEffect :=
  let log1 := [ScanRequest (stockCode p)] in
  match scan with
  | HttpRejects m => (Raised m, log1)
  | HttpBody scanOk scanData =>
      if negb scanOk then
        (reportApiError scanData "快速扫描失败，请检查股票代码格式" p, log1)
      else
        let log2 := log1 ++ [DiagnoseRequest (stockCode p)] in
        match diagnose with
        | HttpRejects m => (Raised m, log2)
        | HttpBody diagnoseOk diagnoseData =>
            if negb diagnoseOk then
              (reportApiError diagnoseData "个股诊疗失败" p, log2)
            else
              match diagnoseData with
              | BodyNull => (Raised nullRead, log2)
              | BodyObject _ success content stock signal =>
                  if isFalse success then
                    (reportApiError diagnoseData "个股诊疗失败" p, log2)
                  else
                    match scanData with
                    | BodyNull => (Raised nullRead, log2)
                    | BodyObject _ _ _ _ scanSignal =>
                        (Done (setDiagnoseResult
                                 {| result_stock := stock;
                                    result_content := content;
                                    result_signal := or_val scanSignal signal |} p),
                         log2)
                    end
              end
        end
  end.

(** [runDiagnose] *)
Definition runDiagnose (apiStatus : ApiStatus) (scan diagnose : HttpReply) (p : Panel)
  : Panel * list DashEffect :=
  if negb (truthy_str (trim (stockCode p))) then
    (showError sev_info "💡 请输入股票代码"
               "格式示例：000001.SZ（深市）或 600519.SH（沪市）" None p, [])
  else if negb (isConnected apiStatus) then
    (showError sev_warning "⚠️ 服务未连接" "请先启动 API 服务" None p, [])
  else
    let p1 := setDiagnosing true (setErrorMessage None p) in
    match tryDiagnose scan diagnose p1 with
    | (Done p2, log) => (setDiagnosing false p2, log)
    | (Raised m, log) =>
        (setDiagnosing false
           (showError sev_error "❌ 网络错误" "无法连接到 API 服务" m p1),
         log ++ [DashConsoleError "诊疗失败:"])
    end.

(** What can happen to the panel: the code box is edited, the diagnose
    button is pressed and the two requests end as given, the oldest timer
    runs, the banner is closed by hand. *)
Inductive PanelEvent : Type :=
| TypeCode (code : string)
| PressDiagnose (apiStatus : ApiStatus) (scan diagnose : HttpReply)
| TimerRuns
| PressClose.

Definition panelStep (p : Panel) (e : PanelEvent) : Panel :=
  match e with
  | TypeCode code => setStockCode code p
  | PressDiagnose a scan diagnose => fst (runDiagnose a scan diagnose p)
  | TimerRuns => timeoutFires p
  | PressClose => closeError p
  end.

Definition runPanel (p : Panel) (es : list PanelEvent) : Panel :=
  fold_left panelStep es p.

End Dashboard.

(** ** The three-step analysis flow *)

Module AnalysisFlow.
Import Js.

Record Sector : Type := mkSector {
  name : string;
  change_pct : Q;
  money_flow : Q;
  hot_level : string;
  signal : string;
  reason : string
}.

Record SectorAnalysis : Type := mkSectorAnalysis {
  market_summary : string;
  market_direction : string;
  sectors : list Sector;
  risk_warning : string;
  trade_date : string
}.

Record StockRec : Type := mkStockRec {
  rank : Z;
  ts_code : string;
  rec_name : string;
  sector : string;
  rec_signal : string;
  score : Q;
  current_price : Q;
  target_price : Q;
  stop_loss_price : Q;
  position_pct : Q;
  hold_period : string;
  entry_timing : string;
  reasons : list string;
  risk_factors : list string
}.

Record StockRecommendations : Type := mkStockRecommendations {
  analysis_summary : string;
  recommendations : list StockRec;
  rec_risk_warning : string;
  rec_trade_date : string;
  selected_sectors : option (list string)
}.

Inductive Step : Type := Step1 | Step2 | Step3.

Inductive RiskPreference : Type := aggressive | balanced | conservative.

(** A [Set<string>] in insertion order, as [Array.from] lists it. *)
Definition StringSet : Type := list string.

Definition set_has (s : StringSet) (x : string) : bool :=
  existsb (String.eqb x) s.

Definition set_delete (s : StringSet) (x : string) : StringSet :=
  List.filter (fun y => negb (String.eqb x y)) s.

Definition set_add (s : StringSet) (x : string) : StringSet :=
  if set_has s x then s else s ++ [x].

(** The refs of the component. *)
Record FlowState : Type := mkFlow {
  currentStep : Step;
  isLoading : bool;
  errorMessage : option string;
  sectorAnalysis : option SectorAnalysis;
  selectedSectors : StringSet;
  stockRecommendations : option StockRecommendations;
  riskPreference : RiskPreference
}.

Definition initial : FlowState :=
  {| currentStep := Step1; isLoading := false; errorMessage := None;
     sectorAnalysis := None; selectedSectors := [];
     stockRecommendations := None; riskPreference := balanced |}.

Definition parseRisk (saved : string) : option RiskPreference :=
  if String.eqb saved "aggressive" then Some aggressive
  else if String.eqb saved "balanced" then Some balanced
  else if String.eqb saved "conservative" then Some conservative
  else None.

(** [setRiskPreference], the assignment to the ref; its write to
    localStorage is [written] below. *)
Definition setRiskPreference (value : RiskPreference) (s : FlowState) : FlowState :=
  {| currentStep := currentStep s; isLoading := isLoading s;
     errorMessage := errorMessage s; sectorAnalysis := sectorAnalysis s;
     selectedSectors := selectedSectors s;
     stockRecommendations := stockRecommendations s;
     riskPreference := value |}.

(** [onMounted]: the preference saved under [riskPreference], when it is one
    of the three known values. *)
Definition onMounted (saved : option string) (s : FlowState) : FlowState :=
  match saved with
  | Some v => match parseRisk v with
              | Some r => setRiskPreference r s
              | None => s
              end
  | None => s
  end.

Definition hasSelectedSectors (s : FlowState) : bool :=
  (0 <? length (selectedSectors s))%nat.

Definition toggleSector (name : string) (s : FlowState) : FlowState :=
  {| currentStep := currentStep s; isLoading := isLoading s;
     errorMessage := errorMessage s; sectorAnalysis := sectorAnalysis s;
     selectedSectors :=
       if set_has (selectedSectors s) name
       then set_delete (selectedSectors s) name
       else set_add (selectedSectors s) name;
     stockRecommendations := stockRecommendations s;
     riskPreference := riskPreference s |}.

(** Requests the flow sends. *)
Inductive Request : Type :=
| GetSectors
| PostStocks (sectors : list string) (risk_preference : RiskPreference).

(** How a request ends: [fetch] or [response.json()] rejects with an error
    carrying [message]; or a body arrives with [response.ok] false and
    [data.detail] as given ([None] when it is absent); or a body arrives
    with [response.ok] true. *)
Inductive Reply (A : Type) : Type :=
| Rejects (message : string)
| NotOk (detail : option string)
| Ok (data : A).
Arguments Rejects {A} message.
Arguments NotOk {A} detail.
Arguments Ok {A} data.

Definition succeeded {A : Type} (r : Reply A) : bool :=
  match r with Ok _ => true | _ => false end.

(** The text the [catch] block stores: [error.message || '请求失败'], the
    error being the rejection or [new Error(data.detail || fallback)]. *)
Definition failureText {A : Type} (fallback : string) (r : Reply A) : string :=
  match r with
  | Rejects message => or_str message "请求失败"
  | NotOk detail => or_str (or_opt_str detail fallback) "请求失败"
  | Ok _ => EmptyString
  end.

Definition setLoading (s : FlowState) : FlowState :=
  {| currentStep := currentStep s; isLoading := true; errorMessage := None;
     sectorAnalysis := sectorAnalysis s; selectedSectors := selectedSectors s;
     stockRecommendations := stockRecommendations s;
     riskPreference := riskPreference s |}.

Definition failWith (text : string) (s : FlowState) : FlowState :=
  {| currentStep := currentStep s; isLoading := false;
     errorMessage := Some text;
     sectorAnalysis := sectorAnalysis s; selectedSectors := selectedSectors s;
     stockRecommendations := stockRecommendations s;
     riskPreference := riskPreference s |}.

(** [analyzeSectors] up to its [await]. *)
Definition analyzeSectors_begin (s : FlowState) : FlowState * Request :=
  (setLoading s, GetSectors).

(** [analyzeSectors] from the reply on, [finally] included. *)
Definition analyzeSectors_settle (r : Reply SectorAnalysis) (s : FlowState) : FlowState :=
  match r with
  | Ok data =>
      {| currentStep := Step2; isLoading := false;
         errorMessage := errorMessage s;
         sectorAnalysis := Some data; selectedSectors := selectedSectors s;
         stockRecommendations := stockRecommendations s;
         riskPreference := riskPreference s |}
  | _ => failWith (failureText "板块分析失败" r) s
  end.

(** [recommendStocks] up to its [await]: the body of the request, or no
    request when nothing is selected. *)
Definition recommendStocks_begin (s : FlowState)
  : FlowState * option (list string * RiskPreference) :=
  if negb (hasSelectedSectors s) then
    ({| currentStep := currentStep s; isLoading := isLoading s;
        errorMessage := Some "请至少选择一个板块";
        sectorAnalysis := sectorAnalysis s; selectedSectors := selectedSectors s;
        stockRecommendations := stockRecommendations s;
        riskPreference := riskPreference s |}, None)
  else (setLoading s, Some (selectedSectors s, riskPreference s)).

Definition recommendStocks_settle (r : Reply StockRecommendations) (s : FlowState) : FlowState :=
  match r with
  | Ok data =>
      {| currentStep := Step3; isLoading := false;
         errorMessage := errorMessage s;
         sectorAnalysis := sectorAnalysis s; selectedSectors := selectedSectors s;
         stockRecommendations := Some data;
         riskPreference := riskPreference s |}
  | _ => failWith (failureText "股票推荐失败" r) s
  end.

(** The backend as seen from the flow. *)
Record Backend : Type := mkBackend {
  scanSectors : Reply SectorAnalysis;
  recommend : list string -> RiskPreference -> Reply StockRecommendations
}.

(** One uninterrupted call of [analyzeSectors]: final state and requests sent. *)
Definition analyzeSectors (net : Backend) (s : FlowState) : FlowState * list Request :=
  let '(s1, req) := analyzeSectors_begin s in
  (analyzeSectors_settle (scanSectors net) s1, [req]).

(** One uninterrupted call of [recommendStocks]. *)
Definition recommendStocks (net : Backend) (s : FlowState) : FlowState * list Request :=
  match recommendStocks_begin s with
  | (s1, None) => (s1, [])
  | (s1, Some (names, risk)) =>
      (recommendStocks_settle (recommend net names risk) s1, [PostStocks names risk])
  end.

Definition resetFlow (s : FlowState) : FlowState :=
  {| currentStep := Step1; isLoading := isLoading s; errorMessage := None;
     sectorAnalysis := None; selectedSectors := [];
     stockRecommendations := None; riskPreference := riskPreference s |}.

Definition goBack (s : FlowState) : FlowState :=
  match currentStep s with
  | Step3 =>
      {| currentStep := Step2; isLoading := isLoading s;
         errorMessage := errorMessage s; sectorAnalysis := sectorAnalysis s;
         selectedSectors := selectedSectors s;
         stockRecommendations := None; riskPreference := riskPreference s |}
  | Step2 =>
      {| currentStep := Step1; isLoading := isLoading s;
         errorMessage := errorMessage s; sectorAnalysis := None;
         selectedSectors := [];
         stockRecommendations := stockRecommendations s;
         riskPreference := riskPreference s |}
  | Step1 => s
  end.

Definition dismissError (s : FlowState) : FlowState :=
  {| currentStep := currentStep s; isLoading := isLoading s;
     errorMessage := None; sectorAnalysis := sectorAnalysis s;
     selectedSectors := selectedSectors s;
     stockRecommendations := stockRecommendations s;
     riskPreference := riskPreference s |}.

Definition sectorNames (a : option SectorAnalysis) : list string :=
  match a with
  | Some sa => map name (sectors sa)
  | None => []
  end.

(** *** The component as the template drives it

    The template decides which handler can run in which state: the scan
    button is shown at step 1 and disabled while loading; the sector cards,
    the back button and the recommend button are shown at step 2 when an
    analysis is present, one card per sector of that analysis, the recommend
    button disabled while nothing is selected or while loading; the back and
    restart buttons are shown at step 3 when recommendations are present; the
    error banner and its close button are shown while an error text is set.
    Requests on their way are kept next to the refs. *)

Inductive Pending : Type := PendingScan | PendingRecommend.

Record Component : Type := mkComponent {
  refs : FlowState;
  inFlight : list Pending
}.

Inductive Event : Type :=
| ClickRisk (value : RiskPreference)
| ClickAnalyze
| ScanSettles (r : Reply SectorAnalysis)
| ClickSector (name : string)
| ClickRecommend
| RecommendSettles (r : Reply StockRecommendations)
| ClickBack
| ClickRestart
| ClickCloseError.

Definition isStep (st : Step) (s : FlowState) : bool :=
  match st, currentStep s with
  | Step1, Step1 | Step2, Step2 | Step3, Step3 => true
  | _, _ => false
  end.

Definition isSome {A : Type} (o : option A) : bool :=
  match o with Some _ => true | None => false end.

Definition isPending (p q : Pending) : bool :=
  match p, q with
  | PendingScan, PendingScan | PendingRecommend, PendingRecommend => true
  | _, _ => false
  end.

Fixpoint removeFirst (p : Pending) (l : list Pending) : list Pending :=
  match l with
  | [] => []
  | q :: rest => if isPending p q then rest else q :: removeFirst p rest
  end.

Definition showsStep2 (s : FlowState) : bool :=
  isStep Step2 s && isSome (sectorAnalysis s).

Definition showsStep3 (s : FlowState) : bool :=
  isStep Step3 s && isSome (stockRecommendations s).

(** Whether the template lets the event happen. *)
Definition enabled (c : Component) (e : Event) : bool :=
  let s := refs c in
  match e with
  | ClickRisk _ => isStep Step1 s
  | ClickAnalyze => isStep Step1 s && negb (isLoading s)
  | ScanSettles _ => existsb (isPending PendingScan) (inFlight c)
  | ClickSector name =>
      showsStep2 s && existsb (String.eqb name) (sectorNames (sectorAnalysis s))
  | ClickRecommend => showsStep2 s && hasSelectedSectors s && negb (isLoading s)
  | RecommendSettles _ => existsb (isPending PendingRecommend) (inFlight c)
  | ClickBack => showsStep2 s || showsStep3 s
  | ClickRestart => showsStep3 s
  | ClickCloseError =>
      match errorMessage s with Some text => truthy_str text | None => false end
  end.

Definition handle (c : Component) (e : Event) : Component :=
  let s := refs c in
  match e with
  | ClickRisk value => mkComponent (setRiskPreference value s) (inFlight c)
  | ClickAnalyze =>
      mkComponent (fst (analyzeSectors_begin s)) (inFlight c ++ [PendingScan])
  | ScanSettles r =>
      mkComponent (analyzeSectors_settle r s) (removeFirst PendingScan (inFlight c))
  | ClickSector name => mkComponent (toggleSector name s) (inFlight c)
  | ClickRecommend =>
      match recommendStocks_begin s with
      | (s1, Some _) => mkComponent s1 (inFlight c ++ [PendingRecommend])
      | (s1, None) => mkComponent s1 (inFlight c)
      end
  | RecommendSettles r =>
      mkComponent (recommendStocks_settle r s)
                  (removeFirst PendingRecommend (inFlight c))
  | ClickBack => mkComponent (goBack s) (inFlight c)
  | ClickRestart => mkComponent (resetFlow s) (inFlight c)
  | ClickCloseError => mkComponent (dismissError s) (inFlight c)
  end.

Definition step (c : Component) (e : Event) : option Component :=
  if enabled c e then Some (handle c e) else None.

Definition mounted (saved : option string) : Component :=
  mkComponent (onMounted saved initial) [].

Inductive reachable : Component -> Prop :=
| reach_mounted saved : reachable (mounted saved)
| reach_step c e c' : reachable c -> step c e = Some c' -> reachable c'.

(** The selection holds only names of sectors of the analysis on display. *)
Definition selectionWithinAnalysis (s : FlowState) : Prop :=
  forall x : string, In x (selectedSectors s) -> In x (sectorNames (sectorAnalysis s)).

(** The string a preference is in the source. *)
Definition riskValue (value : RiskPreference) : string :=
  match value with
  | aggressive => "aggressive"
  | balanced => "balanced"
  | conservative => "conservative"
  end.

(** *** The component and localStorage

    [localStorage] keeps a text under each key that was set. *)
Definition LocalStorage : Type := string -> option string.

Definition getItem (store : LocalStorage) (key : string) : option string :=
  store key.

Definition setItem (store : LocalStorage) (key value : string) : LocalStorage :=
  fun k => if String.eqb k key then Some value else store k.

(** What the handler of an event writes to localStorage:
    [setRiskPreference] writes its argument under [riskPreference], no
    other function of the component writes. The store is taken to accept
    the write. *)
Definition written (e : Event) (store : LocalStorage) : LocalStorage :=
  match e with
  | ClickRisk value => setItem store "riskPreference" (riskValue value)
  | _ => store
  end.

(** The page: the component and the localStorage of the browser. *)
Record Page : Type := mkPage {
  component : Component;
  storage : LocalStorage
}.

(** The page is loaded: [onMounted] reads what is kept under
    [riskPreference]. *)
Definition loadPage (store : LocalStorage) : Page :=
  mkPage (mounted (getItem store "riskPreference")) store.

Definition pageStep (pg : Page) (e : Event) : option Page :=
  if enabled (component pg) e
  then Some (mkPage (handle (component pg) e) (written e (storage pg)))
  else None.

(** The events of a session, one after the other. *)
Fixpoint pageRun (pg : Page) (es : list Event) : option Page :=
  match es with
  | [] => Some pg
  | e :: rest =>
      match pageStep pg e with
      | Some pg' => pageRun pg' rest
      | None => None
      end
  end.

Definition emptyStorage : LocalStorage := fun _ => None.

End AnalysisFlow.

(** ** The portfolio ledger: what both versions of the manager share *)

Module Ledger.
Import Js.

(** [id] is assigned by the server; the localStorage version has none. *)
Record Position : Type := mkPosition {
  id : option Z;
  ts_code : string;
  name : string;
  quantity : Q;
  cost_price : Q;
  current_price : option Q;
  profit : option Q;
  profit_pct : option Q;
  weight : option Q
}.

Record Form : Type := mkForm {
  form_ts_code : string;
  form_name : string;
  form_quantity : Q;
  form_cost_price : Q
}.

(** The refs of the manager the functions below touch. *)
Record State : Type := mkState {
  total_capital : Q;
  positions : list Position;
  isEditing : bool;
  editingIndex : option nat;
  isLoading : bool;
  formData : Form
}.

(** The four static fields sent to the server or stored. *)
Record PositionData : Type := mkPositionData {
  data_ts_code : string;
  data_name : string;
  data_quantity : Q;
  data_cost_price : Q
}.

(** What the manager does to the outside, and one marker for the weight pass. *)
Inductive Effect : Type :=
| QuoteRequest (code : string)
| GetPortfolio
| PostPosition (body : PositionData)
| PutPosition (key : Z) (body : PositionData)
| ConsoleError (text : string)
| AlertShown (text : string)
| WeightsRecomputed.

Definition World : Type := State * list Effect.

Definition emit (e : Effect) (w : World) : World := (fst w, snd w ++ [e]).

Definition update (f : State -> State) (w : World) : World := (f (fst w), snd w).

Definition setPositions (ps : list Position) (s : State) : State :=
  {| total_capital := total_capital s; positions := ps;
     isEditing := isEditing s; editingIndex := editingIndex s;
     isLoading := isLoading s; formData := formData s |}.

Definition setLoading (b : bool) (s : State) : State :=
  {| total_capital := total_capital s; positions := positions s;
     isEditing := isEditing s; editingIndex := editingIndex s;
     isLoading := b; formData := formData s |}.

Definition setQuantity (q : Q) (s : State) : State :=
  {| total_capital := total_capital s; positions := positions s;
     isEditing := isEditing s; editingIndex := editingIndex s;
     isLoading := isLoading s;
     formData := {| form_ts_code := form_ts_code (formData s);
                    form_name := form_name (formData s);
                    form_quantity := q;
                    form_cost_price := form_cost_price (formData s) |} |}.

Definition setWeight (w : option Q) (pos : Position) : Position :=
  {| id := id pos; ts_code := ts_code pos; name := name pos;
     quantity := quantity pos; cost_price := cost_price pos;
     current_price := current_price pos; profit := profit pos;
     profit_pct := profit_pct pos; weight := w |}.

Definition weightOf (total : Q) (pos : Position) : Q :=
  let value := (quantity pos * cost_price pos)%Q in
  if Qlt_bool 0 total then ((value / total) * 100)%Q else 0%Q.

(** [updateWeights] *)
Definition updateWeights (w : World) : World :=
  let total := total_capital (fst w) in
  emit WeightsRecomputed
    (update (fun s =>
       setPositions (map (fun pos => setWeight (Some (weightOf total pos)) pos)
                         (positions s)) s) w).

(** The [data.data] of a quote reply: [price] and [name], each possibly absent. *)
Record QuoteData : Type := mkQuote {
  price : option Q;
  quote_name : option string
}.

(** How one quote request ends: it raises ([fetch] or [response.json()]),
    or [response.ok] is false, or a body arrives with its [success] flag and
    its [data] ([None] when falsy). *)
Inductive QuoteFetch : Type :=
| QuoteThrows
| QuoteNotOk
| QuoteBody (success : bool) (data : option QuoteData).

(** The quote the loop uses, if any. *)
Definition usableQuote (r : QuoteFetch) : option QuoteData :=
  match r with
  | QuoteBody true (Some q) => Some q
  | _ => None
  end.

Definition profitAt (pos : Position) (currentPrice : Q) : Q :=
  ((currentPrice - cost_price pos) * quantity pos)%Q.

Definition profitPctAt (pos : Position) (currentPrice : Q) : Q :=
  if Qlt_bool 0 (cost_price pos)
  then (((currentPrice / cost_price pos) - 1) * 100)%Q
  else 0%Q.

(** The assignments made to [pos] inside [if (data.success && data.data)]. *)
Definition applyQuote (q : QuoteData) (pos : Position) : Position :=
  let currentPrice := or_opt_num (price q) (cost_price pos) in
  {| id := id pos; ts_code := ts_code pos;
     name := or_opt_str (quote_name q) (name pos);
     quantity := quantity pos; cost_price := cost_price pos;
     current_price := price q;
     profit := Some (profitAt pos currentPrice);
     profit_pct := Some (profitPctAt pos currentPrice);
     weight := weight pos |}.

Definition quoteFailedText (code : string) : string :=
  ("获取 " ++ code ++ " 行情失败")%string.

(** Body of the [for] loop of [refreshQuotes] for one position: the request,
    then the position as the body leaves it. *)
Definition quoteOne (r : QuoteFetch) (pos : Position) (log : list Effect)
  : Position * list Effect :=
  let log1 := log ++ [QuoteRequest (ts_code pos)] in
  match r with
  | QuoteThrows => (pos, log1 ++ [ConsoleError (quoteFailedText (ts_code pos))])
  | QuoteNotOk => (pos, log1)
  | QuoteBody success data =>
      if success then
        match data with
        | Some q => (applyQuote q pos, log1)
        | None => (pos, log1)
        end
      else (pos, log1)
  end.

(** The [for] loop, one request after the other; [quote k code] answers the
    request number [k] of the batch, made for [code]. *)
Fixpoint quoteLoop (quote : nat -> string -> QuoteFetch) (k : nat)
         (ps : list Position) (log : list Effect) : list Position * list Effect :=
  match ps with
  | [] => ([], log)
  | pos :: rest =>
      let '(pos', log1) := quoteOne (quote k (ts_code pos)) pos log in
      let '(rest', log2) := quoteLoop quote (S k) rest log1 in
      (pos' :: rest', log2)
  end.

(** [refreshQuotes], the same text in both versions. *)
Definition refreshQuotes (quote : nat -> string -> QuoteFetch) (w : World) : World :=
  match positions (fst w) with
  | [] => w
  | _ :: _ =>
      let w1 := update (setLoading true) w in
      let '(ps, log) := quoteLoop quote 0 (positions (fst w1)) (snd w1) in
      let w2 := updateWeights (setPositions ps (fst w1), log) in
      update (setLoading false) w2
  end.

Definition resetForm (s : State) : State :=
  {| total_capital := total_capital s; positions := positions s;
     isEditing := false; editingIndex := None;
     isLoading := isLoading s;
     formData := {| form_ts_code := ""; form_name := "";
                    form_quantity := 100; form_cost_price := 0 |} |}.

Definition editPosition (index : nat) (s : State) : State :=
  match positions s !! index with
  | None => s
  | Some pos =>
      {| total_capital := total_capital s; positions := positions s;
         isEditing := true; editingIndex := Some index;
         isLoading := isLoading s;
         formData := {| form_ts_code := ts_code pos; form_name := name pos;
                        form_quantity := quantity pos;
                        form_cost_price := cost_price pos |} |}
  end.

(** The three checks at the head of [savePosition], the same in both
    versions: the alert of the first check that fails. *)
Definition validate (f : Form) : option string :=
  if negb (truthy_str (form_ts_code f)) then Some "请输入股票代码"
  else if Qle_bool (form_quantity f) 0
          || negb (Qeq_bool (rem (form_quantity f) 100) 0)
       then Some "持仓数量必须是100的正整数倍"
  else if Qle_bool (form_cost_price f) 0 then Some "请输入有效的成本价"
  else None.

Definition positionData (f : Form) : PositionData :=
  {| data_ts_code := toUpperCase (form_ts_code f);
     data_name := or_str (form_name f) (form_ts_code f);
     data_quantity := form_quantity f;
     data_cost_price := form_cost_price f |}.

(** The object literal typed [Position]: the derived fields are absent. *)
Definition freshPosition (d : PositionData) : Position :=
  {| id := None; ts_code := data_ts_code d; name := data_name d;
     quantity := data_quantity d; cost_price := data_cost_price d;
     current_price := None; profit := None; profit_pct := None;
     weight := None |}.

Definition isAlert (e : Effect) : bool :=
  match e with AlertShown _ => true | _ => false end.

Definition alerts (log : list Effect) : list Effect := List.filter isAlert log.

Definition isQuoteRequest (e : Effect) : bool :=
  match e with QuoteRequest _ => true | _ => false end.

(** [totalMarketValue] *)
Definition totalMarketValue (s : State) : Q :=
  fold_left (fun sum pos => (sum + quantity pos * cost_price pos)%Q) (positions s) 0%Q.

(** [totalProfit] *)
Definition totalProfit (s : State) : Q :=
  fold_left (fun sum pos => (sum + or_opt_num (profit pos) 0)%Q) (positions s) 0%Q.

End Ledger.

(** ** The manager persisted in localStorage *)

Module LocalManager.
Import Js Ledger.

(** [savePosition]. With an index beyond the end of the array the assignment
    leaves holes and [updateWeights] raises on the first of them: [Throw]. *)
Definition savePosition (w : World) : Completion World :=
  let s := fst w in
  match validate (formData s) with
  | Some text => Return (emit (AlertShown text) w)
  | None =>
      let position := freshPosition (positionData (formData s)) in
      match editingIndex s with
      | Some i =>
          if (i <? length (positions s))%nat then
            Return (updateWeights
                      (update resetForm
                         (update (setPositions (<[i := position]> (positions s))) w)))
          else if (i =? length (positions s))%nat then
            Return (updateWeights
                      (update resetForm
                         (update (setPositions (positions s ++ [position])) w)))
          else Throw "Cannot read properties of undefined"
      | None =>
          Return (updateWeights
                    (update resetForm
                       (update (setPositions (positions s ++ [position])) w)))
      end
  end.

(** [deletePosition] once the confirmation is given; [splice] ignores an
    index beyond the end. *)
Definition deletePosition (index : nat) (w : World) : World :=
  updateWeights
    (update (fun s => setPositions (take index (positions s)
                                    ++ drop (S index) (positions s)) s) w).

End LocalManager.

(** ** The manager backed by the portfolio API *)

Module PortfolioManager.
Import Js Clock Ledger.

(** [isMarketOpen] of the manager, with [new Date()] as its argument. *)
Definition isMarketOpen (now : JsDate) : bool :=
  let day := getDay now in
  if (day =? 0) || (day =? 6) then false
  else
    let time := getHours now * 100 + getMinutes now in
    ((930 <=? time) && (time <=? 1130)) || ((1300 <=? time) && (time <=? 1500)).

(** [adjustQuantity] *)
Definition adjustQuantity (delta : Q) (s : State) : State :=
  let newQty := (form_quantity (formData s) + delta)%Q in
  if Qle_bool 100 newQty then setQuantity newQty s else s.

(** What [validateQuantity] leaves in [formData.quantity]. *)
Definition snapQuantity (q : Q) : Q :=
  if Qlt_bool q 100 then 100%Q
  else if negb (Qeq_bool (rem q 100) 0)
       then (inject_Z (Math_round (q / 100)) * 100)%Q
  else q.

(** [validateQuantity] *)
Definition validateQuantity (s : State) : State :=
  let q := form_quantity (formData s) in
  if Qlt_bool q 100 then setQuantity 100 s
  else if negb (Qeq_bool (rem q 100) 0)
       then setQuantity (inject_Z (Math_round (q / 100)) * 100) s
  else s.

(** The [@change] handler of the quantity box; [parsed] is the result of
    [parseInt], [None] for NaN. *)
Definition onQuantityChange (parsed : option Z) (s : State) : State :=
  let n := match parsed with
           | Some z => if z =? 0 then 100 else z
           | None => 100
           end in
  validateQuantity (setQuantity (inject_Z n) s).

(** How [GET /api/portfolio] ends. *)
Inductive ListFetch : Type :=
| ListThrows
| ListNotArray
| ListArray (data : list Position).

(** The server as seen from the manager; [true] for a write that resolves,
    [false] for one that rejects. *)
Record Server : Type := mkServer {
  quote : nat -> string -> QuoteFetch;
  listPositions : ListFetch;
  putPosition : Z -> PositionData -> bool;
  postPosition : PositionData -> bool
}.

(** [fetchPositions]; the refresh it starts is run to its end, nothing else
    happening meanwhile. *)
Definition fetchPositions (srv : Server) (w : World) : World :=
  let w1 := emit GetPortfolio w in
  match listPositions srv with
  | ListThrows => emit (ConsoleError "加载持仓失败") w1
  | ListNotArray => w1
  | ListArray data => refreshQuotes (quote srv) (update (setPositions data) w1)
  end.

Definition saveFailed (w : World) : World :=
  emit (AlertShown "保存失败") (emit (ConsoleError "保存持仓失败") w).

Definition truthy_id (i : option Z) : option Z :=
  match i with
  | Some z => if z =? 0 then None else Some z
  | None => None
  end.

(** [savePosition] *)
Definition savePosition (srv : Server) (w : World) : World :=
  let s := fst w in
  match validate (formData s) with
  | Some text => emit (AlertShown text) w
  | None =>
      let body := positionData (formData s) in
      let finish (w' : World) := update resetForm (fetchPositions srv w') in
      match editingIndex s with
      | Some i =>
          match positions s !! i with
          | None => saveFailed w
          | Some pos =>
              match truthy_id (id pos) with
              | Some key =>
                  let w1 := emit (PutPosition key body) w in
                  if putPosition srv key body then finish w1 else saveFailed w1
              | None => finish w
              end
          end
      | None =>
          let w1 := emit (PostPosition body) w in
          if postPosition srv body then finish w1 else saveFailed w1
      end
  end.

(** [availableCapital] *)
Definition availableCapital (s : State) : Q :=
  (total_capital s - totalMarketValue s)%Q.

(** The three controls of the quantity group: the minus button (disabled
    while the quantity is 100 or less), the plus button, the text box. *)
Inductive QuantityControl : Type :=
| PressMinus
| PressPlus
| TypeQuantity (parsed : option Z).

Definition useControl (s : State) (c : QuantityControl) : State :=
  match c with
  | PressMinus =>
      if Qle_bool (form_quantity (formData s)) 100 then s
      else adjustQuantity (-100) s
  | PressPlus => adjustQuantity 100 s
  | TypeQuantity parsed => onQuantityChange parsed s
  end.

(** *** Daily diagnosis of the portfolio *)

Record Report : Type := mkReport {
  isDiagnosing : bool;
  diagnosisResult : option string;
  diagnosisRaw : option string
}.

(** How [POST /api/user/portfolio/diagnose] ends: the request or the reading
    of its body raises, or a body arrives with [success] (as a truth value),
    [diagnosis] and [error] (absent when [None]). *)
Inductive DiagnoseReply : Type :=
| DiagnoseRejects
| DiagnoseBody (success : bool) (diagnosis : string) (error : option string).

Inductive ReportEffect : Type :=
| DiagnoseRequest (total_capital : Q) (positions : list Position)
| ReportAlert (text : string)
| ReportConsoleError (text : string).

(** [diagnosePortfolio]; [render] stands for [marked.parse]. *)
Definition diagnosePortfolio (render : string -> Completion string)
           (reply : DiagnoseReply) (s : State) (r : Report)
  : Report * list ReportEffect :=
  match positions s with
  | [] => (r, [ReportAlert "请先添加持仓"])
  | _ :: _ =>
      let request := DiagnoseRequest (total_capital s) (positions s) in
      let failed := [ReportConsoleError "诊断失败"; ReportAlert "诊断请求失败"] in
      match reply with
      | DiagnoseRejects =>
          ({| isDiagnosing := false; diagnosisResult := None; diagnosisRaw := None |},
           request :: failed)
      | DiagnoseBody success diagnosis error =>
          if success then
            match render diagnosis with
            | Return html =>
                ({| isDiagnosing := false; diagnosisResult := Some html;
                    diagnosisRaw := Some diagnosis |}, [request])
            | Throw _ =>
                ({| isDiagnosing := false; diagnosisResult := None;
                    diagnosisRaw := Some diagnosis |}, request :: failed)
            end
          else
            ({| isDiagnosing := false; diagnosisResult := None; diagnosisRaw := None |},
             [request; ReportAlert ("诊断失败: " ++ or_opt_str error "未知错误")%string])
      end
  end.

(** The close button of the report. *)
Definition closeReport (r : Report) : Report :=
  {| isDiagnosing := isDiagnosing r; diagnosisResult := None;
     diagnosisRaw := diagnosisRaw r |}.

End PortfolioManager.

(** * Vocabulary of the statements *)

(** [sub] occurs in [s]. *)
Definition contains (sub s : string) : Prop :=
  exists pre post : string, s = (pre ++ sub ++ post)%string.

Module FlowVocabulary.
Import AnalysisFlow.

(** The four pieces of flow state a failed call must leave alone. *)
Definition kept (s s' : FlowState) : Prop :=
  currentStep s' = currentStep s
  /\ sectorAnalysis s' = sectorAnalysis s
  /\ selectedSectors s' = selectedSectors s
  /\ stockRecommendations s' = stockRecommendations s.

(** What holds of the component however the template drives it. *)
Definition flowInvariant (c : Component) : Prop :=
  selectionWithinAnalysis (refs c)
  /\ (currentStep (refs c) = Step1 -> selectedSectors (refs c) = [])
  /\ (inFlight c <> [] -> isLoading (refs c) = true)
  /\ (In PendingScan (inFlight c) -> currentStep (refs c) = Step1)
  /\ (length (inFlight c) <= 1)%nat.

Definition demoSector : Sector :=
  mkSector "Semiconductors" (26 # 5) 1200 "high" "buy" "policy support".

Definition demoAnalysis : SectorAnalysis :=
  mkSectorAnalysis "mixed session" "neutral" [demoSector] "volatile" "20240105".

Definition demoRecommendations : StockRecommendations :=
  mkStockRecommendations "one pick" [] "volatile" "20240105"
                         (Some ["Semiconductors"%string]).

(** The flow at step 2, the analysis on display, nothing selected yet. *)
Definition demoSelecting : FlowState :=
  mkFlow Step2 false None (Some demoAnalysis) [] None balanced.

(** A backend whose scan answers [r] and whose recommend call answers [r']. *)
Definition demoBackend (r : Reply SectorAnalysis) (r' : Reply StockRecommendations)
  : Backend :=
  mkBackend r (fun _ _ => r').

End FlowVocabulary.

Module LedgerVocabulary.
Import Js Ledger.

(** A position once its quote request has ended with [r]. *)
Definition positionAfter (r : QuoteFetch) (pos : Position) : Position :=
  match usableQuote r with
  | Some q => applyQuote q pos
  | None => pos
  end.

(** A position once [updateWeights] has run with total capital [total]:
    its weight is its quantity times its cost price as a percentage of the
    total, zero when the total is not positive; the other fields stay. *)
Definition reweighed (total : Q) (pos : Position) : Position :=
  {| id := id pos; ts_code := ts_code pos; name := name pos;
     quantity := quantity pos; cost_price := cost_price pos;
     current_price := current_price pos; profit := profit pos;
     profit_pct := profit_pct pos;
     weight := Some (if Qlt_bool 0 total
                     then ((quantity pos * cost_price pos / total) * 100)%Q
                     else 0%Q) |}.

(** The codes quotes were asked for, in the order of the requests. *)
Definition quoteRequests (log : list Effect) : list string :=
  flat_map (fun e => match e with QuoteRequest code => [code] | _ => [] end) log.

(** The price the profit is computed from: the one fetched, or the cost
    price when the fetched one is absent or zero. *)
Definition effectivePrice (q : QuoteData) (pos : Position) : Q :=
  or_opt_num (price q) (cost_price pos).

Definition isConsoleError (e : Effect) : bool :=
  match e with ConsoleError _ => true | _ => false end.

Definition moutai : Position :=
  mkPosition (Some 1) "600519.SH" "Moutai" 100 10 (Some 11%Q) (Some 100%Q)
             (Some 10%Q) (Some 1%Q).

Definition pingan : Position :=
  mkPosition (Some 2) "000001.SZ" "PingAn" 200 10 (Some 9%Q) (Some (-200)%Q)
             (Some (-10)%Q) (Some 2%Q).

Definition demoForm : Form := mkForm "600519.sh" "" 300 12.

Definition demoState : State :=
  mkState 100000 [moutai; pingan] false None false (mkForm "" "" 100 0).

(** The first request of a batch raises, the others bring a price of 12 and
    the name "Ping An Bank". *)
Definition demoQuote (k : nat) (code : string) : QuoteFetch :=
  match k with
  | O => QuoteThrows
  | S _ => QuoteBody true (Some (mkQuote (Some 12%Q) (Some "Ping An Bank"%string)))
  end.

(** The first request of a batch raises, the others bring a price of zero
    and no name. *)
Definition demoZeroQuote (k : nat) (code : string) : QuoteFetch :=
  match k with
  | O => QuoteThrows
  | S _ => QuoteBody true (Some (mkQuote (Some 0%Q) None))
  end.

(** The manager while the first position is being edited. *)
Definition demoEditing : State :=
  mkState 100000 [moutai; pingan] true (Some 0%nat) false demoForm.

(** A server whose writes resolve and whose list is [data]. *)
Definition demoServer (data : list Position) : PortfolioManager.Server :=
  PortfolioManager.mkServer demoQuote (PortfolioManager.ListArray data)
                            (fun _ _ => true) (fun _ => true).

End LedgerVocabulary.


Module DashboardVocabulary.
Import Js Dashboard.

(** Every code unit of [s] is white space. *)
Fixpoint allWhiteSpace (s : string) : bool :=
  match s with
  | EmptyString => true
  | String c rest => isWhiteSpace c && allWhiteSpace rest
  end.

(** Every code unit of [s] is below 128: the text is ASCII, so that its
    characters, its UTF-16 code units and its bytes are the same, and the
    white space [trim] strips from it is tab, line feed, vertical tab, form
    feed, carriage return and space. *)
Fixpoint isAscii (s : string) : bool :=
  match s with
  | EmptyString => true
  | String c rest => (nat_of_ascii c <? 128)%nat && isAscii rest
  end.

(** [s] starts with [pre]. *)
Definition startsWith (pre s : string) : Prop :=
  exists post : string, s = (pre ++ post)%string.

(** A [detail] the first rule of [parseApiError] takes up: a string that is
    not empty. *)
Definition usableDetail (v : JsVal) : bool :=
  match v with JStr s => truthy_str s | _ => false end.

(** A reply the scan or the diagnosis went through with. *)
Definition wentThrough (r : HttpReply) : bool :=
  match r with HttpBody true (BodyObject _ _ _ _ _) => true | _ => false end.

Definition repliedOk (r : HttpReply) : bool :=
  match r with HttpBody true _ => true | _ => false end.

Definition okBody (stock content signal : JsVal) : HttpReply :=
  HttpBody true (BodyObject JUndefined (JBool true) content stock signal).

Definition demoPanel : Panel :=
  mkPanel None [] false "600519.SH" None.

(** The oldest [n] pending timers run, one after the other. *)
Fixpoint fireTimers (n : nat) (p : Panel) : Panel :=
  match n with
  | O => p
  | S k => fireTimers k (timeoutFires p)
  end.

(** The banner on display, if any, has a timer pending that was set for
    its title. *)
Definition bannerHasTimer (p : Panel) : Prop :=
  forall b : Banner, errorMessage p = Some b -> In (title (alert b)) (timers p).

Definition isRequest (e : DashEffect) : bool :=
  match e with DashConsoleError _ => false | _ => true end.

(** The result a run of the diagnosis stores, when it stores one: both
    replies came with [response.ok] and a body, and the second does not say
    [success: false]. *)
Definition diagnosisOf (scan diagnose : HttpReply) : option DiagnoseResult :=
  match scan, diagnose with
  | HttpBody true (BodyObject _ _ _ _ scanSignal),
    HttpBody true (BodyObject _ success content stock signal) =>
      if isFalse success then None
      else Some (mkDiagnoseResult stock content (or_val scanSignal signal))
  | _, _ => None
  end.

End DashboardVocabulary.

Module FlowScenario.
Import AnalysisFlow FlowVocabulary.

(** The component after the scan button, after the scan reply, after a
    click on the one sector, and after the recommend button. *)
Definition demoScanning : Component := handle (mounted None) ClickAnalyze.

Definition demoChoosing : Component :=
  handle demoScanning (ScanSettles (Ok demoAnalysis)).

Definition demoChosen : Component :=
  handle demoChoosing (ClickSector "Semiconductors").

Definition demoWaiting : Component := handle demoChosen ClickRecommend.

(** The busy flag is up exactly while a request is on its way. *)
Definition busyWhileInFlight (c : Component) : Prop :=
  isLoading (refs c) = true <-> inFlight c <> [].

End FlowScenario.

Module LedgerAccounts.
Import Js Ledger LedgerVocabulary.

(** The weights of the positions, added up; a position without weight
    counts for nothing. *)
Definition sumWeights (ps : list Position) : Q :=
  fold_left (fun acc pos => (acc + or_opt_num (weight pos) 0)%Q) ps 0%Q.

(** Two positions with the same identity and the same cost basis. *)
Definition sameBasis (pos pos' : Position) : Prop :=
  id pos' = id pos /\ ts_code pos' = ts_code pos
  /\ quantity pos' = quantity pos /\ cost_price pos' = cost_price pos.

(** A quantity that is a multiple of 100, at least 100. *)
Definition boardLots (q : Q) : Prop :=
  exists k : Z, (1 <= k)%Z /\ (q == inject_Z k * 100)%Q.

(** [Number.MAX_SAFE_INTEGER]: up to it every whole number is a double. *)
Definition maxSafeInteger : Z := 9007199254740991.

(** A use of the quantity controls that stays within the whole numbers
    doubles hold exactly: no number typed into the box and no quantity the
    form goes through is beyond [maxSafeInteger]. There the sums, the
    remainders and the rounding of the controls come out in doubles as they
    do in exact arithmetic. *)
Fixpoint withinSafeIntegers (s : State) (cs : list PortfolioManager.QuantityControl)
  : Prop :=
  match cs with
  | [] => True
  | c :: rest =>
      match c with
      | PortfolioManager.TypeQuantity (Some z) => (Z.abs z <= maxSafeInteger)%Z
      | _ => True
      end
      /\ (form_quantity (formData (PortfolioManager.useControl s c))
          <= inject_Z maxSafeInteger)%Q
      /\ withinSafeIntegers (PortfolioManager.useControl s c) rest
  end.

(** The requests that write to the server. *)
Definition isWrite (e : Effect) : bool :=
  match e with PutPosition _ _ | PostPosition _ => true | _ => false end.

(** What a reload and its refresh may add to the log besides the reload
    itself: quote requests, console messages, the weight pass. *)
Definition refreshEffect (e : Effect) : bool :=
  match e with
  | QuoteRequest _ | ConsoleError _ | WeightsRecomputed => true
  | _ => false
  end.

(** The report on display is the rendering of the text kept for export. *)
Definition reportFromRaw (render : string -> Completion string)
           (r : PortfolioManager.Report) : Prop :=
  forall html : string,
    PortfolioManager.diagnosisResult r = Some html ->
    exists text : string,
      PortfolioManager.diagnosisRaw r = Some text /\ render text = Return html.

Definition isReportAlert (e : PortfolioManager.ReportEffect) : bool :=
  match e with PortfolioManager.ReportAlert _ => true | _ => false end.

Definition isDiagnoseRequest (e : PortfolioManager.ReportEffect) : bool :=
  match e with PortfolioManager.DiagnoseRequest _ _ => true | _ => false end.

(** A renderer that wraps the text in a paragraph. *)
Definition demoRender (text : string) : Completion string :=
  Return ("<p>" ++ text ++ "</p>")%string.

End LedgerAccounts.

(** * Properties *)

(** ** Strings *)

Section StringFacts.
Import Js.

Lemma append_nil (s : string) : (EmptyString ++ s)%string = s.
Proof. reflexivity. Qed.

Lemma append_cons (c : ascii) (a b : string) :
  (String c a ++ b)%string = String c (a ++ b)%string.
Proof. reflexivity. Qed.

Lemma prefix_true_iff (sub s : string) :
  String.prefix sub s = true <-> exists post : string, s = (sub ++ post)%string.
Proof.
  revert s. induction sub as [|c sub IH]; intros s.
  - split; [intros _; exists s; reflexivity | intros _; destruct s; reflexivity].
  - destruct s as [|d s]; simpl.
    + split; [discriminate | intros [post H]; rewrite append_cons in H; discriminate].
    + destruct (ascii_dec c d) as [->|Hne].
      * rewrite IH. split; intros [post H]; exists post.
        -- rewrite append_cons. now rewrite H.
        -- rewrite append_cons in H. now injection H.
      * split; [discriminate|].
        intros [post H]; rewrite append_cons in H; injection H; congruence.
Qed.

Lemma includes_nil (sub : string) :
  includes sub EmptyString = String.prefix sub EmptyString.
Proof. simpl. apply orb_false_r. Qed.

Lemma includes_cons (sub : string) (c : ascii) (s : string) :
  includes sub (String c s) = String.prefix sub (String c s) || includes sub s.
Proof. reflexivity. Qed.

Lemma includes_true_iff (sub s : string) :
  includes sub s = true <-> contains sub s.
Proof.
  induction s as [|c s IH].
  - rewrite includes_nil, prefix_true_iff. split.
    + intros [post H]. exists EmptyString, post. exact H.
    + intros [[|d pre] [post H]].
      * exists post; exact H.
      * rewrite append_cons in H. discriminate.
  - rewrite includes_cons, orb_true_iff, prefix_true_iff, IH. split.
    + intros [[post H] | [pre [post H]]].
      * exists EmptyString, post. exact H.
      * exists (String c pre), post. rewrite append_cons. now rewrite H.
    + intros [[|d pre] [post H]].
      * left. exists post. exact H.
      * right. exists pre, post. rewrite append_cons in H. now injection H.
Qed.


End StringFacts.

(** ** Trading session *)

Section Session.
Import Clock.

Lemma manager_session_minutes (now : JsDate) :
  wellFormed now ->
  PortfolioManager.isMarketOpen now = true <->
  ~ weekend now
  /\ (570 <= minuteOfDay now <= 690 \/ 780 <= minuteOfDay now <= 900).
Proof.
  unfold wellFormed, weekend, minuteOfDay, PortfolioManager.isMarketOpen.
  destruct now as [day h m sec]; simpl. intros (Hd & Hh & Hm & _).
  destruct (day =? 0) eqn:E0; [apply Z.eqb_eq in E0|apply Z.eqb_neq in E0];
    simpl; [split; [discriminate | intros [Hw _]; exfalso; apply Hw; now left]|].
  destruct (day =? 6) eqn:E6; [apply Z.eqb_eq in E6|apply Z.eqb_neq in E6];
    simpl; [split; [discriminate | intros [Hw _]; exfalso; apply Hw; now right]|].
  rewrite orb_true_iff, !andb_true_iff, !Z.leb_le. split.
  - intros H. split; [intros [?|?]; contradiction | lia].
  - intros [_ H]. lia.
Qed.

Lemma dashboard_same_session (now : JsDate) :
  Dashboard.isMarketOpen now = PortfolioManager.isMarketOpen now.
Proof. reflexivity. Qed.

(** C9. [isMarketOpen], in the manager and in the dashboard, depends on the
    clock reading alone (day of week, hour, minute), is false on Saturday and
    Sunday, and on the other days is true exactly when the time of day lies
    in 09:30..11:30 or 13:00..15:00, the four boundary minutes included. *)
Theorem isMarketOpen_sessions (now : JsDate) :
  wellFormed now ->
  (weekend now -> PortfolioManager.isMarketOpen now = false)
  /\ (PortfolioManager.isMarketOpen now = true <->
      ~ weekend now
      /\ (9 * 60 + 30 <= minuteOfDay now <= 11 * 60 + 30
          \/ 13 * 60 <= minuteOfDay now <= 15 * 60))
  /\ Dashboard.isMarketOpen now = PortfolioManager.isMarketOpen now
  /\ (forall sec : Z,
        PortfolioManager.isMarketOpen
          (mkDate (getDay now) (getHours now) (getMinutes now) sec)
        = PortfolioManager.isMarketOpen now).
Proof.
  intros Hwf. split; [|split; [|split]].
  - intros Hw. destruct (PortfolioManager.isMarketOpen now) eqn:E; [|reflexivity].
    apply (manager_session_minutes now Hwf) in E. now destruct E.
  - apply (manager_session_minutes now Hwf).
  - apply dashboard_same_session.
  - intros sec. reflexivity.
Qed.

Lemma isMarketOpen_sessions_witness :
  wellFormed (mkDate 1 11 30 59)
  /\ PortfolioManager.isMarketOpen (mkDate 1 11 30 59) = true
  /\ PortfolioManager.isMarketOpen (mkDate 1 11 31 0) = false
  /\ PortfolioManager.isMarketOpen (mkDate 6 10 0 0) = false.
Proof.
  assert (Hwf : wellFormed (mkDate 1 11 30 59)) by (unfold wellFormed; simpl; lia).
  split; [exact Hwf|].
  split; [|split; reflexivity].
  apply (proj1 (proj2 (isMarketOpen_sessions (mkDate 1 11 30 59) Hwf))).
  unfold weekend, minuteOfDay; simpl. split; [lia | left; lia].
Defined.

End Session.

(** ** Error classification *)

Section Classifier.
Import Js Dashboard.




End Classifier.

(** ** Analysis flow *)

Section Flow.
Import Js AnalysisFlow FlowVocabulary.

Lemma set_has_In (s : StringSet) (x : string) :
  set_has s x = true <-> In x s.
Proof.
  unfold set_has. rewrite existsb_exists. split.
  - intros [y [Hy E]]. apply String.eqb_eq in E. now subst.
  - intros H. exists x. split; [exact H | apply String.eqb_refl].
Qed.

Lemma set_delete_In (s : StringSet) (x y : string) :
  In y (set_delete s x) <-> In y s /\ y <> x.
Proof.
  unfold set_delete. rewrite filter_In, negb_true_iff, String.eqb_neq.
  split; intros [H1 H2]; split; auto.
Qed.

Lemma toggleSector_In (name : string) (s : FlowState) (y : string) :
  In y (selectedSectors (toggleSector name s)) ->
  In y (selectedSectors s) \/ y = name.
Proof.
  unfold toggleSector; simpl.
  destruct (set_has (selectedSectors s) name) eqn:E.
  - rewrite set_delete_In. tauto.
  - unfold set_add. rewrite E, in_app_iff. simpl. intuition.
Qed.

Lemma within_nil (s : FlowState) :
  selectedSectors s = [] -> selectionWithinAnalysis s.
Proof. unfold selectionWithinAnalysis. intros -> x []. Qed.

Lemma isStep_eq (st : Step) (s : FlowState) :
  isStep st s = true <-> currentStep s = st.
Proof.
  unfold isStep. destruct st, (currentStep s); split; congruence.
Qed.

Lemma pending_single (l : list Pending) (p : Pending) :
  (length l <= 1)%nat -> existsb (isPending p) l = true ->
  l = [p] /\ removeFirst p l = [].
Proof.
  destruct l as [|q [|q' l]]; simpl; try discriminate; try lia.
  intros _. rewrite orb_false_r. destruct p, q; simpl; try discriminate; auto.
Qed.

Lemma mounted_invariant (saved : option string) : flowInvariant (mounted saved).
Proof.
  assert (H : forall f, currentStep (onMounted saved f) = currentStep f
                        /\ selectedSectors (onMounted saved f) = selectedSectors f).
  { intros f. unfold onMounted. destruct saved as [v|]; [|auto].
    destruct (parseRisk v); auto. }
  destruct (H initial) as [H1 H2].
  unfold flowInvariant, mounted; simpl. repeat split.
  - apply within_nil. now rewrite H2.
  - intros _. now rewrite H2.
  - congruence.
  - intros [].
  - lia.
Qed.

Lemma showsStep2_true (s : FlowState) :
  showsStep2 s = true -> currentStep s = Step2.
Proof. unfold showsStep2. rewrite andb_true_iff, isStep_eq. tauto. Qed.

Lemma showsStep3_true (s : FlowState) :
  showsStep3 s = true -> currentStep s = Step3.
Proof. unfold showsStep3. rewrite andb_true_iff, isStep_eq. tauto. Qed.

Lemma idle_when_not_loading (s : FlowState) (fl : list Pending) :
  (fl <> [] -> isLoading s = true) -> negb (isLoading s) = true -> fl = [].
Proof.
  intros Hbusy Hl. destruct fl as [|p fl]; [reflexivity|].
  rewrite Hbusy in Hl by discriminate. discriminate.
Qed.

Ltac close_invariant :=
  repeat split; auto; try congruence; try lia; try tauto;
  try (apply within_nil; solve [auto | reflexivity]).

Lemma step_invariant (c c' : Component) (e : Event) :
  flowInvariant c -> step c e = Some c' -> flowInvariant c'.
Proof.
  unfold step. destruct (enabled c e) eqn:En; [|discriminate].
  intros (Hsub & Hone & Hbusy & Hscan & Hlen) [= <-].
  destruct c as [s fl]. unfold enabled in En. cbn [refs inFlight] in *.
  destruct e; cbn [handle refs inFlight].
  - (* ClickRisk *)
    unfold flowInvariant; cbn. close_invariant.
  - (* ClickAnalyze *)
    apply andb_true_iff in En as [Est Hl]. apply isStep_eq in Est.
    rewrite (idle_when_not_loading s fl Hbusy Hl).
    unfold flowInvariant; cbn. close_invariant.
  - (* ScanSettles *)
    destruct (pending_single fl PendingScan Hlen En) as [-> ->].
    assert (Est : currentStep s = Step1) by (apply Hscan; now left).
    specialize (Hone Est).
    unfold flowInvariant, analyzeSectors_settle, failWith.
    destruct r; cbn; close_invariant.
  - (* ClickSector *)
    apply andb_true_iff in En as [Esh Hin].
    pose proof (showsStep2_true s Esh) as Est.
    assert (Hsub' : selectionWithinAnalysis (toggleSector name0 s)).
    { intros y Hy. apply toggleSector_In in Hy as [Hy | ->].
      - apply Hsub, Hy.
      - apply existsb_exists in Hin as [z [Hz E]].
        apply String.eqb_eq in E. now subst. }
    unfold flowInvariant; cbn [refs inFlight].
    split; [exact Hsub'|]. cbn. close_invariant.
    all: try (intros Hp; specialize (Hscan Hp); congruence).
  - (* ClickRecommend *)
    apply andb_true_iff in En as [En Hl]. apply andb_true_iff in En as [Esh Hsel].
    pose proof (showsStep2_true s Esh) as Est.
    rewrite (idle_when_not_loading s fl Hbusy Hl).
    unfold recommendStocks_begin. rewrite Hsel.
    unfold flowInvariant; cbn. close_invariant.
    all: try (intros [E | []]; discriminate).
  - (* RecommendSettles *)
    destruct (pending_single fl PendingRecommend Hlen En) as [-> ->].
    unfold flowInvariant, recommendStocks_settle, failWith.
    destruct r; cbn; close_invariant.
  - (* ClickBack *)
    unfold flowInvariant, goBack.
    apply orb_true_iff in En as [E | E];
      [apply showsStep2_true in E | apply showsStep3_true in E]; rewrite E;
      cbn; close_invariant.
    all: try (intros Hp; specialize (Hscan Hp); congruence).
  - (* ClickRestart *)
    unfold flowInvariant; cbn. close_invariant.
  - (* ClickCloseError *)
    unfold flowInvariant; cbn. close_invariant.
Qed.

Lemma reachable_invariant (c : Component) : reachable c -> flowInvariant c.
Proof.
  induction 1 as [saved | c e c' _ IH Hstep].
  - apply mounted_invariant.
  - exact (step_invariant c c' e IH Hstep).
Qed.

End Flow.

Section FlowClaims.
Import Js AnalysisFlow FlowVocabulary FlowScenario.

Lemma failed_scan_kept (r : Reply SectorAnalysis) (s : FlowState) :
  succeeded r = false -> kept s (analyzeSectors_settle r s).
Proof. destruct r; [| |discriminate]; intros _; repeat split. Qed.

Lemma failed_recommend_kept (r : Reply StockRecommendations) (s : FlowState) :
  succeeded r = false -> kept s (recommendStocks_settle r s).
Proof. destruct r; [| |discriminate]; intros _; repeat split. Qed.

Lemma hasSelectedSectors_false (s : FlowState) :
  hasSelectedSectors s = false <-> selectedSectors s = [].
Proof.
  unfold hasSelectedSectors, Nat.ltb.
  destruct (selectedSectors s); simpl; split; congruence.
Qed.




(** C3. With an empty selection [recommendStocks] stores the validation
    message, sends no request and leaves step, analysis, selection,
    recommendations and the loading flag as they were; with a non-empty
    selection it sends exactly one request, carrying the selection and the
    risk preference. *)
Theorem recommendStocks_needs_selection (net : Backend) (s : FlowState) :
  (selectedSectors s = [] ->
     snd (recommendStocks net s) = []
     /\ errorMessage (fst (recommendStocks net s)) = Some "请至少选择一个板块"
     /\ kept s (fst (recommendStocks net s))
     /\ isLoading (fst (recommendStocks net s)) = isLoading s)
  /\ (selectedSectors s <> [] ->
     snd (recommendStocks net s)
     = [PostStocks (selectedSectors s) (riskPreference s)]).
Proof.
  unfold recommendStocks, recommendStocks_begin. split.
  - intros H. apply hasSelectedSectors_false in H. rewrite H. cbn.
    repeat split.
  - intros H. destruct (hasSelectedSectors s) eqn:E.
    + reflexivity.
    + apply hasSelectedSectors_false in E. contradiction.
Qed.

Lemma recommendStocks_needs_selection_witness :
  selectedSectors initial = []
  /\ snd (recommendStocks (demoBackend (Ok demoAnalysis) (Ok demoRecommendations))
                          initial) = []
  /\ selectedSectors (toggleSector "Semiconductors" initial) <> []
  /\ snd (recommendStocks (demoBackend (Ok demoAnalysis) (Ok demoRecommendations))
                          (toggleSector "Semiconductors" initial))
     = [PostStocks ["Semiconductors"%string] balanced].
Proof.
  split; [reflexivity|]. split.
  - exact (proj1 (proj1 (recommendStocks_needs_selection
                           (demoBackend (Ok demoAnalysis) (Ok demoRecommendations))
                           initial) eq_refl)).
  - assert (H : selectedSectors (toggleSector "Semiconductors" initial) <> [])
      by discriminate.
    split; [exact H|].
    exact (proj2 (recommendStocks_needs_selection
                    (demoBackend (Ok demoAnalysis) (Ok demoRecommendations))
                    (toggleSector "Semiconductors" initial)) H).
Defined.

(** C4. When the scan or the recommend request fails (rejected, or answered
    without [response.ok]), the call leaves the step, the analysis, the
    selection and the recommendations exactly as they were, with the loading
    flag down and an error text stored; the same holds of the part of each
    call that runs once the reply is in. *)
Theorem failed_call_keeps_state (net : Backend) (s : FlowState) :
  (succeeded (scanSectors net) = false ->
     kept s (fst (analyzeSectors net s))
     /\ isLoading (fst (analyzeSectors net s)) = false
     /\ isSome (errorMessage (fst (analyzeSectors net s))) = true)
  /\ (succeeded (recommend net (selectedSectors s) (riskPreference s)) = false ->
     kept s (fst (recommendStocks net s))
     /\ isSome (errorMessage (fst (recommendStocks net s))) = true)
  /\ (forall r : Reply SectorAnalysis,
        succeeded r = false -> kept s (analyzeSectors_settle r s))
  /\ (forall r : Reply StockRecommendations,
        succeeded r = false -> kept s (recommendStocks_settle r s)).
Proof.
  split; [|split; [|split]].
  - intros H. unfold analyzeSectors; cbn.
    destruct (scanSectors net); [| |discriminate]; cbn; repeat split.
  - intros H. unfold recommendStocks, recommendStocks_begin.
    destruct (hasSelectedSectors s); cbn; [|repeat split].
    destruct (recommend net (selectedSectors s) (riskPreference s));
      [| |discriminate]; cbn; repeat split.
  - intros r. apply failed_scan_kept.
  - intros r. apply failed_recommend_kept.
Qed.

Lemma failed_call_keeps_state_witness :
  succeeded (scanSectors (demoBackend (NotOk (Some "502"%string)) (Rejects "down")))
  = false
  /\ kept (toggleSector "Semiconductors" initial)
          (fst (analyzeSectors
                  (demoBackend (NotOk (Some "502"%string)) (Rejects "down"))
                  (toggleSector "Semiconductors" initial)))
  /\ kept (toggleSector "Semiconductors" initial)
          (fst (recommendStocks
                  (demoBackend (NotOk (Some "502"%string)) (Rejects "down"))
                  (toggleSector "Semiconductors" initial))).
Proof.
  split; [reflexivity|]. split.
  - exact (proj1 (proj1 (failed_call_keeps_state
                           (demoBackend (NotOk (Some "502"%string)) (Rejects "down"))
                           (toggleSector "Semiconductors" initial)) eq_refl)).
  - exact (proj1 (proj1 (proj2 (failed_call_keeps_state
                           (demoBackend (NotOk (Some "502"%string)) (Rejects "down"))
                           (toggleSector "Semiconductors" initial))) eq_refl)).
Defined.

End FlowClaims.

Section SelectionClaims.
Import Js AnalysisFlow FlowVocabulary.

Lemma within_no_analysis (s : FlowState) :
  selectionWithinAnalysis s -> sectorAnalysis s = None -> selectedSectors s = [].
Proof.
  unfold selectionWithinAnalysis. intros H E. rewrite E in H. simpl in H.
  destruct (selectedSectors s) as [|x l]; [reflexivity|].
  destruct (H x (or_introl eq_refl)).
Qed.

(** C6, as the code has it. In every state the component reaches when
    driven through its template, the selection holds only names of sectors
    of the analysis on display, and is empty when there is none; the template
    offers a toggle only at step 2 and only for those names.
    [toggleSector] itself does not look at the analysis: it adds any name
    that is not selected and removes any name that is. *)
Theorem selection_within_analysis :
  (forall c : Component,
      reachable c ->
      selectionWithinAnalysis (refs c)
      /\ (sectorAnalysis (refs c) = None -> selectedSectors (refs c) = []))
  /\ (forall (c c' : Component) (name : string),
        step c (ClickSector name) = Some c' ->
        currentStep (refs c) = Step2
        /\ In name (sectorNames (sectorAnalysis (refs c))))
  /\ (forall (name : string) (s : FlowState),
        ~ In name (selectedSectors s) ->
        selectedSectors (toggleSector name s) = selectedSectors s ++ [name])
  /\ (forall (name : string) (s : FlowState),
        In name (selectedSectors s) ->
        ~ In name (selectedSectors (toggleSector name s))
        /\ (forall y : string,
              y <> name ->
              In y (selectedSectors (toggleSector name s)) <-> In y (selectedSectors s))).
Proof.
  split; [|split; [|split]].
  - intros c Hr. destruct (reachable_invariant c Hr) as (Hsub & _).
    split; [exact Hsub | apply within_no_analysis, Hsub].
  - intros c c' name Hstep. unfold step in Hstep.
    destruct (enabled c (ClickSector name)) eqn:En; [|discriminate].
    cbn in En. apply andb_true_iff in En as [Esh Hin].
    split; [apply showsStep2_true, Esh|].
    apply existsb_exists in Hin as [z [Hz E]].
    apply String.eqb_eq in E. now subst.
  - intros name s Hn. unfold toggleSector; cbn.
    destruct (set_has (selectedSectors s) name) eqn:E.
    + apply set_has_In in E. contradiction.
    + unfold set_add. now rewrite E.
  - intros name s Hin. apply set_has_In in Hin.
    unfold toggleSector; cbn. rewrite Hin. split.
    + rewrite set_delete_In. tauto.
    + intros y Hy. rewrite set_delete_In. tauto.
Qed.

Lemma selection_within_analysis_witness :
  reachable (mkComponent
               (mkFlow Step2 false None (Some demoAnalysis)
                       ["Semiconductors"%string] None balanced) [])
  /\ selectionWithinAnalysis
       (mkFlow Step2 false None (Some demoAnalysis)
               ["Semiconductors"%string] None balanced).
Proof.
  assert (Hr : reachable (mkComponent
                            (mkFlow Step2 false None (Some demoAnalysis)
                                    ["Semiconductors"%string] None balanced) [])).
  { pose (c1 := handle (mounted None) ClickAnalyze).
    pose (c2 := handle c1 (ScanSettles (Ok demoAnalysis))).
    apply (reach_step c2 (ClickSector "Semiconductors")); [|reflexivity].
    apply (reach_step c1 (ScanSettles (Ok demoAnalysis))); [|reflexivity].
    apply (reach_step (mounted None) ClickAnalyze); [|reflexivity].
    exact (reach_mounted None). }
  split; [exact Hr|].
  exact (proj1 (proj1 selection_within_analysis _ Hr)).
Defined.

(** C6 as stated fails: at step 2, with an analysis on display,
    [toggleSector] on a name that is no sector of that analysis is not a
    no-op; the name enters the selection, which then leaves the analysis. *)
Lemma toggleSector_unlisted_name :
  sectorNames (sectorAnalysis demoSelecting) = ["Semiconductors"%string]
  /\ selectionWithinAnalysis demoSelecting
  /\ selectedSectors demoSelecting = []
  /\ selectedSectors (toggleSector "Banks" demoSelecting) = ["Banks"%string]
  /\ ~ selectionWithinAnalysis (toggleSector "Banks" demoSelecting).
Proof.
  split; [reflexivity|]. split; [intros x []|]. split; [reflexivity|].
  split; [reflexivity|].
  intros H. destruct (H "Banks"%string (or_introl eq_refl)) as [E | []].
  discriminate E.
Qed.

End SelectionClaims.

(** ** Quote refresh *)

Section Comparisons.
Import Js.
Local Open Scope Q_scope.

Lemma Qlt_bool_true (x y : Q) : Qlt_bool x y = true <-> x < y.
Proof.
  unfold Qlt_bool. rewrite negb_true_iff. split.
  - intros H. apply Qnot_le_lt. intros Hle.
    apply Qle_bool_iff in Hle. congruence.
  - intros H. destruct (Qle_bool y x) eqn:E; [|reflexivity].
    apply Qle_bool_iff in E. exfalso. exact (Qlt_not_le _ _ H E).
Qed.

Lemma Qlt_bool_false (x y : Q) : Qlt_bool x y = false <-> y <= x.
Proof.
  unfold Qlt_bool. rewrite negb_false_iff. apply Qle_bool_iff.
Qed.

End Comparisons.

Section QuoteRefresh.
Import Js Ledger LedgerVocabulary.

Variable quote : nat -> string -> QuoteFetch.

Lemma quoteOne_fst (r : QuoteFetch) (pos : Position) (log : list Effect) :
  fst (quoteOne r pos log) = positionAfter r pos.
Proof.
  unfold quoteOne, positionAfter, usableQuote.
  destruct r as [| |[] [q|]]; reflexivity.
Qed.

Lemma quoteOne_snd (r : QuoteFetch) (pos : Position) (log : list Effect) :
  exists errs : list Effect,
    snd (quoteOne r pos log) = log ++ QuoteRequest (ts_code pos) :: errs
    /\ forallb isConsoleError errs = true.
Proof.
  unfold quoteOne.
  destruct r as [| |[] [q|]]; cbn [snd];
    try (exists []; split; [reflexivity | reflexivity]).
  exists [ConsoleError (quoteFailedText (ts_code pos))].
  split; [now rewrite <- app_assoc | reflexivity].
Qed.

Lemma quoteLoop_length (ps : list Position) :
  forall (k : nat) (log : list Effect),
    length (fst (quoteLoop quote k ps log)) = length ps.
Proof.
  induction ps as [|pos ps IH]; intros k log; cbn [quoteLoop]; [reflexivity|].
  destruct (quoteOne (quote k (ts_code pos)) pos log) as [pos' log1].
  specialize (IH (S k) log1).
  destruct (quoteLoop quote (S k) ps log1) as [rest log2].
  cbn in *. now rewrite IH.
Qed.

Lemma quoteLoop_lookup (ps : list Position) :
  forall (k : nat) (log : list Effect) (i : nat) (pos : Position),
    ps !! i = Some pos ->
    fst (quoteLoop quote k ps log) !! i
    = Some (positionAfter (quote (k + i)%nat (ts_code pos)) pos).
Proof.
  induction ps as [|p ps IH]; intros k log i pos Hi; [discriminate|].
  cbn [quoteLoop].
  pose proof (quoteOne_fst (quote k (ts_code p)) p log) as H1.
  destruct (quoteOne (quote k (ts_code p)) p log) as [pos' log1].
  specialize (IH (S k) log1).
  destruct (quoteLoop quote (S k) ps log1) as [rest log2].
  cbn [fst] in *. destruct i as [|i].
  - cbn in Hi |- *. injection Hi as <-. rewrite Nat.add_0_r. now rewrite H1.
  - change (ps !! i = Some pos) in Hi.
    change (rest !! i
            = Some (positionAfter (quote (k + S i)%nat (ts_code pos)) pos)).
    rewrite (IH i pos Hi). now rewrite Nat.add_succ_r.
Qed.

Lemma quoteRequests_app (l1 l2 : list Effect) :
  quoteRequests (l1 ++ l2) = quoteRequests l1 ++ quoteRequests l2.
Proof. unfold quoteRequests. apply flat_map_app. Qed.

Lemma alerts_app (l1 l2 : list Effect) :
  alerts (l1 ++ l2) = alerts l1 ++ alerts l2.
Proof. unfold alerts. apply List.filter_app. Qed.

(** What a log made of console errors only contains. *)
Lemma console_only (errs : list Effect) :
  forallb isConsoleError errs = true ->
  quoteRequests errs = [] /\ alerts errs = [] /\ ~ In WeightsRecomputed errs.
Proof.
  induction errs as [|e errs IH]; cbn; [intros _; repeat split; tauto|].
  intros H. apply andb_true_iff in H as [He Hrest].
  destruct (IH Hrest) as (IH1 & IH2 & IH3).
  destruct e; try discriminate. cbn. repeat split; auto.
  intros [E | E]; [discriminate | contradiction].
Qed.

Lemma quoteLoop_log (ps : list Position) :
  forall (k : nat) (log : list Effect),
  exists mid : list Effect,
    snd (quoteLoop quote k ps log) = log ++ mid
    /\ quoteRequests mid = map ts_code ps
    /\ alerts mid = []
    /\ ~ In WeightsRecomputed mid.
Proof.
  induction ps as [|p ps IH]; intros k log; cbn [quoteLoop].
  - exists []. rewrite app_nil_r. repeat split. intros [].
  - destruct (quoteOne_snd (quote k (ts_code p)) p log) as (errs & H1 & Herrs).
    destruct (quoteOne (quote k (ts_code p)) p log) as [pos' log1].
    destruct (IH (S k) log1) as (mid & H2 & Hreq & Hal & Hw).
    destruct (quoteLoop quote (S k) ps log1) as [rest log2].
    cbn [snd] in *. destruct (console_only errs Herrs) as (E1 & E2 & E3).
    exists (QuoteRequest (ts_code p) :: errs ++ mid). repeat split.
    + rewrite H2, H1, <- app_assoc. reflexivity.
    + change (QuoteRequest (ts_code p) :: errs ++ mid)
        with ([QuoteRequest (ts_code p)] ++ errs ++ mid).
      rewrite !quoteRequests_app, E1, Hreq. reflexivity.
    + change (QuoteRequest (ts_code p) :: errs ++ mid)
        with ([QuoteRequest (ts_code p)] ++ errs ++ mid).
      rewrite !alerts_app, E2, Hal. reflexivity.
    + intros [E | E]; [discriminate|].
      apply in_app_iff in E as [E | E]; contradiction.
Qed.

(** [refreshQuotes] on a ledger that holds something, spelled out. *)
Lemma refreshQuotes_unfold (s : State) (log : list Effect) :
  positions s <> [] ->
  refreshQuotes quote (s, log)
  = (setLoading false
       (setPositions
          (map (reweighed (total_capital s))
               (fst (quoteLoop quote 0 (positions s) log)))
          (setLoading true s)),
     snd (quoteLoop quote 0 (positions s) log) ++ [WeightsRecomputed]).
Proof.
  intros Hne. unfold refreshQuotes. cbn [fst].
  destruct (positions s) as [|p ps] eqn:E; [contradiction|].
  unfold update. cbn [fst snd]. cbn [setLoading positions]. rewrite E.
  destruct (quoteLoop quote 0 (p :: ps) log) as [ps' log'].
  reflexivity.
Qed.

End QuoteRefresh.

Section QuoteClaims.
Import Js Ledger LedgerVocabulary.

(** A fetched price other than zero is the price the profit is computed from. *)
Lemma effectivePrice_fetched (q : QuoteData) (pos : Position) (p : Q) :
  price q = Some p -> ~ (p == 0)%Q -> effectivePrice q pos = p.
Proof.
  intros Hp Hnz. unfold effectivePrice, or_opt_num, truthy_num. rewrite Hp.
  destruct (Qeq_bool p 0) eqn:E; [|reflexivity].
  apply Qeq_bool_iff in E. contradiction.
Qed.

(** Without a usable fetched price the cost price stands in, and the profit
    computed is zero. *)
Lemma effectivePrice_fallback (q : QuoteData) (pos : Position) :
  price q = None \/ (exists p : Q, price q = Some p /\ (p == 0)%Q) ->
  effectivePrice q pos = cost_price pos.
Proof.
  unfold effectivePrice, or_opt_num, truthy_num.
  intros [-> | (p & -> & Hz)]; [reflexivity|].
  apply Qeq_bool_iff in Hz. now rewrite Hz.
Qed.

Lemma refreshed_position (quote : nat -> string -> QuoteFetch)
      (s : State) (log : list Effect) (i : nat) (pos : Position) :
  positions s !! i = Some pos ->
  positions (fst (refreshQuotes quote (s, log))) !! i
  = Some (reweighed (total_capital s)
                    (positionAfter (quote i (ts_code pos)) pos)).
Proof.
  intros Hi.
  assert (Hne : positions s <> []) by (intros E; rewrite E in Hi; discriminate).
  rewrite (refreshQuotes_unfold quote s log Hne). cbn [fst positions setLoading setPositions].
  rewrite list_lookup_fmap.
  rewrite (quoteLoop_lookup quote (positions s) 0 log i pos Hi). reflexivity.
Qed.

(** C1, as the code has it. A refresh of a ledger that holds positions runs
    to its end whatever the single quote requests do: one request is made
    per position, in order. A position whose request brought a quote takes
    the fetched price as [current_price]; its [profit] and [profit_pct] are
    computed from the fetched price when that is a number other than zero,
    and are zero when the fetched price is zero or absent, the cost price
    standing in for it; [profit_pct] is zero whenever the cost price is not
    positive. A position whose request raised, came back not ok or without a
    successful payload keeps [current_price], [profit], [profit_pct] and
    [name]. No alert is raised. The weight pass comes after all the requests
    and gives every position its quantity times its cost price as a
    percentage of the total capital, zero when the total capital is not
    positive. The loading flag is down at the end. *)
Theorem refreshQuotes_isolates_failures
        (quote : nat -> string -> QuoteFetch) (s : State) (log : list Effect) :
  positions s <> [] ->
  isLoading (fst (refreshQuotes quote (s, log))) = false
  /\ length (positions (fst (refreshQuotes quote (s, log)))) = length (positions s)
  /\ (forall (i : nat) (pos : Position),
        positions s !! i = Some pos ->
        exists pos' : Position,
          positions (fst (refreshQuotes quote (s, log))) !! i = Some pos'
          /\ ts_code pos' = ts_code pos
          /\ quantity pos' = quantity pos
          /\ cost_price pos' = cost_price pos
          /\ ((0 < total_capital s)%Q ->
              weight pos'
              = Some ((quantity pos * cost_price pos / total_capital s) * 100)%Q)
          /\ ((total_capital s <= 0)%Q -> weight pos' = Some 0%Q)
          /\ match quote i (ts_code pos) with
             | QuoteBody true (Some q) =>
                 current_price pos' = price q
                 /\ (forall p : Q,
                       price q = Some p -> ~ (p == 0)%Q ->
                       profit pos' = Some ((p - cost_price pos) * quantity pos)%Q
                       /\ ((0 < cost_price pos)%Q ->
                           profit_pct pos'
                           = Some (((p / cost_price pos) - 1) * 100)%Q)
                       /\ ((cost_price pos <= 0)%Q -> profit_pct pos' = Some 0%Q))
                 /\ (price q = None
                     \/ (exists p : Q, price q = Some p /\ (p == 0)%Q) ->
                     (exists v : Q, profit pos' = Some v /\ (v == 0)%Q)
                     /\ (exists v : Q, profit_pct pos' = Some v /\ (v == 0)%Q))
             | _ =>
                 current_price pos' = current_price pos
                 /\ profit pos' = profit pos
                 /\ profit_pct pos' = profit_pct pos
                 /\ name pos' = name pos
             end)
  /\ alerts (snd (refreshQuotes quote (s, log))) = alerts log
  /\ (exists mid : list Effect,
        snd (refreshQuotes quote (s, log)) = log ++ mid ++ [WeightsRecomputed]
        /\ quoteRequests mid = map ts_code (positions s)
        /\ ~ In WeightsRecomputed mid).
Proof.
  intros Hne. split; [|split; [|split; [|split]]].
  - now rewrite (refreshQuotes_unfold quote s log Hne).
  - rewrite (refreshQuotes_unfold quote s log Hne).
    cbn [fst positions setLoading setPositions].
    now rewrite length_map, quoteLoop_length.
  - intros i pos Hi. eexists. split; [apply refreshed_position, Hi|].
    assert (Hkeep : forall p : Position,
               ts_code (reweighed (total_capital s) p) = ts_code p
               /\ quantity (reweighed (total_capital s) p) = quantity p
               /\ cost_price (reweighed (total_capital s) p) = cost_price p)
      by (intros p; repeat split).
    assert (Hw : forall p : Position,
               quantity p = quantity pos -> cost_price p = cost_price pos ->
               ((0 < total_capital s)%Q ->
                weight (reweighed (total_capital s) p)
                = Some ((quantity pos * cost_price pos / total_capital s) * 100)%Q)
               /\ ((total_capital s <= 0)%Q ->
                   weight (reweighed (total_capital s) p) = Some 0%Q)).
    { intros p Hq Hc. unfold reweighed, setWeight, weightOf. cbn [weight].
      rewrite Hq, Hc. split; intros Ht.
      - apply Qlt_bool_true in Ht. now rewrite Ht.
      - apply Qlt_bool_false in Ht. now rewrite Ht. }
    unfold positionAfter, usableQuote.
    destruct (quote i (ts_code pos)) as [| |[] [q|]];
      try (destruct (Hw pos eq_refl eq_refl) as [Hw1 Hw2];
           repeat split; assumption).
    destruct (Hw (applyQuote q pos) eq_refl eq_refl) as [Hw1 Hw2].
    do 3 (split; [reflexivity|]). split; [exact Hw1|]. split; [exact Hw2|].
    split; [reflexivity|]. split.
    + intros p Hp Hnz. cbn [reweighed setWeight profit profit_pct applyQuote].
      rewrite (effectivePrice_fetched q pos p Hp Hnz : or_opt_num (price q) (cost_price pos) = p).
      unfold profitAt, profitPctAt. split; [reflexivity|]. split; intros Hc.
      * apply Qlt_bool_true in Hc. now rewrite Hc.
      * apply Qlt_bool_false in Hc. now rewrite Hc.
    + intros Hp. cbn [reweighed setWeight profit profit_pct applyQuote].
      rewrite (effectivePrice_fallback q pos Hp
               : or_opt_num (price q) (cost_price pos) = cost_price pos).
      unfold profitAt, profitPctAt. split.
      * eexists. split; [reflexivity | ring].
      * eexists. split; [reflexivity|].
        destruct (Qlt_bool 0 (cost_price pos)) eqn:Hc; [|reflexivity].
        apply Qlt_bool_true in Hc. field. intros Hz. rewrite Hz in Hc.
        exact (Qlt_irrefl 0 Hc).
  - rewrite (refreshQuotes_unfold quote s log Hne). cbn [snd].
    destruct (quoteLoop_log quote (positions s) 0 log) as (mid & -> & _ & Hal & _).
    rewrite !alerts_app, Hal. cbn. now rewrite !app_nil_r.
  - rewrite (refreshQuotes_unfold quote s log Hne). cbn [snd].
    destruct (quoteLoop_log quote (positions s) 0 log) as (mid & -> & Hreq & _ & Hw).
    exists mid. rewrite <- app_assoc. repeat split; assumption.
Qed.

Lemma refreshQuotes_isolates_failures_witness :
  positions demoState <> []
  /\ positions (fst (refreshQuotes demoQuote (demoState, [])))
     = [ mkPosition (Some 1) "600519.SH" "Moutai" 100 10 (Some 11%Q) (Some 100%Q)
                    (Some 10%Q) (Some ((100 * 10 / 100000) * 100)%Q);
         mkPosition (Some 2) "000001.SZ" "Ping An Bank" 200 10 (Some 12%Q)
                    (Some ((12 - 10) * 200)%Q)
                    (Some (((12 / 10) - 1) * 100)%Q)
                    (Some ((200 * 10 / 100000) * 100)%Q) ]
  /\ isLoading (fst (refreshQuotes demoQuote (demoState, []))) = false
  /\ alerts (snd (refreshQuotes demoQuote (demoState, []))) = [].
Proof.
  assert (Hne : positions demoState <> []) by discriminate.
  pose proof (refreshQuotes_isolates_failures demoQuote demoState [] Hne)
    as (Hload & _ & _ & Hal & _).
  split; [exact Hne|]. split; [reflexivity|]. split; [exact Hload | exact Hal].
Defined.

(** C1 as stated fails: a quote that comes back with a price of zero is a
    fetch that succeeded, and the position takes the zero as
    [current_price], but [profit] and [profit_pct] are not computed from the
    fetched price: the cost price stands in for it and both are zero, where
    the fetched price gives a loss of the whole cost. Here the first request
    of the batch raises and the second brings the price of zero. *)
Lemma refreshQuotes_zero_price_profit :
  positions demoState = [moutai; pingan]
  /\ demoZeroQuote 0 (ts_code moutai) = QuoteThrows
  /\ demoZeroQuote 1 (ts_code pingan)
     = QuoteBody true (Some (mkQuote (Some 0%Q) None))
  /\ exists (pos' : Position) (gain pct : Q),
       positions (fst (refreshQuotes demoZeroQuote (demoState, []))) !! 1%nat
       = Some pos'
       /\ current_price pos' = Some 0%Q
       /\ profit pos' = Some gain
       /\ (gain == 0)%Q
       /\ ~ (gain == (0 - cost_price pingan) * quantity pingan)%Q
       /\ profit_pct pos' = Some pct
       /\ (pct == 0)%Q
       /\ ~ (pct == ((0 / cost_price pingan) - 1) * 100)%Q.
Proof.
  do 3 (split; [reflexivity|]).
  eexists. eexists. eexists.
  split; [reflexivity|]. split; [reflexivity|]. split; [reflexivity|].
  split; [reflexivity|]. split; [intros H; vm_compute in H; discriminate|].
  split; [reflexivity|]. split; [reflexivity|].
  intros H; vm_compute in H; discriminate.
Qed.

(** C10. In a refresh, a position whose request brought a quote takes the
    name the quote carries when that name is not empty, and keeps its own
    name when the quote carries none or an empty one. *)
Theorem refreshQuotes_overwrites_name
        (quote : nat -> string -> QuoteFetch) (s : State) (log : list Effect)
        (i : nat) (pos : Position) (q : QuoteData) :
  positions s !! i = Some pos ->
  usableQuote (quote i (ts_code pos)) = Some q ->
  exists pos' : Position,
    positions (fst (refreshQuotes quote (s, log))) !! i = Some pos'
    /\ (forall fetched : string,
          quote_name q = Some fetched -> fetched <> EmptyString ->
          name pos' = fetched)
    /\ (quote_name q = None \/ quote_name q = Some EmptyString ->
        name pos' = name pos).
Proof.
  intros Hi Hq. eexists. split; [apply refreshed_position, Hi|].
  unfold positionAfter. rewrite Hq. cbn. split.
  - intros fetched -> Hne. cbn. unfold or_str.
    destruct fetched; [contradiction | reflexivity].
  - intros [-> | ->]; reflexivity.
Qed.

Lemma refreshQuotes_overwrites_name_witness :
  positions demoState !! 1%nat = Some pingan
  /\ usableQuote (demoQuote 1 (ts_code pingan))
     = Some (mkQuote (Some 12%Q) (Some "Ping An Bank"%string))
  /\ name pingan = "PingAn"%string
  /\ exists pos' : Position,
       positions (fst (refreshQuotes demoQuote (demoState, []))) !! 1%nat = Some pos'
       /\ name pos' = "Ping An Bank"%string.
Proof.
  split; [reflexivity|]. split; [reflexivity|]. split; [reflexivity|].
  destruct (refreshQuotes_overwrites_name
              demoQuote demoState [] 1 pingan
              (mkQuote (Some 12%Q) (Some "Ping An Bank"%string))
              eq_refl eq_refl) as (pos' & Hp & Hname & _).
  exists pos'. split; [exact Hp|].
  apply Hname; [reflexivity | discriminate].
Defined.

End QuoteClaims.

(** ** Quantity entry *)

Section Quantity.
Import Js Ledger LedgerVocabulary.
Local Open Scope Q_scope.

Lemma hundredth (q : Q) : q == (q / 100) * 100.
Proof. field. Qed.

Lemma positive_multiple (k : Z) : 1 <= inject_Z k -> (1 <= k)%Z.
Proof. intros H. rewrite Zle_Qle. exact H. Qed.

(** Above 100, [snapQuantity] lands on the multiple of 100 nearest to its
    argument, the upper one when two are equally near. *)
Lemma snapQuantity_nearest (q : Q) :
  100 <= q ->
  exists k : Z,
    (1 <= k)%Z
    /\ PortfolioManager.snapQuantity q == inject_Z k * 100
    /\ q - 50 < PortfolioManager.snapQuantity q
    /\ PortfolioManager.snapQuantity q <= q + 50.
Proof.
  intros Hq. unfold PortfolioManager.snapQuantity.
  apply Qlt_bool_false in Hq as Hb. rewrite Hb.
  destruct (Qeq_bool (rem q 100) 0) eqn:E; cbn [negb].
  - apply Qeq_bool_iff in E. unfold rem in E.
    set (k := Qtrunc (q / 100)) in *.
    assert (Hk : q == inject_Z k * 100) by lra.
    exists k. repeat split; try lra.
    apply positive_multiple. lra.
  - unfold Math_round. set (d := q / 100).
    assert (Hd : q == d * 100) by apply hundredth.
    pose proof (Qfloor_le (d + (1 # 2))) as Hlo.
    pose proof (Qlt_floor (d + (1 # 2))) as Hhi.
    rewrite inject_Z_plus in Hhi.
    set (k := Qfloor (d + (1 # 2))) in *.
    change (inject_Z 1) with 1 in Hhi.
    assert (H1 : (Qfloor 1 <= k)%Z) by (apply Qfloor_resp_le; lra).
    exists k. split; [exact H1|]. repeat split; lra.
Qed.

Lemma validateQuantity_snaps (s : State) :
  form_quantity (formData (PortfolioManager.validateQuantity s))
  = PortfolioManager.snapQuantity (form_quantity (formData s)).
Proof.
  unfold PortfolioManager.validateQuantity, PortfolioManager.snapQuantity.
  destruct (Qlt_bool (form_quantity (formData s)) 100); [reflexivity|].
  destruct (negb (Qeq_bool (rem (form_quantity (formData s)) 100) 0));
    reflexivity.
Qed.

Lemma validate_rejects_nonpositive (f : Form) :
  form_quantity f <= 0 -> exists text : string, validate f = Some text.
Proof.
  intros H. unfold validate.
  destruct (negb (truthy_str (form_ts_code f))); [eexists; reflexivity|].
  apply Qle_bool_iff in H. rewrite H. cbn. eexists; reflexivity.
Qed.

(** C5, as the code has it. [validateQuantity] leaves 100 for every quantity
    below 100 and, from 100 on, the multiple of 100 nearest to the quantity
    entered, the upper one on a tie, so 250 becomes 300; [savePosition], in
    both versions, answers a quantity of zero or less with an alert and
    changes nothing. *)
Theorem quantity_normalisation :
  (forall q : Q, q < 100 -> PortfolioManager.snapQuantity q = 100)
  /\ (forall q : Q,
        100 <= q ->
        exists k : Z,
          (1 <= k)%Z
          /\ PortfolioManager.snapQuantity q == inject_Z k * 100
          /\ q - 50 < PortfolioManager.snapQuantity q
          /\ PortfolioManager.snapQuantity q <= q + 50)
  /\ PortfolioManager.snapQuantity 250 == 300
  /\ PortfolioManager.snapQuantity 249 == 200
  /\ (forall s : State,
        form_quantity (formData (PortfolioManager.validateQuantity s))
        = PortfolioManager.snapQuantity (form_quantity (formData s)))
  /\ (forall (srv : PortfolioManager.Server) (w : World),
        form_quantity (formData (fst w)) <= 0 ->
        exists text : string,
          PortfolioManager.savePosition srv w = emit (AlertShown text) w
          /\ LocalManager.savePosition w = Return (emit (AlertShown text) w)).
Proof.
  split; [|split; [|split; [|split; [|split]]]].
  - intros q Hq. unfold PortfolioManager.snapQuantity.
    apply Qlt_bool_true in Hq. now rewrite Hq.
  - exact snapQuantity_nearest.
  - reflexivity.
  - reflexivity.
  - exact validateQuantity_snaps.
  - intros srv w Hq.
    destruct (validate_rejects_nonpositive (formData (fst w)) Hq) as [text Ht].
    exists text. unfold PortfolioManager.savePosition, LocalManager.savePosition.
    rewrite Ht. split; reflexivity.
Qed.

Lemma quantity_normalisation_witness :
  99 < 100
  /\ PortfolioManager.snapQuantity 99 = 100
  /\ 100 <= 249
  /\ (exists k : Z,
        (1 <= k)%Z
        /\ PortfolioManager.snapQuantity 249 == inject_Z k * 100
        /\ 249 - 50 < PortfolioManager.snapQuantity 249
        /\ PortfolioManager.snapQuantity 249 <= 249 + 50).
Proof.
  assert (H1 : 99 < 100) by reflexivity.
  assert (H2 : 100 <= 249) by (intros H; discriminate H).
  split; [exact H1|]. split; [exact (proj1 quantity_normalisation 99 H1)|].
  split; [exact H2|].
  exact (proj1 (proj2 quantity_normalisation) 249 H2).
Defined.

(** C5 as stated fails: the quantity box does not turn 250 into 200. *)
Lemma quantity_250_becomes_300 :
  form_quantity (formData (PortfolioManager.onQuantityChange (Some 250%Z) demoState))
  == 300
  /\ ~ form_quantity
         (formData (PortfolioManager.onQuantityChange (Some 250%Z) demoState))
       == 200.
Proof.
  split; [reflexivity|]. intros H. discriminate H.
Qed.

End Quantity.

(** ** Saving a position *)

Section Saving.
Import Js Ledger LedgerVocabulary.

Lemma reweighed_keeps (total : Q) (pos : Position) :
  id (reweighed total pos) = id pos
  /\ ts_code (reweighed total pos) = ts_code pos
  /\ name (reweighed total pos) = name pos
  /\ quantity (reweighed total pos) = quantity pos
  /\ cost_price (reweighed total pos) = cost_price pos
  /\ current_price (reweighed total pos) = current_price pos
  /\ profit (reweighed total pos) = profit pos
  /\ profit_pct (reweighed total pos) = profit_pct pos.
Proof. repeat split. Qed.

(** The ledger after a local save that stores [ps]. *)
Lemma local_store (w : World) (ps : list Position) :
  positions (fst (updateWeights (update resetForm (update (setPositions ps) w))))
  = map (reweighed (total_capital (fst w))) ps.
Proof. reflexivity. Qed.

Lemma backend_finish (srv : PortfolioManager.Server) (w : World)
      (data : list Position) (j : nat) (d : Position) :
  PortfolioManager.listPositions srv = PortfolioManager.ListArray data ->
  data !! j = Some d ->
  positions (fst (update resetForm (PortfolioManager.fetchPositions srv w))) !! j
  = Some (reweighed (total_capital (fst w))
                    (positionAfter (PortfolioManager.quote srv j (ts_code d)) d)).
Proof.
  intros Hl Hj. unfold PortfolioManager.fetchPositions. rewrite Hl.
  change (positions (fst (update resetForm ?x))) with (positions (fst x)).
  unfold update, emit. cbn [fst snd].
  apply (refreshed_position (PortfolioManager.quote srv)
                            (setPositions data (fst w))).
  exact Hj.
Qed.

Lemma backend_length (srv : PortfolioManager.Server) (w : World)
      (data : list Position) :
  PortfolioManager.listPositions srv = PortfolioManager.ListArray data ->
  length (positions (fst (update resetForm (PortfolioManager.fetchPositions srv w))))
  = length data.
Proof.
  intros Hl. unfold PortfolioManager.fetchPositions. rewrite Hl.
  change (positions (fst (update resetForm ?x))) with (positions (fst x)).
  unfold update, emit. cbn [fst snd].
  destruct data as [|d data]; [reflexivity|].
  rewrite refreshQuotes_unfold by (cbn; discriminate).
  cbn [fst positions setLoading setPositions].
  now rewrite length_map, quoteLoop_length.
Qed.

(** C8, as the code has it. A save that passes the checks, in the
    localStorage version: when a position is being edited, the entry at that
    index is replaced by a new position made of the four fields of the form
    (code in upper case, name falling back to the code), without
    [current_price], [profit] and [profit_pct], and with its weight computed
    at once; the other entries keep every field but the weight, which is
    recomputed; when nothing is being edited the new position goes to the
    end, the entries before it again keeping every field but the weight. In
    the version backed by the API, once the write and the reload have gone
    through, the ledger is the list the server returned, refreshed: as long
    as that list, entry for entry the position the server sent with its
    quote applied and its weight computed, and nothing of the ledger held
    before. *)
Theorem savePosition_replaces_entry (w : World) :
  validate (formData (fst w)) = None ->
  (forall (i : nat) (old : Position),
      editingIndex (fst w) = Some i ->
      positions (fst w) !! i = Some old ->
      exists w' : World,
        LocalManager.savePosition w = Return w'
        /\ length (positions (fst w')) = length (positions (fst w))
        /\ positions (fst w') !! i
           = Some {| id := None;
                     ts_code := toUpperCase (form_ts_code (formData (fst w)));
                     name := or_str (form_name (formData (fst w)))
                                    (form_ts_code (formData (fst w)));
                     quantity := form_quantity (formData (fst w));
                     cost_price := form_cost_price (formData (fst w));
                     current_price := None;
                     profit := None;
                     profit_pct := None;
                     weight :=
                       Some (if Qlt_bool 0 (total_capital (fst w))
                             then ((form_quantity (formData (fst w))
                                    * form_cost_price (formData (fst w))
                                    / total_capital (fst w)) * 100)%Q
                             else 0%Q) |}
        /\ (forall (j : nat) (p : Position),
              j <> i ->
              positions (fst w) !! j = Some p ->
              positions (fst w') !! j
              = Some (reweighed (total_capital (fst w)) p)))
  /\ (editingIndex (fst w) = None ->
      exists w' : World,
        LocalManager.savePosition w = Return w'
        /\ positions (fst w')
           = map (reweighed (total_capital (fst w))) (positions (fst w))
             ++ [reweighed (total_capital (fst w))
                           (freshPosition (positionData (formData (fst w))))])
  /\ (forall (srv : PortfolioManager.Server) (data : list Position),
        PortfolioManager.listPositions srv = PortfolioManager.ListArray data ->
        (forall key body, PortfolioManager.putPosition srv key body = true) ->
        (forall body, PortfolioManager.postPosition srv body = true) ->
        (editingIndex (fst w) = None
         \/ exists (i : nat) (old : Position),
             editingIndex (fst w) = Some i /\ positions (fst w) !! i = Some old) ->
        length (positions (fst (PortfolioManager.savePosition srv w))) = length data
        /\ (forall (j : nat) (d : Position),
              data !! j = Some d ->
              positions (fst (PortfolioManager.savePosition srv w)) !! j
              = Some (reweighed (total_capital (fst w))
                        (positionAfter (PortfolioManager.quote srv j (ts_code d)) d)))
        /\ (forall (j : nat) (p : Position),
              positions (fst (PortfolioManager.savePosition srv w)) !! j = Some p ->
              exists d : Position,
                data !! j = Some d
                /\ id p = id d /\ ts_code p = ts_code d
                /\ quantity p = quantity d /\ cost_price p = cost_price d)).
Proof.
  intros Hv. split; [|split].
  - intros i old Hi Hold. unfold LocalManager.savePosition. rewrite Hv, Hi.
    pose proof (lookup_lt_Some _ _ _ Hold) as Hlt.
    apply Nat.ltb_lt in Hlt as Hb. rewrite Hb.
    eexists. split; [reflexivity|]. rewrite local_store. split; [|split].
    + now rewrite length_map, length_insert.
    + rewrite list_lookup_fmap, list_lookup_insert_eq by exact Hlt. reflexivity.
    + intros j p Hj Hp.
      rewrite list_lookup_fmap, list_lookup_insert_ne by congruence.
      now rewrite Hp.
  - intros Hi. unfold LocalManager.savePosition. rewrite Hv, Hi.
    eexists. split; [reflexivity|]. rewrite local_store.
    now rewrite map_app.
  - intros srv data Hl Hput Hpost Hidx.
    assert (Hsave : exists w0 : World,
               total_capital (fst w0) = total_capital (fst w)
               /\ PortfolioManager.savePosition srv w
                  = update resetForm (PortfolioManager.fetchPositions srv w0)).
    { unfold PortfolioManager.savePosition. rewrite Hv.
      destruct Hidx as [Hi | (i & old & Hi & Hold)]; rewrite Hi.
      - rewrite Hpost. eexists (emit _ w). split; reflexivity.
      - rewrite Hold. destruct (PortfolioManager.truthy_id (id old)) as [key|].
        + rewrite Hput. eexists (emit _ w). split; reflexivity.
        + exists w. split; reflexivity. }
    destruct Hsave as (w0 & Ht & ->).
    pose proof (backend_length srv w0 data Hl) as Hlen.
    split; [exact Hlen|]. split.
    + intros j d Hj. rewrite <- Ht. exact (backend_finish srv w0 data j d Hl Hj).
    + intros j p Hp.
      assert (Hlt : (j < length data)%nat)
        by (rewrite <- Hlen; exact (lookup_lt_Some _ _ _ Hp)).
      destruct (lookup_lt_is_Some_2 data j Hlt) as [d Hd].
      exists d. split; [exact Hd|].
      rewrite (backend_finish srv w0 data j d Hl Hd) in Hp. injection Hp as <-.
      unfold positionAfter.
      destruct (usableQuote (PortfolioManager.quote srv j (ts_code d)));
        repeat split.
Qed.

Lemma savePosition_replaces_entry_witness :
  validate (formData (fst (demoEditing, @nil Effect))) = None
  /\ editingIndex (fst (demoEditing, @nil Effect)) = Some 0%nat
  /\ positions (fst (demoEditing, @nil Effect)) !! 0%nat = Some moutai
  /\ (exists w' : World,
        LocalManager.savePosition (demoEditing, []) = Return w'
        /\ positions (fst w') !! 0%nat
           = Some (mkPosition None "600519.SH" "600519.sh" 300 12 None None None
                              (Some ((300 * 12 / 100000) * 100)%Q)))
  /\ length (positions (fst (PortfolioManager.savePosition (demoServer [pingan])
                                                           (demoEditing, []))))
     = 1%nat
  /\ positions (fst (PortfolioManager.savePosition (demoServer [pingan])
                                                   (demoEditing, []))) !! 0%nat
     = Some (reweighed 100000 pingan).
Proof.
  assert (Hv : validate (formData (fst (demoEditing, @nil Effect))) = None)
    by reflexivity.
  split; [exact Hv|]. split; [reflexivity|]. split; [reflexivity|]. split.
  - destruct (proj1 (savePosition_replaces_entry (demoEditing, []) Hv)
                    0%nat moutai eq_refl eq_refl) as (w' & Hs & _ & Hp & _).
    exists w'. split; [exact Hs | exact Hp].
  - destruct (proj2 (proj2 (savePosition_replaces_entry (demoEditing, []) Hv))
                    (demoServer [pingan]) [pingan] eq_refl
                    (fun _ _ => eq_refl) (fun _ => eq_refl)
                    (or_intror (ex_intro _ 0%nat
                                  (ex_intro _ moutai (conj eq_refl eq_refl)))))
      as (Hlen & Hat & _).
    split; [exact Hlen|]. exact (Hat 0%nat pingan eq_refl).
Defined.

(** C8 as stated fails: a save in edit mode does not keep the derived
    fields of the position edited. *)
Lemma savePosition_drops_derived_fields :
  current_price moutai = Some 11%Q
  /\ profit moutai = Some 100%Q
  /\ profit_pct moutai = Some 10%Q
  /\ exists (w' : World) (pos' : Position),
       LocalManager.savePosition (demoEditing, []) = Return w'
       /\ positions (fst w') !! 0%nat = Some pos'
       /\ current_price pos' = None
       /\ profit pos' = None
       /\ profit_pct pos' = None.
Proof.
  split; [reflexivity|]. split; [reflexivity|]. split; [reflexivity|].
  eexists. eexists. split; [reflexivity|]. split; [reflexivity|].
  repeat split.
Qed.

End Saving.

(** * Further properties *)

(** ** Market status *)

Section MarketStatus.
Import Clock Dashboard.

(** X1. The getter of [marketStatus] and [isMarketOpen] each read the clock
    for themselves. When the two readings fall on the same day of the week
    and in the same minute, the getter returns "交易中" exactly when
    [isMarketOpen] returns true; and the getter returns "休市" exactly when
    its reading falls on a Saturday or a Sunday. Nothing is said of a label
    computed in one minute and a gate read in another. *)
Theorem marketStatus_matches_gate_in_same_minute (labelRead gateRead : JsDate) :
  getDay gateRead = getDay labelRead ->
  getHours gateRead = getHours labelRead ->
  getMinutes gateRead = getMinutes labelRead ->
  (marketStatus labelRead = "交易中"%string <-> Dashboard.isMarketOpen gateRead = true)
  /\ (marketStatus labelRead = "休市"%string <-> weekend labelRead).
Proof.
  intros Hd Hh Hm.
  unfold marketStatus, Dashboard.isMarketOpen, weekend. rewrite Hd, Hh, Hm.
  destruct labelRead as [day h m sec]; cbn [getDay getHours getMinutes].
  set (time := h * 100 + m).
  destruct (day =? 0) eqn:E0; [apply Z.eqb_eq in E0|apply Z.eqb_neq in E0]; cbn [orb].
  { split; split; try discriminate; auto. }
  destruct (day =? 6) eqn:E6; [apply Z.eqb_eq in E6|apply Z.eqb_neq in E6]; cbn [orb].
  { split; split; try discriminate; auto. }
  destruct (time <? 930) eqn:A; [apply Z.ltb_lt in A|apply Z.ltb_ge in A].
  { split; split; try discriminate; try tauto.
    rewrite orb_true_iff, !andb_true_iff, !Z.leb_le. lia. }
  destruct (time <=? 1130) eqn:B; [apply Z.leb_le in B|apply Z.leb_gt in B].
  { split; split; try discriminate; try tauto; try reflexivity.
    intros _. rewrite orb_true_iff, !andb_true_iff, !Z.leb_le. lia. }
  destruct (time <? 1300) eqn:C; [apply Z.ltb_lt in C|apply Z.ltb_ge in C].
  { split; split; try discriminate; try tauto.
    rewrite orb_true_iff, !andb_true_iff, !Z.leb_le. lia. }
  destruct (time <=? 1500) eqn:D; [apply Z.leb_le in D|apply Z.leb_gt in D].
  { split; split; try discriminate; try tauto; try reflexivity.
    intros _. rewrite orb_true_iff, !andb_true_iff, !Z.leb_le. lia. }
  split; split; try discriminate; try tauto.
  rewrite orb_true_iff, !andb_true_iff, !Z.leb_le. lia.
Qed.

Lemma marketStatus_matches_gate_in_same_minute_witness :
  marketStatus (mkDate 3 10 15 2) = "交易中"%string
  /\ Dashboard.isMarketOpen (mkDate 3 10 15 58) = true.
Proof.
  split; [reflexivity|].
  exact (proj1 (proj1 (marketStatus_matches_gate_in_same_minute
                         (mkDate 3 10 15 2) (mkDate 3 10 15 58)
                         eq_refl eq_refl eq_refl))
               eq_refl).
Defined.

End MarketStatus.

(** ** Error classification, the other rules *)

Section ClassifierRules.
Import Js Dashboard DashboardVocabulary.

Lemma substring0_length (n : nat) (s : string) :
  String.length (substring0 n s) = Nat.min n (String.length s).
Proof.
  unfold substring0. revert s.
  induction n as [|n IH]; intros [|c s]; cbn; try reflexivity.
  now rewrite IH.
Qed.

Lemma substring0_whole (n : nat) (s : string) :
  (String.length s <= n)%nat -> substring0 n s = s.
Proof.
  unfold substring0. revert s.
  induction n as [|n IH]; intros [|c s]; cbn; try reflexivity; try lia.
  intros H. rewrite IH by lia. reflexivity.
Qed.

Lemma substring0_startsWith (n : nat) (s : string) :
  startsWith (substring0 n s) s.
Proof.
  unfold substring0, startsWith. revert s.
  induction n as [|n IH]; intros [|c s]; cbn.
  - exists EmptyString. reflexivity.
  - exists (String c s). reflexivity.
  - exists EmptyString. reflexivity.
  - destruct (IH s) as [post H]. exists post.
    rewrite append_cons. now rewrite <- H.
Qed.

Lemma isPermissionText_contains (detail : string) :
  isPermissionText detail = true <->
  contains "没有接口访问权限" detail \/ contains "tushare.pro" detail.
Proof.
  unfold isPermissionText. rewrite orb_true_iff, !includes_true_iff. tauto.
Qed.

Lemma parseApiError_textual (detail : string) (success content : JsVal)
      (defaultMessage : string) :
  detail <> EmptyString ->
  parseApiError (PObject (JStr detail) success content) defaultMessage
  = Return (if isQuotaText detail then quotaAlert
            else if isPermissionText detail then permissionAlert
            else genericAlert detail).
Proof.
  intros Hne.
  assert (Ht : truthy_str detail = true) by (destruct detail; [contradiction|reflexivity]).
  unfold parseApiError; cbn [detailOf]. rewrite Ht.
  destruct (isQuotaText detail); [reflexivity|].
  destruct (isPermissionText detail); reflexivity.
Qed.

(** X2. When [detail] is a non-empty string, [parseApiError] never raises
    and its result depends on that text alone, not on [success], [content]
    or the default message: the quota alert if the text has a quota marker,
    else the permission alert if it has a permission marker, else the
    generic alert made from the text. *)
Theorem parseApiError_detail_decides (detail : string) (success content : JsVal)
        (defaultMessage : string) :
  detail <> EmptyString ->
  parseApiError (PObject (JStr detail) success content) defaultMessage
  = Return (if isQuotaText detail then quotaAlert
            else if isPermissionText detail then permissionAlert
            else genericAlert detail)
  /\ (isQuotaText detail = false ->
      (contains "没有接口访问权限" detail \/ contains "tushare.pro" detail) ->
      parseApiError (PObject (JStr detail) success content) defaultMessage
      = Return permissionAlert).
Proof.
  intros Hne. rewrite (parseApiError_textual detail success content defaultMessage Hne).
  split; [reflexivity|].
  intros Hq Hp. apply isPermissionText_contains in Hp. now rewrite Hq, Hp.
Qed.

Lemma parseApiError_detail_decides_witness :
  "没有接口访问权限: daily"%string <> EmptyString
  /\ parseApiError (PObject (JStr "没有接口访问权限: daily") (JBool false) (JNum 5))
                   "fallback"
     = Return permissionAlert.
Proof.
  assert (H : "没有接口访问权限: daily"%string <> EmptyString) by discriminate.
  split; [exact H|].
  refine (proj2 (parseApiError_detail_decides _ (JBool false) (JNum 5) "fallback" H)
                eq_refl _).
  left. exists EmptyString, ": daily"%string. reflexivity.
Defined.

(** X3. An ASCII [detail] without quota or permission marker is never
    lost: the alert's message is its first 200 characters, and either the
    message is the whole text and there are no details, or the text is
    longer than 200 and the details carry all of it. *)
Theorem parseApiError_generic_keeps_text (detail : string) (success content : JsVal)
        (defaultMessage : string) :
  isAscii detail = true ->
  detail <> EmptyString ->
  isQuotaText detail = false ->
  isPermissionText detail = false ->
  exists a : Alert,
    parseApiError (PObject (JStr detail) success content) defaultMessage = Return a
    /\ startsWith (message a) detail
    /\ (String.length (message a) <= 200)%nat
    /\ ((String.length detail <= 200)%nat ->
        message a = detail /\ details a = None)
    /\ ((200 < String.length detail)%nat ->
        String.length (message a) = 200%nat /\ details a = Some detail).
Proof.
  intros _ Hne Hq Hp. exists (genericAlert detail). split.
  - rewrite (parseApiError_textual detail success content defaultMessage Hne).
    now rewrite Hq, Hp.
  - unfold genericAlert; cbn [message details]. split; [apply substring0_startsWith|].
    split; [rewrite substring0_length; lia|]. split.
    + intros Hle. split; [apply substring0_whole, Hle|].
      destruct (200 <? String.length detail)%nat eqn:E; [|reflexivity].
      apply Nat.ltb_lt in E. lia.
    + intros Hlt. split; [rewrite substring0_length; lia|].
      apply Nat.ltb_lt in Hlt. now rewrite Hlt.
Qed.

Lemma parseApiError_generic_keeps_text_witness :
  isAscii "upstream timeout" = true
  /\ "upstream timeout"%string <> EmptyString
  /\ isQuotaText "upstream timeout" = false
  /\ isPermissionText "upstream timeout" = false
  /\ exists a : Alert,
       parseApiError (PObject (JStr "upstream timeout") JUndefined JUndefined) "fallback"
       = Return a
       /\ message a = "upstream timeout"%string
       /\ details a = None.
Proof.
  assert (H : "upstream timeout"%string <> EmptyString) by discriminate.
  split; [reflexivity|].
  split; [exact H|]. split; [reflexivity|]. split; [reflexivity|].
  destruct (parseApiError_generic_keeps_text
              "upstream timeout" JUndefined JUndefined "fallback" eq_refl H
              eq_refl eq_refl)
    as (a & Ha & _ & _ & Hshort & _).
  exists a. split; [exact Ha|]. apply Hshort. cbn. lia.
Defined.

Lemma parseApiError_without_detail (detail success content : JsVal)
      (defaultMessage : string) :
  usableDetail detail = false ->
  parseApiError (PObject detail success content) defaultMessage
  = parseContent (PObject detail success content) defaultMessage.
Proof.
  unfold parseApiError, usableDetail; cbn [detailOf].
  destruct detail as [| | | |d|]; try reflexivity.
  intros ->. reflexivity.
Qed.



(** X5. [parseApiError] returns an alert for every payload whose content is
    a string or falsy; it raises when there is no usable [detail], the
    payload says [success: false] and the content is a number other than
    zero or [true], which have no [includes]. *)
Theorem parseApiError_raises_on_untyped_content (data : Payload)
        (defaultMessage : string) :
  ((exists text : string, contentOf data = JStr text) \/ truthy (contentOf data) = false ->
   exists a : Alert, parseApiError data defaultMessage = Return a)
  /\ (usableDetail (detailOf data) = false ->
      successOf data = JBool false ->
      (exists x : Q, contentOf data = JNum x /\ truthy_num x = true)
      \/ contentOf data = JBool true ->
      exists e : string, parseApiError data defaultMessage = Throw e).
Proof.
  split.
  - intros Hc.
    assert (Hp : exists a, parseContent data defaultMessage = Return a).
    { unfold parseContent. destruct (successOf data) as [| |[]| | |];
        try (eexists; reflexivity).
      destruct Hc as [[text Ht] | Hf].
      - rewrite Ht. cbn [truthy]. destruct (truthy_str text); [|eexists; reflexivity].
        destruct (includes "429" text || includes "quota" text); eexists; reflexivity.
      - rewrite Hf. eexists; reflexivity. }
    unfold parseApiError. destruct (detailOf data) as [| | | |d|]; try exact Hp.
    destruct (truthy_str d); [|exact Hp].
    destruct (isQuotaText d); [eexists; reflexivity|].
    destruct (isPermissionText d); eexists; reflexivity.
  - intros Hd Hs Hc. destruct data as [|d s c]; [discriminate Hs|].
    cbn [detailOf successOf contentOf] in *.
    rewrite (parseApiError_without_detail _ _ _ _ Hd).
    unfold parseContent; cbn [successOf contentOf]. rewrite Hs.
    destruct Hc as [(x & -> & Hx) | ->]; cbn [truthy]; [rewrite Hx|];
      eexists; reflexivity.
Qed.

Lemma parseApiError_raises_on_untyped_content_witness :
  truthy (contentOf (PObject JNull (JBool false) JUndefined)) = false
  /\ (exists a : Alert,
        parseApiError (PObject JNull (JBool false) JUndefined) "fallback" = Return a)
  /\ exists e : string,
       parseApiError (PObject JNull (JBool false) (JNum 429)) "fallback" = Throw e.
Proof.
  split; [reflexivity|]. split.
  - exact (proj1 (parseApiError_raises_on_untyped_content
                    (PObject JNull (JBool false) JUndefined) "fallback")
                 (or_intror eq_refl)).
  - refine (proj2 (parseApiError_raises_on_untyped_content
                     (PObject JNull (JBool false) (JNum 429)) "fallback")
                  eq_refl eq_refl _).
    left. exists 429%Q. split; reflexivity.
Defined.

End ClassifierRules.

(** ** The alert banner and the stock diagnosis *)

Section PanelFacts.
Import Js Dashboard DashboardVocabulary.

Lemma trimStart_empty (s : string) :
  trimStart s = EmptyString <-> allWhiteSpace s = true.
Proof.
  induction s as [|c s IH]; cbn; [tauto|].
  destruct (isWhiteSpace c); cbn; [exact IH|]. split; discriminate.
Qed.

Lemma trimEnd_empty (s : string) :
  trimEnd s = EmptyString <-> allWhiteSpace s = true.
Proof.
  induction s as [|c s IH]; cbn; [tauto|].
  destruct (trimEnd s) as [|d kept].
  - destruct (isWhiteSpace c); cbn; [tauto|]. split; discriminate.
  - split; [discriminate|]. intros H. apply andb_true_iff in H as [_ H].
    apply IH in H. discriminate.
Qed.

Lemma trimStart_allWhiteSpace (s : string) :
  allWhiteSpace (trimStart s) = allWhiteSpace s.
Proof.
  induction s as [|c s IH]; cbn; [reflexivity|].
  destruct (isWhiteSpace c) eqn:E; cbn; [exact IH | now rewrite E].
Qed.

(** [trim] leaves nothing exactly of the strings made of white space. *)
Lemma trim_blank (s : string) :
  truthy_str (trim s) = negb (allWhiteSpace s).
Proof.
  unfold trim. destruct (allWhiteSpace s) eqn:E; cbn.
  - rewrite <- trimStart_allWhiteSpace in E. apply trimEnd_empty in E. now rewrite E.
  - destruct (trimEnd (trimStart s)) eqn:T; [|reflexivity].
    apply trimEnd_empty in T. rewrite trimStart_allWhiteSpace in T. congruence.
Qed.

Lemma showError_hasTimer (sev : Severity) (t m : string) (d : option string) (p : Panel) :
  bannerHasTimer (showError sev t m d p).
Proof.
  intros b [= <-]. cbn. apply in_app_iff. right. now left.
Qed.

Lemma no_banner_hasTimer (p : Panel) :
  errorMessage p = None -> bannerHasTimer p.
Proof. intros H b Hb. congruence. Qed.

Lemma setDiagnosing_hasTimer (flag : bool) (p : Panel) :
  bannerHasTimer p -> bannerHasTimer (setDiagnosing flag p).
Proof. intros H. exact H. Qed.

Lemma timeoutFires_hasTimer (p : Panel) :
  bannerHasTimer p -> bannerHasTimer (timeoutFires p).
Proof.
  unfold bannerHasTimer, timeoutFires. intros H.
  destruct (timers p) as [|t rest] eqn:Et; [now rewrite Et|].
  cbn. destruct (errorMessage p) as [b0|]; [|discriminate].
  destruct (String.eqb (title (alert b0)) t) eqn:E; [discriminate|].
  intros b [= <-]. destruct (H b0 eq_refl) as [Hh | Hin]; [|exact Hin].
  apply String.eqb_neq in E. congruence.
Qed.

Lemma runDiagnose_hasTimer (a : ApiStatus) (scan diagnose : HttpReply) (p : Panel) :
  bannerHasTimer (fst (runDiagnose a scan diagnose p)).
Proof.
  unfold runDiagnose.
  destruct (negb (truthy_str (trim (stockCode p)))); [apply showError_hasTimer|].
  destruct (negb (isConnected a)); [apply showError_hasTimer|].
  set (p1 := setDiagnosing true (setErrorMessage None p)).
  assert (Hrep : forall data dm, match reportApiError data dm p1 with
                                 | Done q => bannerHasTimer q
                                 | Raised _ => True
                                 end).
  { intros data dm. unfold reportApiError.
    destruct (parseApiError (payloadOf data) dm); [apply showError_hasTimer | exact I]. }
  assert (Htry : match fst (tryDiagnose scan diagnose p1) with
                 | Done q => bannerHasTimer q
                 | Raised _ => True
                 end).
  { unfold tryDiagnose. destruct scan as [m|[] scanData]; cbn [negb fst]; try exact I;
      [|apply Hrep].
    destruct diagnose as [m|[] diagnoseData]; cbn [negb fst]; try exact I; [|apply Hrep].
    destruct diagnoseData as [|d s c st sg]; cbn [fst]; [exact I|].
    destruct (isFalse s); cbn [fst]; [apply Hrep|].
    destruct scanData as [|d' s' c' st' sg']; cbn [fst]; [exact I|].
    apply no_banner_hasTimer. reflexivity. }
  destruct (tryDiagnose scan diagnose p1) as [[q|m] log]; cbn [fst] in *.
  - apply setDiagnosing_hasTimer, Htry.
  - apply setDiagnosing_hasTimer, showError_hasTimer.
Qed.

Lemma panelStep_hasTimer (p : Panel) (e : PanelEvent) :
  bannerHasTimer p -> bannerHasTimer (panelStep p e).
Proof.
  intros H. destruct e; cbn [panelStep].
  - exact H.
  - apply runDiagnose_hasTimer.
  - apply timeoutFires_hasTimer, H.
  - apply no_banner_hasTimer. reflexivity.
Qed.

Lemma runPanel_hasTimer (es : list PanelEvent) :
  forall p : Panel, bannerHasTimer p -> bannerHasTimer (runPanel p es).
Proof.
  unfold runPanel. induction es as [|e es IH]; intros p H; cbn; [exact H|].
  apply IH, panelStep_hasTimer, H.
Qed.

Lemma fireTimers_closes (n : nat) :
  forall p : Panel,
    bannerHasTimer p -> length (timers p) = n ->
    errorMessage (fireTimers n p) = None /\ timers (fireTimers n p) = [].
Proof.
  induction n as [|n IH]; intros p H Hn; cbn [fireTimers].
  - destruct (timers p) as [|t rest] eqn:Et; [|discriminate]. split; [|reflexivity].
    destruct (errorMessage p) as [b|] eqn:Eb; [|reflexivity].
    specialize (H b Eb). rewrite Et in H. destruct H.
  - apply IH; [apply timeoutFires_hasTimer, H|].
    unfold timeoutFires. destruct (timers p) as [|t rest]; [discriminate|].
    cbn in *. lia.
Qed.

(** X6. Whatever happens to the panel (codes typed, diagnoses run, timers
    running, the banner closed by hand), a banner on display always has a
    pending timer set for its title; once the timers pending have all run,
    no banner is left. The banner therefore never stays for good. *)
Theorem banner_always_expires (es : list PanelEvent) :
  bannerHasTimer (runPanel initialPanel es)
  /\ errorMessage (fireTimers (length (timers (runPanel initialPanel es)))
                              (runPanel initialPanel es)) = None
  /\ timers (fireTimers (length (timers (runPanel initialPanel es)))
                        (runPanel initialPanel es)) = [].
Proof.
  assert (H : bannerHasTimer (runPanel initialPanel es)).
  { apply runPanel_hasTimer, no_banner_hasTimer. reflexivity. }
  split; [exact H|]. apply fireTimers_closes; [exact H | reflexivity].
Qed.

(** X7. The timer of an alert looks at the title only. With no timer
    pending before, an alert shown after another one with the same title is
    closed when the timer of the first runs, its own timer still pending;
    with a different title it stays on display. *)
Theorem banner_closed_by_older_timer
        (p : Panel) (sev1 sev2 : Severity) (title1 title2 m1 m2 : string)
        (d1 d2 : option string) :
  timers p = [] ->
  (title1 = title2 ->
   errorMessage (timeoutFires (showError sev2 title2 m2 d2
                                 (showError sev1 title1 m1 d1 p))) = None
   /\ timers (timeoutFires (showError sev2 title2 m2 d2
                              (showError sev1 title1 m1 d1 p))) = [title2])
  /\ (title1 <> title2 ->
      errorMessage (timeoutFires (showError sev2 title2 m2 d2
                                    (showError sev1 title1 m1 d1 p)))
      = Some (mkBanner sev2 (mkAlert title2 m2 d2))).
Proof.
  intros Ht. unfold timeoutFires, showError; cbn. rewrite Ht; cbn. split.
  - intros ->. now rewrite String.eqb_refl.
  - intros Hne. destruct (String.eqb title2 title1) eqn:E; [|reflexivity].
    apply String.eqb_eq in E. congruence.
Qed.

Lemma banner_closed_by_older_timer_witness :
  timers demoPanel = []
  /\ errorMessage (timeoutFires (showError sev_error "saved" "second" None
                                   (showError sev_info "saved" "first" None demoPanel)))
     = None
  /\ timers (timeoutFires (showError sev_error "saved" "second" None
                             (showError sev_info "saved" "first" None demoPanel)))
     = ["saved"%string].
Proof.
  split; [reflexivity|].
  exact (proj1 (banner_closed_by_older_timer
                  demoPanel sev_info sev_error "saved" "saved" "first" "second"
                  None None eq_refl) eq_refl).
Defined.

End PanelFacts.

Section StockDiagnosis.
Import Js Dashboard DashboardVocabulary.

Lemma reportApiError_cases (data : Body) (dm : string) (p : Panel) :
  (exists e : Alert,
      reportApiError data dm p = Done (showError sev_error (title e) (message e) (details e) p))
  \/ (exists m : option string, reportApiError data dm p = Raised m).
Proof.
  unfold reportApiError. destruct (parseApiError (payloadOf data) dm) as [e|m].
  - left. exists e. reflexivity.
  - right. eexists. reflexivity.
Qed.

Lemma tryDiagnose_result (scan diagnose : HttpReply) (p : Panel) :
  match diagnosisOf scan diagnose with
  | Some r => fst (tryDiagnose scan diagnose p) = Done (setDiagnoseResult r p)
  | None =>
      (exists e : Alert,
          fst (tryDiagnose scan diagnose p)
          = Done (showError sev_error (title e) (message e) (details e) p))
      \/ (exists m : option string, fst (tryDiagnose scan diagnose p) = Raised m)
  end.
Proof.
  unfold tryDiagnose, diagnosisOf.
  destruct scan as [m|[] scanData]; cbn [negb fst].
  - right. eexists. reflexivity.
  - destruct diagnose as [m|[] diagnoseData]; cbn [negb fst].
    + destruct scanData; right; eexists; reflexivity.
    + destruct diagnoseData as [|d s c st sg].
      * destruct scanData; right; eexists; reflexivity.
      * destruct (isFalse s) eqn:Es; cbn [fst].
        -- destruct scanData; apply reportApiError_cases.
        -- destruct scanData as [|d' s' c' st' sg']; cbn [fst];
             [right; eexists; reflexivity | reflexivity].
    + destruct scanData; apply reportApiError_cases.
  - apply reportApiError_cases.
Qed.

Lemma tryDiagnose_requests (scan diagnose : HttpReply) (p : Panel) :
  snd (tryDiagnose scan diagnose p)
  = if repliedOk scan
    then [ScanRequest (stockCode p); DiagnoseRequest (stockCode p)]
    else [ScanRequest (stockCode p)].
Proof.
  unfold tryDiagnose, repliedOk.
  destruct scan as [m|[] scanData]; cbn [negb snd]; try reflexivity.
  destruct diagnose as [m|[] diagnoseData]; cbn [negb snd]; try reflexivity.
  destruct diagnoseData as [|d s c st sg]; [reflexivity|].
  destruct (isFalse s); [reflexivity|]. destruct scanData; reflexivity.
Qed.

(** X8. For a code typed in ASCII, [runDiagnose] sends nothing when the code
    is empty or white space only (tab, line feed, vertical tab, form feed,
    carriage return, space): it shows the information banner and leaves the
    result on display and the busy flag alone. Whatever the code, it sends
    nothing when the API is not connected, and the banner it shows is no
    error banner. For an ASCII code that is not white space only and a
    connected API it sends the scan request, and the diagnose request only
    if the scan came back with [response.ok]; both carry the code as typed,
    white space included. *)
Theorem runDiagnose_gate_and_requests (a : ApiStatus) (scan diagnose : HttpReply)
        (p : Panel) :
  (isAscii (stockCode p) = true -> allWhiteSpace (stockCode p) = true ->
   snd (runDiagnose a scan diagnose p) = []
   /\ diagnoseResult (fst (runDiagnose a scan diagnose p)) = diagnoseResult p
   /\ isDiagnosing (fst (runDiagnose a scan diagnose p)) = isDiagnosing p
   /\ exists b : Banner,
        errorMessage (fst (runDiagnose a scan diagnose p)) = Some b
        /\ severity b = sev_info)
  /\ (isConnected a = false ->
      snd (runDiagnose a scan diagnose p) = []
      /\ diagnoseResult (fst (runDiagnose a scan diagnose p)) = diagnoseResult p
      /\ isDiagnosing (fst (runDiagnose a scan diagnose p)) = isDiagnosing p
      /\ exists b : Banner,
           errorMessage (fst (runDiagnose a scan diagnose p)) = Some b
           /\ severity b <> sev_error)
  /\ (isAscii (stockCode p) = true -> allWhiteSpace (stockCode p) = false ->
      isConnected a = true ->
      List.filter isRequest (snd (runDiagnose a scan diagnose p))
      = if repliedOk scan
        then [ScanRequest (stockCode p); DiagnoseRequest (stockCode p)]
        else [ScanRequest (stockCode p)]).
Proof.
  unfold runDiagnose. rewrite trim_blank, negb_involutive. split; [|split].
  - intros _ Hb. rewrite Hb. cbn. repeat split. eexists. split; reflexivity.
  - intros Hc.
    destruct (allWhiteSpace (stockCode p)); rewrite ?Hc; cbn; repeat split;
      eexists; (split; [reflexivity | discriminate]).
  - intros _ Hb Hc. rewrite Hb, Hc. cbn [negb].
    set (p1 := setDiagnosing true (setErrorMessage None p)).
    pose proof (tryDiagnose_requests scan diagnose p1) as Hreq.
    destruct (tryDiagnose scan diagnose p1) as [[q|m] log]; cbn [snd] in *; subst log.
    + destruct (repliedOk scan); reflexivity.
    + rewrite List.filter_app. destruct (repliedOk scan); reflexivity.
Qed.

Lemma runDiagnose_gate_and_requests_witness :
  isAscii (stockCode (setStockCode "  " demoPanel)) = true
  /\ allWhiteSpace (stockCode (setStockCode "  " demoPanel)) = true
  /\ snd (runDiagnose connected (HttpRejects None) (HttpRejects None)
                      (setStockCode "  " demoPanel)) = []
  /\ isAscii (stockCode (setStockCode " 600519.SH" demoPanel)) = true
  /\ allWhiteSpace (stockCode (setStockCode " 600519.SH" demoPanel)) = false
  /\ List.filter isRequest
       (snd (runDiagnose connected (HttpBody false BodyNull) (HttpRejects None)
                         (setStockCode " 600519.SH" demoPanel)))
     = [ScanRequest " 600519.SH"].
Proof.
  split; [reflexivity|]. split; [reflexivity|]. split.
  - exact (proj1 (proj1 (runDiagnose_gate_and_requests
                           connected (HttpRejects None) (HttpRejects None)
                           (setStockCode "  " demoPanel))
                        eq_refl eq_refl)).
  - split; [reflexivity|]. split; [reflexivity|].
    exact (proj2 (proj2 (runDiagnose_gate_and_requests
                           connected (HttpBody false BodyNull) (HttpRejects None)
                           (setStockCode " 600519.SH" demoPanel)))
                 eq_refl eq_refl eq_refl).
Defined.

(** X9. A run of [runDiagnose] on a code typed in ASCII that is not white
    space only, with the API connected, ends with the busy flag down. It stores a result, and leaves no banner, exactly when
    both replies came with [response.ok] and a body and the diagnosis does
    not say [success: false]; the stored signal is the one of the scan if
    that is truthy, else the one of the diagnosis. In every other case the
    result shown before stays on display and an error banner is shown. *)
Theorem runDiagnose_outcome (a : ApiStatus) (scan diagnose : HttpReply) (p : Panel) :
  isAscii (stockCode p) = true ->
  allWhiteSpace (stockCode p) = false ->
  isConnected a = true ->
  isDiagnosing (fst (runDiagnose a scan diagnose p)) = false
  /\ stockCode (fst (runDiagnose a scan diagnose p)) = stockCode p
  /\ match diagnosisOf scan diagnose with
     | Some r =>
         diagnoseResult (fst (runDiagnose a scan diagnose p)) = Some r
         /\ errorMessage (fst (runDiagnose a scan diagnose p)) = None
     | None =>
         diagnoseResult (fst (runDiagnose a scan diagnose p)) = diagnoseResult p
         /\ exists b : Banner,
              errorMessage (fst (runDiagnose a scan diagnose p)) = Some b
              /\ severity b = sev_error
     end.
Proof.
  intros _ Hb Hc. unfold runDiagnose. rewrite trim_blank, Hb, Hc. cbn [negb].
  set (p1 := setDiagnosing true (setErrorMessage None p)).
  pose proof (tryDiagnose_result scan diagnose p1) as Hres.
  destruct (diagnosisOf scan diagnose) as [r|].
  - destruct (tryDiagnose scan diagnose p1) as [t log]. cbn [fst] in Hres.
    subst t. cbn. repeat split.
  - destruct (tryDiagnose scan diagnose p1) as [t log]. cbn [fst] in Hres.
    destruct Hres as [[e ->] | [m ->]]; cbn; repeat split;
      eexists; (split; reflexivity).
Qed.

Lemma runDiagnose_outcome_witness :
  isAscii (stockCode demoPanel) = true
  /\ allWhiteSpace (stockCode demoPanel) = false
  /\ isConnected connected = true
  /\ diagnoseResult
       (fst (runDiagnose connected
                         (okBody JUndefined JUndefined (JStr "buy"))
                         (okBody JObject (JStr "report") (JStr "hold"))
                         demoPanel))
     = Some (mkDiagnoseResult JObject (JStr "report") (JStr "buy"))
  /\ errorMessage
       (fst (runDiagnose connected
                         (okBody JUndefined JUndefined (JStr "buy"))
                         (okBody JObject (JStr "report") (JStr "hold"))
                         demoPanel))
     = None.
Proof.
  split; [reflexivity|]. split; [reflexivity|]. split; [reflexivity|].
  exact (proj2 (proj2 (runDiagnose_outcome
                         connected
                         (okBody JUndefined JUndefined (JStr "buy"))
                         (okBody JObject (JStr "report") (JStr "hold"))
                         demoPanel eq_refl eq_refl eq_refl))).
Defined.

End StockDiagnosis.

(** ** Analysis flow, further *)

Section FlowMore.
Import Js AnalysisFlow FlowVocabulary FlowScenario.

Lemma demoChosen_reachable : reachable demoChosen.
Proof.
  apply (reach_step demoChoosing (ClickSector "Semiconductors")); [|reflexivity].
  apply (reach_step demoScanning (ScanSettles (Ok demoAnalysis))); [|reflexivity].
  apply (reach_step (mounted None) ClickAnalyze); [|reflexivity].
  exact (reach_mounted None).
Qed.

Lemma demoWaiting_reachable : reachable demoWaiting.
Proof.
  apply (reach_step demoChosen ClickRecommend); [|reflexivity].
  exact demoChosen_reachable.
Qed.

Lemma set_delete_absent (s : StringSet) (x : string) :
  ~ In x s -> set_delete s x = s.
Proof.
  unfold set_delete. induction s as [|y s IH]; cbn; [reflexivity|].
  intros H. destruct (String.eqb x y) eqn:E; cbn.
  - apply String.eqb_eq in E. exfalso. apply H. left. congruence.
  - rewrite IH; [reflexivity|]. intros Hx. apply H. now right.
Qed.

Lemma set_delete_app (s t : StringSet) (x : string) :
  set_delete (s ++ t) x = set_delete s x ++ set_delete t x.
Proof. unfold set_delete. apply List.filter_app. Qed.

Lemma set_delete_NoDup (s : StringSet) (x : string) :
  List.NoDup s -> List.NoDup (set_delete s x).
Proof.
  unfold set_delete. induction 1 as [|y s Hy _ IH]; cbn; [constructor|].
  destruct (negb (String.eqb x y)); [|exact IH].
  constructor; [|exact IH]. intros Hin. apply filter_In in Hin. tauto.
Qed.

Lemma NoDup_snoc (s : list string) (x : string) :
  ~ In x s -> List.NoDup s -> List.NoDup (s ++ [x]).
Proof.
  intros Hx H. induction H as [|y s Hy _ IH]; cbn.
  - constructor; [intros []|constructor].
  - constructor.
    + rewrite in_app_iff. intros [Hin | [-> | []]]; [contradiction|].
      apply Hx. now left.
    + apply IH. intros Hin. apply Hx. now right.
Qed.

Lemma toggleSector_NoDup (name : string) (s : FlowState) :
  List.NoDup (selectedSectors s) -> List.NoDup (selectedSectors (toggleSector name s)).
Proof.
  intros H. unfold toggleSector; cbn.
  destruct (set_has (selectedSectors s) name) eqn:E.
  - apply set_delete_NoDup, H.
  - unfold set_add. rewrite E. apply NoDup_snoc; [|exact H].
    intros Hin. apply set_has_In in Hin. congruence.
Qed.

(** X10. Toggling the same sector twice restores the membership of every
    name. When the sector was not selected the selection is restored as it
    was; when it was selected it comes back at the end of the selection, so
    the order in which the names are sent may change. *)
Theorem toggleSector_twice (name : string) (s : FlowState) :
  (forall y : string,
      In y (selectedSectors (toggleSector name (toggleSector name s)))
      <-> In y (selectedSectors s))
  /\ (~ In name (selectedSectors s) ->
      selectedSectors (toggleSector name (toggleSector name s)) = selectedSectors s)
  /\ (In name (selectedSectors s) ->
      selectedSectors (toggleSector name (toggleSector name s))
      = set_delete (selectedSectors s) name ++ [name]).
Proof.
  assert (Hout : ~ In name (selectedSectors s) ->
                 selectedSectors (toggleSector name (toggleSector name s))
                 = selectedSectors s).
  { intros Hn. unfold toggleSector; cbn [selectedSectors].
    destruct (set_has (selectedSectors s) name) eqn:E;
      [apply set_has_In in E; contradiction|].
    unfold set_add. rewrite E.
    assert (E' : set_has (selectedSectors s ++ [name]) name = true).
    { apply set_has_In, in_app_iff. right. now left. }
    rewrite E', set_delete_app, (set_delete_absent _ _ Hn).
    unfold set_delete; cbn. rewrite String.eqb_refl. cbn. apply app_nil_r. }
  assert (Hin : In name (selectedSectors s) ->
                selectedSectors (toggleSector name (toggleSector name s))
                = set_delete (selectedSectors s) name ++ [name]).
  { intros Hi. unfold toggleSector; cbn [selectedSectors].
    apply set_has_In in Hi as E. rewrite E.
    assert (E' : set_has (set_delete (selectedSectors s) name) name = false).
    { destruct (set_has (set_delete (selectedSectors s) name) name) eqn:F;
        [|reflexivity].
      apply set_has_In, set_delete_In in F. tauto. }
    rewrite E'. unfold set_add. now rewrite E'. }
  split; [|split; assumption].
  intros y. destruct (in_dec string_dec name (selectedSectors s)) as [Hi | Hn].
  - rewrite (Hin Hi), in_app_iff, set_delete_In. cbn.
    destruct (string_dec y name) as [->|Hne]; [tauto|].
    split; [intros [[H _]|[H|[]]]; [exact H | congruence] | intros H; left; tauto].
  - now rewrite (Hout Hn).
Qed.

Lemma toggleSector_twice_witness :
  In "Banks"%string ["Banks"%string; "Semiconductors"%string]
  /\ selectedSectors
       (toggleSector "Banks"
          (toggleSector "Banks"
             (mkFlow Step2 false None (Some demoAnalysis)
                     ["Banks"%string; "Semiconductors"%string] None balanced)))
     = ["Semiconductors"%string; "Banks"%string].
Proof.
  assert (H : In "Banks"%string ["Banks"%string; "Semiconductors"%string])
    by (left; reflexivity).
  split; [exact H|].
  exact (proj2 (proj2 (toggleSector_twice
                         "Banks"
                         (mkFlow Step2 false None (Some demoAnalysis)
                                 ["Banks"%string; "Semiconductors"%string]
                                 None balanced))) H).
Defined.

(** Induction over the states the template can drive the component into. *)
Lemma reachable_handle_ind (P : Component -> Prop) :
  (forall saved, P (mounted saved)) ->
  (forall c e, reachable c -> P c -> enabled c e = true -> P (handle c e)) ->
  forall c, reachable c -> P c.
Proof.
  intros Hm Hs c Hr. induction Hr as [saved | c e c' Hr IH Hstep]; [apply Hm|].
  unfold step in Hstep. destruct (enabled c e) eqn:En; [|discriminate].
  injection Hstep as <-. now apply Hs.
Qed.

Lemma onMounted_fields (saved : option string) (s : FlowState) :
  currentStep (onMounted saved s) = currentStep s
  /\ isLoading (onMounted saved s) = isLoading s
  /\ selectedSectors (onMounted saved s) = selectedSectors s
  /\ stockRecommendations (onMounted saved s) = stockRecommendations s.
Proof.
  unfold onMounted. destruct saved as [v|]; [|auto].
  destruct (parseRisk v); auto.
Qed.

Lemma handle_selection_NoDup (c : Component) (e : Event) :
  List.NoDup (selectedSectors (refs c)) ->
  List.NoDup (selectedSectors (refs (handle c e))).
Proof.
  intros H. destruct c as [s fl]. destruct e; cbn [handle refs inFlight]; try exact H.
  - destruct r; exact H.
  - apply toggleSector_NoDup, H.
  - unfold recommendStocks_begin. destruct (negb (hasSelectedSectors s)); exact H.
  - destruct r; exact H.
  - unfold goBack. destruct (currentStep s); cbn; try exact H; constructor.
  - constructor.
Qed.

(** X11. In every state the template can drive the flow into, the
    selection lists no sector twice, so the recommend request names each
    selected sector once. *)
Theorem selection_has_no_duplicates (c : Component) :
  reachable c ->
  List.NoDup (selectedSectors (refs c))
  /\ (forall (net : Backend) (names : list string) (risk : RiskPreference),
        In (PostStocks names risk) (snd (recommendStocks net (refs c))) ->
        List.NoDup names /\ names = selectedSectors (refs c)).
Proof.
  intros Hr.
  assert (H : List.NoDup (selectedSectors (refs c))).
  { revert c Hr. apply reachable_handle_ind.
    - intros saved. unfold mounted; cbn.
      rewrite (proj1 (proj2 (proj2 (onMounted_fields saved initial)))). constructor.
    - intros c e _ IH _. apply handle_selection_NoDup, IH. }
  split; [exact H|]. intros net names risk Hin.
  unfold recommendStocks, recommendStocks_begin in Hin.
  destruct (negb (hasSelectedSectors (refs c))); cbn in Hin; [destruct Hin|].
  destruct Hin as [[= <- <-] | []]. split; [exact H | reflexivity].
Qed.

Lemma selection_has_no_duplicates_witness :
  reachable demoChosen
  /\ List.NoDup (selectedSectors (refs demoChosen)).
Proof.
  split; [exact demoChosen_reachable|].
  exact (proj1 (selection_has_no_duplicates demoChosen demoChosen_reachable)).
Defined.

End FlowMore.

Section FlowRequests.
Import Js AnalysisFlow FlowVocabulary FlowScenario.

Lemma inFlight_at_most_one (c : Component) (p : Pending) :
  (length (inFlight c) <= 1)%nat -> existsb (isPending p) (inFlight c) = true ->
  removeFirst p (inFlight c) = [].
Proof. intros Hl He. exact (proj2 (pending_single _ _ Hl He)). Qed.

Lemma loading_only_in_flight (c : Component) :
  reachable c -> isLoading (refs c) = true -> inFlight c <> [].
Proof.
  intros Hr. pattern c. revert c Hr. apply reachable_handle_ind.
  - intros saved. unfold mounted; cbn.
    rewrite (proj1 (proj2 (onMounted_fields saved initial))). discriminate.
  - intros c e Hr IH En.
    destruct (reachable_invariant c Hr) as (_ & _ & _ & _ & Hlen).
    destruct c as [s fl]. cbn [refs inFlight] in *.
    destruct e; cbn [handle refs inFlight]; try exact IH.
    + intros _. destruct fl; discriminate.
    + destruct r; cbn; discriminate.
    + unfold recommendStocks_begin.
      destruct (negb (hasSelectedSectors s)); cbn [refs inFlight]; [exact IH|].
      intros _. destruct fl; discriminate.
    + destruct r; cbn; discriminate.
    + unfold goBack. destruct (currentStep s); exact IH.
Qed.

(** X12. In every state the template can drive the flow into, at most one
    request is on its way, the busy flag is up exactly while one is, and
    while one is neither the scan button nor the recommend button can start
    another. *)
Theorem one_request_at_a_time (c : Component) :
  reachable c ->
  (length (inFlight c) <= 1)%nat
  /\ (isLoading (refs c) = true <-> inFlight c <> [])
  /\ (inFlight c <> [] ->
      enabled c ClickAnalyze = false /\ enabled c ClickRecommend = false).
Proof.
  intros Hr. destruct (reachable_invariant c Hr) as (_ & _ & Hbusy & _ & Hlen).
  split; [exact Hlen|]. split.
  - split; [apply loading_only_in_flight, Hr | exact Hbusy].
  - intros Hne. specialize (Hbusy Hne). cbn. rewrite Hbusy. cbn.
    now rewrite !andb_false_r.
Qed.

Lemma one_request_at_a_time_witness :
  reachable demoWaiting
  /\ inFlight demoWaiting = [PendingRecommend]
  /\ isLoading (refs demoWaiting) = true
  /\ enabled demoWaiting ClickRecommend = false.
Proof.
  split; [exact demoWaiting_reachable|]. split; [reflexivity|].
  pose proof (one_request_at_a_time demoWaiting demoWaiting_reachable)
    as (_ & Hbusy & Hoff).
  assert (Hne : inFlight demoWaiting <> []) by discriminate.
  split; [exact (proj2 Hbusy Hne) | exact (proj2 (Hoff Hne))].
Defined.

End FlowRequests.

Section FlowRaces.
Import Js AnalysisFlow FlowVocabulary FlowScenario.

(** X14. The back button stays active while a recommend request is on its
    way. Going back at that moment, then receiving the reply, then going
    back again leaves the flow at step 2 without an analysis (and at step 3
    without one in between): a page for which the template shows nothing,
    and on which no button is left but the one closing the error banner. *)
Theorem late_reply_strands_flow (c : Component) (data : StockRecommendations) :
  reachable c ->
  showsStep2 (refs c) = true ->
  In PendingRecommend (inFlight c) ->
  exists c1 c2 c3 : Component,
    step c ClickBack = Some c1
    /\ step c1 (RecommendSettles (Ok data)) = Some c2
    /\ step c2 ClickBack = Some c3
    /\ currentStep (refs c2) = Step3 /\ sectorAnalysis (refs c2) = None
    /\ currentStep (refs c3) = Step2 /\ sectorAnalysis (refs c3) = None
    /\ selectedSectors (refs c3) = []
    /\ showsStep2 (refs c3) = false
    /\ (forall e : Event, enabled c3 e = true -> e = ClickCloseError).
Proof.
  intros Hr Hsh Hin.
  destruct (reachable_invariant c Hr) as (_ & _ & _ & _ & Hlen).
  pose proof (showsStep2_true _ Hsh) as Est.
  assert (Hfl : inFlight c = [PendingRecommend]).
  { destruct (inFlight c) as [|p [|q fl]].
    - destruct Hin.
    - destruct Hin as [-> | []]. reflexivity.
    - cbn in Hlen. lia. }
  destruct c as [s fl]. cbn [refs inFlight] in *. subst fl.
  exists (handle (mkComponent s [PendingRecommend]) ClickBack).
  exists (handle (handle (mkComponent s [PendingRecommend]) ClickBack)
                 (RecommendSettles (Ok data))).
  exists (handle (handle (handle (mkComponent s [PendingRecommend]) ClickBack)
                         (RecommendSettles (Ok data))) ClickBack).
  assert (Hgb : goBack s
                = mkFlow Step1 (isLoading s) (errorMessage s) None []
                         (stockRecommendations s) (riskPreference s)).
  { unfold goBack. now rewrite Est. }
  unfold step. cbn [enabled handle refs inFlight]. rewrite Hsh. cbn [orb].
  rewrite !Hgb. cbn.
  do 9 (split; [reflexivity|]).
  intros e He. destruct e; cbn in He; try discriminate. reflexivity.
Qed.

Lemma late_reply_strands_flow_witness :
  reachable demoWaiting
  /\ showsStep2 (refs demoWaiting) = true
  /\ In PendingRecommend (inFlight demoWaiting)
  /\ exists c3 : Component,
       reachable c3
       /\ currentStep (refs c3) = Step2
       /\ sectorAnalysis (refs c3) = None
       /\ enabled c3 ClickBack = false
       /\ enabled c3 ClickAnalyze = false.
Proof.
  assert (Hin : In PendingRecommend (inFlight demoWaiting)) by (left; reflexivity).
  split; [exact demoWaiting_reachable|]. split; [reflexivity|]. split; [exact Hin|].
  destruct (late_reply_strands_flow demoWaiting demoRecommendations
              demoWaiting_reachable eq_refl Hin)
    as (c1 & c2 & c3 & H1 & H2 & H3 & _ & _ & Hs & Ha & _ & _ & Hall).
  exists c3. split.
  - apply (reach_step c2 ClickBack); [|exact H3].
    apply (reach_step c1 (RecommendSettles (Ok demoRecommendations))); [|exact H2].
    apply (reach_step demoWaiting ClickBack); [exact demoWaiting_reachable | exact H1].
  - split; [exact Hs|]. split; [exact Ha|]. split.
    + destruct (enabled c3 ClickBack) eqn:E; [|reflexivity].
      discriminate (Hall ClickBack E).
    + destruct (enabled c3 ClickAnalyze) eqn:E; [|reflexivity].
      discriminate (Hall ClickAnalyze E).
Defined.

Lemma parseRisk_riskValue (value : RiskPreference) :
  parseRisk (riskValue value) = Some value.
Proof. destruct value; reflexivity. Qed.

Lemma handle_riskPreference (c : Component) (e : Event) :
  riskPreference (refs (handle c e))
  = match e with
    | ClickRisk value => value
    | _ => riskPreference (refs c)
    end.
Proof.
  destruct c as [s fl]. destruct e; cbn [handle refs inFlight]; try reflexivity.
  - destruct r; reflexivity.
  - unfold recommendStocks_begin. destruct (negb (hasSelectedSectors s)); reflexivity.
  - destruct r; reflexivity.
  - unfold goBack. destruct (currentStep s); reflexivity.
Qed.

Lemma written_other_key (e : Event) (store : LocalStorage) (key : string) :
  key <> "riskPreference"%string ->
  getItem (written e store) key = getItem store key.
Proof.
  intros Hk. destruct e; try reflexivity.
  unfold written, getItem, setItem.
  apply String.eqb_neq in Hk. now rewrite Hk.
Qed.

(** What a reload would show is what the page shows, and stays so. *)
Lemma pageRun_restores (es : list Event) :
  forall pg pg' : Page,
    riskPreference (refs (component (loadPage (storage pg))))
    = riskPreference (refs (component pg)) ->
    pageRun pg es = Some pg' ->
    riskPreference (refs (component (loadPage (storage pg'))))
    = riskPreference (refs (component pg'))
    /\ (forall key : string,
          key <> "riskPreference"%string ->
          getItem (storage pg') key = getItem (storage pg) key).
Proof.
  induction es as [|e es IH]; intros pg pg' Hinv Hrun; cbn [pageRun] in Hrun.
  - injection Hrun as <-. split; [exact Hinv | reflexivity].
  - unfold pageStep in Hrun. destruct (enabled (component pg) e); [|discriminate].
    assert (Hnext : riskPreference
                      (refs (component (loadPage (written e (storage pg)))))
                    = riskPreference (refs (handle (component pg) e))).
    { rewrite handle_riskPreference. destruct e; try exact Hinv.
      unfold loadPage, mounted, written, getItem, setItem, onMounted.
      cbn [component refs]. rewrite String.eqb_refl, parseRisk_riskValue.
      reflexivity. }
    destruct (IH (mkPage (handle (component pg) e) (written e (storage pg)))
                 pg' Hnext Hrun) as [H1 H2].
    split; [exact H1|]. intros key Hk. rewrite (H2 key Hk).
    cbn [storage]. apply written_other_key, Hk.
Qed.

(** X15. The risk preference survives a reload. Take a page loaded from some
    localStorage and driven through any events its template allows: a page
    loaded anew from the localStorage the session leaves shows the
    preference the session showed last, and the session has changed
    localStorage under no key but [riskPreference]. *)
Theorem riskPreference_survives_reload
        (store : LocalStorage) (es : list Event) (pg : Page) :
  pageRun (loadPage store) es = Some pg ->
  riskPreference (refs (component (loadPage (storage pg))))
  = riskPreference (refs (component pg))
  /\ (forall key : string,
        key <> "riskPreference"%string ->
        getItem (storage pg) key = getItem store key).
Proof.
  intros Hrun. exact (pageRun_restores es (loadPage store) pg eq_refl Hrun).
Qed.

Lemma riskPreference_survives_reload_witness :
  exists pg : Page,
    pageRun (loadPage emptyStorage) [ClickRisk conservative; ClickAnalyze] = Some pg
    /\ riskPreference (refs (component (loadPage emptyStorage))) = balanced
    /\ riskPreference (refs (component pg)) = conservative
    /\ riskPreference (refs (component (loadPage (storage pg)))) = conservative.
Proof.
  eexists. split; [reflexivity|]. split; [reflexivity|]. split; [reflexivity|].
  exact (proj1 (riskPreference_survives_reload
                  emptyStorage [ClickRisk conservative; ClickAnalyze] _ eq_refl)).
Defined.

(** X16. A failed call can be repeated as it was: if the recommend button
    is active and the call it starts fails, the button is active again
    afterwards and a second call sends the same request; likewise for the
    scan button. *)
Theorem failed_call_can_be_repeated (net net' : Backend) (s : FlowState) :
  (enabled (mkComponent s []) ClickRecommend = true ->
   succeeded (recommend net (selectedSectors s) (riskPreference s)) = false ->
   enabled (mkComponent (fst (recommendStocks net s)) []) ClickRecommend = true
   /\ snd (recommendStocks net' (fst (recommendStocks net s)))
      = snd (recommendStocks net s))
  /\ (enabled (mkComponent s []) ClickAnalyze = true ->
      succeeded (scanSectors net) = false ->
      enabled (mkComponent (fst (analyzeSectors net s)) []) ClickAnalyze = true).
Proof.
  destruct s as [st ld em sa sel recs risk]. split.
  - unfold enabled, showsStep2, isStep, hasSelectedSectors, recommendStocks,
      recommendStocks_begin; cbn.
    intros En Hf. apply andb_true_iff in En as [En Hl].
    apply andb_true_iff in En as [Esh Hsel]. rewrite Hsel. cbn.
    destruct (recommend net sel risk); [| |discriminate]; cbn;
      rewrite Esh, Hsel; split; reflexivity.
  - unfold enabled, isStep, analyzeSectors; cbn.
    intros En Hf. apply andb_true_iff in En as [Est Hl].
    destruct (scanSectors net); [| |discriminate]; cbn; now rewrite Est.
Qed.

Lemma failed_call_can_be_repeated_witness :
  enabled (mkComponent (refs demoChosen) []) ClickRecommend = true
  /\ succeeded (recommend (demoBackend (Ok demoAnalysis) (NotOk None))
                          (selectedSectors (refs demoChosen))
                          (riskPreference (refs demoChosen))) = false
  /\ enabled (mkComponent
                (fst (recommendStocks (demoBackend (Ok demoAnalysis) (NotOk None))
                                      (refs demoChosen))) [])
             ClickRecommend = true.
Proof.
  split; [reflexivity|]. split; [reflexivity|].
  exact (proj1 (proj1 (failed_call_can_be_repeated
                         (demoBackend (Ok demoAnalysis) (NotOk None))
                         (demoBackend (Ok demoAnalysis) (NotOk None))
                         (refs demoChosen)) eq_refl eq_refl)).
Defined.

End FlowRaces.

(** ** The ledger's accounts *)

Section Accounts.
Import Js Ledger LedgerVocabulary LedgerAccounts.
Local Open Scope Q_scope.

Lemma sum_from (f : Position -> Q) (ps : list Position) :
  forall a : Q,
    fold_left (fun acc pos => acc + f pos) ps a
    == a + fold_left (fun acc pos => acc + f pos) ps 0.
Proof.
  induction ps as [|p ps IH]; intros a; cbn [fold_left].
  - ring.
  - rewrite (IH (a + f p)), (IH (0 + f p)). ring.
Qed.

Lemma sumWeights_cons (p : Position) (ps : list Position) :
  sumWeights (p :: ps) == or_opt_num (weight p) 0 + sumWeights ps.
Proof.
  unfold sumWeights; cbn [fold_left].
  rewrite (sum_from (fun pos => or_opt_num (weight pos) 0) ps). ring.
Qed.

Lemma marketValue_cons (s : State) (p : Position) (ps : list Position) :
  totalMarketValue (setPositions (p :: ps) s)
  == quantity p * cost_price p + totalMarketValue (setPositions ps s).
Proof.
  unfold totalMarketValue; cbn [positions setPositions fold_left].
  rewrite (sum_from (fun pos => quantity pos * cost_price pos) ps). ring.
Qed.

Lemma or_opt_num_self (x : Q) : or_opt_num (Some x) 0 == x.
Proof.
  unfold or_opt_num, truthy_num. destruct (Qeq_bool x 0) eqn:E; [|reflexivity].
  apply Qeq_bool_iff in E. symmetry. exact E.
Qed.

Lemma sumWeights_reweighed (total : Q) (s : State) (ps : list Position) :
  0 < total ->
  sumWeights (map (reweighed total) ps)
  == 100 * totalMarketValue (setPositions ps s) / total.
Proof.
  intros Ht. induction ps as [|p ps IH].
  - unfold sumWeights, totalMarketValue; cbn. field. lra.
  - cbn [map]. rewrite sumWeights_cons, marketValue_cons, IH.
    cbn [reweighed setWeight weight]. rewrite or_opt_num_self.
    unfold weightOf. apply Qlt_bool_true in Ht as Hb. rewrite Hb.
    field. lra.
Qed.

Lemma sumWeights_zero (total : Q) (ps : list Position) :
  total <= 0 -> sumWeights (map (reweighed total) ps) == 0.
Proof.
  intros Ht. induction ps as [|p ps IH]; [reflexivity|].
  cbn [map]. rewrite sumWeights_cons, IH.
  cbn [reweighed setWeight weight]. rewrite or_opt_num_self.
  unfold weightOf. apply Qlt_bool_false in Ht. rewrite Ht. ring.
Qed.

Lemma marketValue_reweighed (total : Q) (ps : list Position) :
  forall a : Q,
    fold_left (fun sum pos => sum + quantity pos * cost_price pos)
              (map (reweighed total) ps) a
    = fold_left (fun sum pos => sum + quantity pos * cost_price pos) ps a.
Proof.
  induction ps as [|p ps IH]; intros a; cbn; [reflexivity|]. apply IH.
Qed.

(** X17. After [updateWeights], and so after every quote refresh, the
    weights of the positions add up to 100 times the invested amount
    ([totalMarketValue], at cost) over the total capital when the total
    capital is positive, and to zero when it is not. *)
Theorem weights_add_up (quote : nat -> string -> QuoteFetch) (w : World) :
  (0 < total_capital (fst w) ->
   sumWeights (positions (fst (updateWeights w)))
   == 100 * totalMarketValue (fst w) / total_capital (fst w)
   /\ sumWeights (positions (fst (refreshQuotes quote w)))
      == 100 * totalMarketValue (fst (refreshQuotes quote w)) / total_capital (fst w))
  /\ (total_capital (fst w) <= 0 ->
      sumWeights (positions (fst (updateWeights w))) == 0).
Proof.
  destruct w as [s log]. cbn [fst]. split.
  - intros Ht. split.
    + change (positions (fst (updateWeights (s, log))))
        with (map (reweighed (total_capital s)) (positions s)).
      rewrite (sumWeights_reweighed _ s _ Ht). destruct s; reflexivity.
    + destruct (positions s) as [|p ps] eqn:E.
      * unfold refreshQuotes. cbn [fst]. rewrite E.
        unfold sumWeights, totalMarketValue. cbn [fst]. rewrite E. cbn. field. lra.
      * assert (Hne : positions s <> []) by congruence.
        rewrite (refreshQuotes_unfold quote s log Hne).
        cbn [fst positions setLoading setPositions].
        rewrite (sumWeights_reweighed _ s _ Ht).
        apply Qdiv_comp; [|reflexivity]. apply Qmult_comp; [reflexivity|].
        unfold totalMarketValue; cbn [positions setPositions setLoading].
        now rewrite marketValue_reweighed.
  - intros Ht.
    change (positions (fst (updateWeights (s, log))))
      with (map (reweighed (total_capital s)) (positions s)).
    apply sumWeights_zero, Ht.
Qed.

Lemma weights_add_up_witness :
  0 < total_capital (fst (demoState, @nil Effect))
  /\ sumWeights (positions (fst (updateWeights (demoState, []))))
     == 100 * totalMarketValue demoState / 100000
  /\ sumWeights (positions (fst (updateWeights (demoState, [])))) == 3.
Proof.
  assert (H : 0 < total_capital (fst (demoState, @nil Effect))) by reflexivity.
  split; [exact H|]. split; [|reflexivity].
  exact (proj1 (proj1 (weights_add_up demoQuote (demoState, [])) H)).
Defined.

End Accounts.

Section CostBasis.
Import Js Ledger LedgerVocabulary LedgerAccounts.
Local Open Scope Q_scope.

Lemma positionAfter_basis (r : QuoteFetch) (pos : Position) :
  sameBasis pos (positionAfter r pos).
Proof.
  unfold sameBasis, positionAfter. destruct (usableQuote r); repeat split.
Qed.

Lemma quoteLoop_basis (quote : nat -> string -> QuoteFetch) (ps : list Position) :
  forall (k : nat) (log : list Effect),
    List.Forall2 sameBasis ps (fst (quoteLoop quote k ps log)).
Proof.
  induction ps as [|p ps IH]; intros k log; cbn [quoteLoop]; [constructor|].
  pose proof (quoteOne_fst (quote k (ts_code p)) p log) as H1.
  destruct (quoteOne (quote k (ts_code p)) p log) as [pos' log1].
  specialize (IH (S k) log1).
  destruct (quoteLoop quote (S k) ps log1) as [rest log2].
  cbn [fst] in *. subst pos'. constructor; [apply positionAfter_basis | exact IH].
Qed.

Lemma marketValue_basis (ps ps' : list Position) :
  List.Forall2 sameBasis ps ps' ->
  forall a : Q,
    fold_left (fun sum pos => sum + quantity pos * cost_price pos) ps' a
    = fold_left (fun sum pos => sum + quantity pos * cost_price pos) ps a.
Proof.
  induction 1 as [|p p' ps ps' (_ & _ & Hq & Hc) _ IH]; intros a; cbn; [reflexivity|].
  rewrite Hq, Hc. apply IH.
Qed.

Lemma reweighed_basis (total : Q) (ps ps' : list Position) :
  List.Forall2 sameBasis ps ps' ->
  List.Forall2 sameBasis ps (map (reweighed total) ps').
Proof.
  induction 1 as [|p p' ps ps' Hb _ IH]; cbn; constructor; [exact Hb | exact IH].
Qed.

Lemma sameBasis_refl (ps : list Position) : List.Forall2 sameBasis ps ps.
Proof. induction ps; constructor; [repeat split | assumption]. Qed.

Lemma refreshQuotes_basis (quote : nat -> string -> QuoteFetch) (w : World) :
  List.Forall2 sameBasis (positions (fst w)) (positions (fst (refreshQuotes quote w))).
Proof.
  destruct w as [s log]. cbn [fst].
  destruct (positions s) as [|p ps] eqn:E.
  - unfold refreshQuotes. cbn [fst]. rewrite E. cbn [fst]. rewrite E. constructor.
  - assert (Hne : positions s <> []) by congruence.
    rewrite (refreshQuotes_unfold quote s log Hne).
    cbn [fst positions setLoading setPositions]. rewrite <- E.
    apply reweighed_basis, quoteLoop_basis.
Qed.

(** X18. A quote refresh changes neither the number nor the order of the
    positions, nor the id, code, quantity or cost price of any of them, nor
    the total capital; the invested amount and the available capital, both
    computed at cost, are therefore the same after it as before. *)
Theorem refreshQuotes_keeps_cost_basis (quote : nat -> string -> QuoteFetch)
        (w : World) :
  List.Forall2 sameBasis (positions (fst w)) (positions (fst (refreshQuotes quote w)))
  /\ total_capital (fst (refreshQuotes quote w)) = total_capital (fst w)
  /\ totalMarketValue (fst (refreshQuotes quote w)) = totalMarketValue (fst w)
  /\ PortfolioManager.availableCapital (fst (refreshQuotes quote w))
     = PortfolioManager.availableCapital (fst w).
Proof.
  pose proof (refreshQuotes_basis quote w) as Hb.
  assert (Ht : total_capital (fst (refreshQuotes quote w)) = total_capital (fst w)).
  { destruct w as [s log]. unfold refreshQuotes. cbn [fst].
    destruct (positions s) as [|p ps]; [reflexivity|].
    unfold update. cbn [fst snd].
    destruct (quoteLoop quote 0 (positions (setLoading true s)) log). reflexivity. }
  assert (Hm : totalMarketValue (fst (refreshQuotes quote w)) = totalMarketValue (fst w)).
  { unfold totalMarketValue. apply marketValue_basis, Hb. }
  split; [exact Hb|]. split; [exact Ht|]. split; [exact Hm|].
  unfold PortfolioManager.availableCapital. now rewrite Ht, Hm.
Qed.

(** X19. For a position of positive cost price that a refresh has given a
    quote, the two figures shown agree: the profit is the percentage applied
    to the amount paid, [profit = profit_pct / 100 * quantity * cost_price];
    with a cost price that is not positive the percentage is zero. *)
Theorem profit_agrees_with_percentage (quote : nat -> string -> QuoteFetch)
        (s : State) (log : list Effect) (i : nat) (pos : Position) (q : QuoteData) :
  positions s !! i = Some pos ->
  usableQuote (quote i (ts_code pos)) = Some q ->
  exists (pos' : Position) (gain pct : Q),
    positions (fst (refreshQuotes quote (s, log))) !! i = Some pos'
    /\ profit pos' = Some gain
    /\ profit_pct pos' = Some pct
    /\ (0 < cost_price pos -> gain == pct / 100 * (quantity pos * cost_price pos))
    /\ (cost_price pos <= 0 -> pct = 0).
Proof.
  intros Hi Hq. eexists. eexists. eexists.
  split; [apply refreshed_position, Hi|].
  unfold positionAfter. rewrite Hq. cbn. split; [reflexivity|]. split; [reflexivity|].
  unfold profitAt, profitPctAt. split.
  - intros Hc. apply Qlt_bool_true in Hc as Hb. rewrite Hb. field. lra.
  - intros Hc. apply Qlt_bool_false in Hc. now rewrite Hc.
Qed.

Lemma profit_agrees_with_percentage_witness :
  positions demoState !! 1%nat = Some pingan
  /\ usableQuote (demoQuote 1 (ts_code pingan))
     = Some (mkQuote (Some 12) (Some "Ping An Bank"%string))
  /\ exists (pos' : Position) (gain pct : Q),
       positions (fst (refreshQuotes demoQuote (demoState, []))) !! 1%nat = Some pos'
       /\ profit pos' = Some gain
       /\ profit_pct pos' = Some pct
       /\ gain == 400 /\ pct == 20.
Proof.
  split; [reflexivity|]. split; [reflexivity|].
  destruct (profit_agrees_with_percentage
              demoQuote demoState [] 1 pingan
              (mkQuote (Some 12) (Some "Ping An Bank"%string)) eq_refl eq_refl)
    as (pos' & gain & pct & Hp & Hg & Hpct & _).
  exists pos', gain, pct. split; [exact Hp|]. split; [exact Hg|]. split; [exact Hpct|].
  cbn in Hp. injection Hp as <-. cbn in Hg, Hpct.
  injection Hg as <-. injection Hpct as <-. split; reflexivity.
Defined.

End CostBasis.

(** ** The checks of a save and the quantity controls *)

Section Checks.
Import Js Ledger LedgerVocabulary LedgerAccounts.
Local Open Scope Q_scope.

Lemma Qtrunc_whole (x : Q) (k : Z) : x == inject_Z k -> Qtrunc x = k.
Proof.
  unfold Qeq, Qtrunc, inject_Z. destruct x as [n d]. cbn. intros H.
  rewrite Z.mul_1_r in H. subst n. apply Z.quot_mul. discriminate.
Qed.

(** [q % 100] is zero exactly for the whole multiples of 100. *)
Lemma rem_100_zero (q : Q) :
  Qeq_bool (rem q 100) 0 = true <-> exists k : Z, q == inject_Z k * 100.
Proof.
  rewrite Qeq_bool_iff. unfold rem. split.
  - intros H. exists (Qtrunc (q / 100)). lra.
  - intros [k Hk].
    assert (Hd : q / 100 == inject_Z k) by (rewrite Hk; field).
    rewrite (Qtrunc_whole _ _ Hd). lra.
Qed.

Lemma validate_accepts (f : Form) :
  validate f = None <->
  form_ts_code f <> EmptyString
  /\ 0 < form_quantity f
  /\ (exists k : Z, form_quantity f == inject_Z k * 100)
  /\ 0 < form_cost_price f.
Proof.
  unfold validate. destruct (form_ts_code f) as [|c code] eqn:Ec; cbn [truthy_str negb].
  { split; [discriminate | intros [H _]; congruence]. }
  destruct (Qle_bool (form_quantity f) 0) eqn:Eq; cbn [orb].
  { apply Qle_bool_iff in Eq. split; [discriminate|]. intros (_ & H & _). lra. }
  assert (Hq : 0 < form_quantity f).
  { apply Qnot_le_lt. intros H. apply Qle_bool_iff in H. congruence. }
  destruct (Qeq_bool (rem (form_quantity f) 100) 0) eqn:Er; cbn [negb].
  - apply rem_100_zero in Er.
    destruct (Qle_bool (form_cost_price f) 0) eqn:Ecost.
    + apply Qle_bool_iff in Ecost. split; [discriminate|]. intros (_ & _ & _ & H). lra.
    + split; [|reflexivity]. intros _. repeat split; try assumption; try discriminate.
      apply Qnot_le_lt. intros H. apply Qle_bool_iff in H. congruence.
  - split; [discriminate|]. intros (_ & _ & Hk & _).
    apply rem_100_zero in Hk. congruence.
Qed.

(** X20. [savePosition], in both versions, goes on exactly when the code
    is not empty, the quantity is a positive whole multiple of 100 and the
    cost price is positive. Otherwise it raises one alert, naming the first
    check that failed (code, then quantity, then price), sends nothing and
    leaves the ledger and the form as they were. *)
Theorem savePosition_checks (srv : PortfolioManager.Server) (w : World) :
  (validate (formData (fst w)) = None <->
   form_ts_code (formData (fst w)) <> EmptyString
   /\ 0 < form_quantity (formData (fst w))
   /\ (exists k : Z, form_quantity (formData (fst w)) == inject_Z k * 100)
   /\ 0 < form_cost_price (formData (fst w)))
  /\ (forall text : string,
        validate (formData (fst w)) = Some text ->
        PortfolioManager.savePosition srv w = (fst w, snd w ++ [AlertShown text])
        /\ LocalManager.savePosition w = Return (fst w, snd w ++ [AlertShown text]))
  /\ (form_ts_code (formData (fst w)) = EmptyString ->
      validate (formData (fst w)) = Some "请输入股票代码"%string)
  /\ (form_ts_code (formData (fst w)) <> EmptyString ->
      (form_quantity (formData (fst w)) <= 0
       \/ ~ (exists k : Z, form_quantity (formData (fst w)) == inject_Z k * 100)) ->
      validate (formData (fst w)) = Some "持仓数量必须是100的正整数倍"%string)
  /\ (form_ts_code (formData (fst w)) <> EmptyString ->
      0 < form_quantity (formData (fst w)) ->
      (exists k : Z, form_quantity (formData (fst w)) == inject_Z k * 100) ->
      form_cost_price (formData (fst w)) <= 0 ->
      validate (formData (fst w)) = Some "请输入有效的成本价"%string).
Proof.
  split; [apply validate_accepts|]. split; [|split; [|split]].
  - intros text Ht. unfold PortfolioManager.savePosition, LocalManager.savePosition.
    rewrite Ht. split; reflexivity.
  - intros Hc. unfold validate. now rewrite Hc.
  - intros Hc Hq. unfold validate.
    destruct (form_ts_code (formData (fst w))); [contradiction|]. cbn [truthy_str negb].
    destruct Hq as [Hq | Hq].
    + apply Qle_bool_iff in Hq. now rewrite Hq.
    + destruct (Qeq_bool (rem (form_quantity (formData (fst w))) 100) 0) eqn:Er.
      * apply rem_100_zero in Er. contradiction.
      * now rewrite orb_true_r.
  - intros Hc Hq Hk Hp. unfold validate.
    destruct (form_ts_code (formData (fst w))); [contradiction|]. cbn [truthy_str negb].
    destruct (Qle_bool (form_quantity (formData (fst w))) 0) eqn:Eq.
    + apply Qle_bool_iff in Eq. lra.
    + apply rem_100_zero in Hk. rewrite Hk. cbn.
      apply Qle_bool_iff in Hp. now rewrite Hp.
Qed.

Lemma savePosition_checks_witness :
  validate (formData (fst (setQuantity 150 demoEditing, @nil Effect)))
  = Some "持仓数量必须是100的正整数倍"%string
  /\ LocalManager.savePosition (setQuantity 150 demoEditing, [])
     = Return (setQuantity 150 demoEditing,
               [AlertShown "持仓数量必须是100的正整数倍"])
  /\ PortfolioManager.savePosition (demoServer []) (setQuantity 150 demoEditing, [])
     = (setQuantity 150 demoEditing, [AlertShown "持仓数量必须是100的正整数倍"]).
Proof.
  assert (H : validate (formData (fst (setQuantity 150 demoEditing, @nil Effect)))
              = Some "持仓数量必须是100的正整数倍"%string) by reflexivity.
  split; [exact H|].
  destruct (proj1 (proj2 (savePosition_checks
                            (demoServer []) (setQuantity 150 demoEditing, [])))
                  _ H) as [Hb Hl].
  split; [exact Hl | exact Hb].
Defined.

Lemma boardLots_checks (q : Q) :
  boardLots q -> Qle_bool q 0 || negb (Qeq_bool (rem q 100) 0) = false.
Proof.
  intros (k & Hk & Hq).
  assert (H1 : 1 <= inject_Z k)
    by (change (inject_Z 1 <= inject_Z k); rewrite <- Zle_Qle; exact Hk).
  apply orb_false_iff. split.
  - destruct (Qle_bool q 0) eqn:E; [|reflexivity]. apply Qle_bool_iff in E. lra.
  - apply negb_false_iff, rem_100_zero. exists k. exact Hq.
Qed.

Lemma snapQuantity_boardLots (q : Q) : boardLots (PortfolioManager.snapQuantity q).
Proof.
  destruct (Qlt_le_dec q 100) as [Hlt | Hge].
  - unfold PortfolioManager.snapQuantity. apply Qlt_bool_true in Hlt. rewrite Hlt.
    exists 1%Z. split; [lia | reflexivity].
  - destruct (snapQuantity_nearest q Hge) as (k & Hk & Hq & _).
    exists k. split; assumption.
Qed.

Lemma useControl_boardLots (s : State) (c : PortfolioManager.QuantityControl) :
  boardLots (form_quantity (formData s)) ->
  boardLots (form_quantity (formData (PortfolioManager.useControl s c))).
Proof.
  intros (k & Hk & Hq). destruct c as [| |parsed]; cbn [PortfolioManager.useControl].
  - destruct (Qle_bool (form_quantity (formData s)) 100) eqn:E;
      [exists k; split; assumption|].
    unfold PortfolioManager.adjustQuantity.
    destruct (Qle_bool 100 (form_quantity (formData s) + -100)) eqn:E2;
      [|exists k; split; assumption].
    cbn. exists (k - 1)%Z. apply Qle_bool_iff in E2.
    assert (H2 : 2 <= inject_Z k) by lra.
    change (inject_Z 2 <= inject_Z k) in H2.
    split; [rewrite <- Zle_Qle in H2; lia|].
    unfold Z.sub. rewrite inject_Z_plus, inject_Z_opp.
    change (inject_Z 1) with 1%Q. lra.
  - unfold PortfolioManager.adjustQuantity.
    destruct (Qle_bool 100 (form_quantity (formData s) + 100)) eqn:E2;
      [|exists k; split; assumption].
    cbn. exists (k + 1)%Z. split; [lia|].
    rewrite inject_Z_plus. change (inject_Z 1) with 1%Q. lra.
  - unfold PortfolioManager.onQuantityChange.
    rewrite validateQuantity_snaps. apply snapQuantity_boardLots.
Qed.

(** X21. Within the whole numbers that doubles hold exactly, the quantity
    controls keep the quantity of the form a whole multiple of 100, at least
    100: starting from the form as [resetForm] leaves it, no sequence of
    presses on minus and plus and of entries in the box, with the numbers
    typed and the quantities passed through at most [maxSafeInteger], leaves
    a quantity that the quantity check of [savePosition] refuses. *)
Theorem quantity_controls_keep_board_lots
        (s : State) (cs : list PortfolioManager.QuantityControl) :
  withinSafeIntegers (resetForm s) cs ->
  boardLots (form_quantity (formData
               (fold_left PortfolioManager.useControl cs (resetForm s))))
  /\ Qle_bool (form_quantity (formData
                 (fold_left PortfolioManager.useControl cs (resetForm s)))) 0
     || negb (Qeq_bool
                (rem (form_quantity (formData
                        (fold_left PortfolioManager.useControl cs (resetForm s)))) 100)
                0)
     = false.
Proof.
  intros _.
  assert (H : forall s0 : State,
             boardLots (form_quantity (formData s0)) ->
             boardLots (form_quantity (formData
                          (fold_left PortfolioManager.useControl cs s0)))).
  { induction cs as [|c cs IH]; intros s0 H0; cbn [fold_left]; [exact H0|].
    apply IH, useControl_boardLots, H0. }
  assert (Hr : boardLots (form_quantity (formData (resetForm s)))).
  { exists 1%Z. split; [lia | reflexivity]. }
  split; [apply H, Hr | apply boardLots_checks, H, Hr].
Qed.

Lemma quantity_controls_keep_board_lots_witness :
  withinSafeIntegers
    (resetForm demoState)
    [PortfolioManager.TypeQuantity (Some 250%Z); PortfolioManager.PressPlus;
     PortfolioManager.PressMinus; PortfolioManager.PressMinus]
  /\ form_quantity
       (formData
          (fold_left PortfolioManager.useControl
             [PortfolioManager.TypeQuantity (Some 250%Z); PortfolioManager.PressPlus;
              PortfolioManager.PressMinus; PortfolioManager.PressMinus]
             (resetForm demoState)))
     == 200
  /\ boardLots
       (form_quantity
          (formData
             (fold_left PortfolioManager.useControl
                [PortfolioManager.TypeQuantity (Some 250%Z); PortfolioManager.PressPlus;
                 PortfolioManager.PressMinus; PortfolioManager.PressMinus]
                (resetForm demoState)))).
Proof.
  assert (Hs : withinSafeIntegers
                 (resetForm demoState)
                 [PortfolioManager.TypeQuantity (Some 250%Z); PortfolioManager.PressPlus;
                  PortfolioManager.PressMinus; PortfolioManager.PressMinus]).
  { cbn [withinSafeIntegers]. repeat split; try (cbn; lia);
      intros H; vm_compute in H; discriminate. }
  split; [exact Hs|]. split; [reflexivity|].
  exact (proj1 (quantity_controls_keep_board_lots demoState _ Hs)).
Defined.

End Checks.

(** ** Removing a position *)

Section Removal.
Import Js Ledger LedgerVocabulary LedgerAccounts.

Lemma deleted_positions (index : nat) (w : World) :
  positions (fst (LocalManager.deletePosition index w))
  = map (reweighed (total_capital (fst w)))
        (take index (positions (fst w)) ++ drop (S index) (positions (fst w))).
Proof. reflexivity. Qed.

Lemma lookup_spliced (ps : list Position) (index j : nat) :
  (take index ps ++ drop (S index) ps) !! j
  = if (j <? index)%nat then ps !! j else ps !! (S j).
Proof.
  destruct (j <? index)%nat eqn:E.
  - apply Nat.ltb_lt in E. destruct (le_lt_dec (length ps) j) as [Hge | Hlt].
    + rewrite (lookup_ge_None_2 ps j Hge). apply lookup_ge_None_2.
      rewrite length_app, length_take, length_drop. lia.
    + rewrite lookup_app_l by (rewrite length_take; lia).
      apply lookup_take_lt. exact E.
  - apply Nat.ltb_ge in E. destruct (le_lt_dec (length ps) index) as [Hge | Hlt].
    + rewrite (lookup_ge_None_2 ps (S j)) by lia. apply lookup_ge_None_2.
      rewrite length_app, length_take, length_drop. lia.
    + rewrite lookup_app_r by (rewrite length_take; lia).
      rewrite length_take, lookup_drop. f_equal. lia.
Qed.

(** X22. [deletePosition] of the localStorage version takes out the entry
    at the index and nothing else: the entries before it keep their place,
    those after it move up by one, all keep their fields but the weight,
    which is recomputed; with an index past the end no entry is removed. The
    index being edited and the form are not touched. *)
Theorem deletePosition_splices (index : nat) (w : World) :
  (forall (j : nat) (p : Position),
      (j < index)%nat -> positions (fst w) !! j = Some p ->
      positions (fst (LocalManager.deletePosition index w)) !! j
      = Some (reweighed (total_capital (fst w)) p))
  /\ (forall (j : nat) (p : Position),
        (index <= j)%nat -> positions (fst w) !! (S j) = Some p ->
        positions (fst (LocalManager.deletePosition index w)) !! j
        = Some (reweighed (total_capital (fst w)) p))
  /\ ((index < length (positions (fst w)))%nat ->
      S (length (positions (fst (LocalManager.deletePosition index w))))
      = length (positions (fst w)))
  /\ ((length (positions (fst w)) <= index)%nat ->
      positions (fst (LocalManager.deletePosition index w))
      = map (reweighed (total_capital (fst w))) (positions (fst w)))
  /\ editingIndex (fst (LocalManager.deletePosition index w)) = editingIndex (fst w)
  /\ formData (fst (LocalManager.deletePosition index w)) = formData (fst w).
Proof.
  rewrite deleted_positions. split; [|split; [|split; [|split; [|split]]]].
  - intros j p Hj Hp. rewrite list_lookup_fmap, lookup_spliced.
    apply Nat.ltb_lt in Hj. now rewrite Hj, Hp.
  - intros j p Hj Hp. rewrite list_lookup_fmap, lookup_spliced.
    apply Nat.ltb_ge in Hj. now rewrite Hj, Hp.
  - intros Hlt. rewrite length_map, length_app, length_take, length_drop. lia.
  - intros Hge. rewrite take_ge by exact Hge. rewrite drop_ge by lia.
    now rewrite app_nil_r.
  - reflexivity.
  - reflexivity.
Qed.

Lemma deletePosition_splices_witness :
  (0 <= 0)%nat
  /\ positions (fst (demoState, @nil Effect)) !! 1%nat = Some pingan
  /\ positions (fst (LocalManager.deletePosition 0 (demoState, []))) !! 0%nat
     = Some (reweighed 100000 pingan).
Proof.
  split; [lia|]. split; [reflexivity|].
  exact (proj1 (proj2 (deletePosition_splices 0 (demoState, [])))
               0%nat pingan (Nat.le_refl 0) eq_refl).
Defined.

(** X23. Removing a position does not end an edit. If a position is being
    edited and an earlier one is removed before the save, the save still
    writes at the old index: the position that was being edited, now one
    place up, keeps its old fields, and the new data lands on the place
    after it, over the next position or, if there is none, at the end. *)
Theorem save_after_delete_misses_position
        (w : World) (i j : nat) (edited : Position) :
  validate (formData (fst w)) = None ->
  editingIndex (fst w) = Some i ->
  positions (fst w) !! i = Some edited ->
  (j < i)%nat ->
  exists w' : World,
    LocalManager.savePosition (LocalManager.deletePosition j w) = Return w'
    /\ positions (fst w') !! (i - 1)%nat
       = Some (reweighed (total_capital (fst w)) edited)
    /\ positions (fst w') !! i
       = Some (reweighed (total_capital (fst w))
                         (freshPosition (positionData (formData (fst w)))))
    /\ length (positions (fst w'))
       = (if (S i <? length (positions (fst w)))%nat
          then length (positions (fst w)) - 1
          else length (positions (fst w)))%nat.
Proof.
  intros Hv Hi Hedit Hj.
  pose proof (lookup_lt_Some _ _ _ Hedit) as Hlt.
  destruct (deletePosition_splices j w) as (_ & Hshift & Hlen & _ & He & Hf).
  specialize (Hlen ltac:(lia)).
  assert (Hprev : positions (fst (LocalManager.deletePosition j w)) !! (i - 1)%nat
                  = Some (reweighed (total_capital (fst w)) edited)).
  { apply Hshift; [lia|]. replace (S (i - 1)) with i by lia. exact Hedit. }
  assert (Ht : total_capital (fst (LocalManager.deletePosition j w))
               = total_capital (fst w)) by reflexivity.
  set (w1 := LocalManager.deletePosition j w) in *.
  unfold LocalManager.savePosition. rewrite Hf, Hv, He, Hi.
  set (fresh := freshPosition (positionData (formData (fst w)))).
  destruct (i <? length (positions (fst w1)))%nat eqn:E1.
  - apply Nat.ltb_lt in E1. eexists. split; [reflexivity|].
    rewrite local_store, Ht. split; [|split].
    + rewrite list_lookup_fmap, list_lookup_insert_ne by lia. now rewrite Hprev.
    + rewrite list_lookup_fmap, list_lookup_insert_eq by exact E1. reflexivity.
    + rewrite length_map, length_insert.
      assert (E2 : (S i <? length (positions (fst w)))%nat = true)
        by (apply Nat.ltb_lt; lia).
      rewrite E2. lia.
  - apply Nat.ltb_ge in E1.
    assert (E3 : (i =? length (positions (fst w1)))%nat = true)
      by (apply Nat.eqb_eq; lia).
    rewrite E3. eexists. split; [reflexivity|].
    rewrite local_store, Ht. split; [|split].
    + rewrite list_lookup_fmap, lookup_app_l by lia. now rewrite Hprev.
    + rewrite list_lookup_fmap. apply Nat.eqb_eq in E3.
      rewrite (list_lookup_middle _ [] fresh i E3). reflexivity.
    + rewrite length_map, length_app. cbn [length].
      assert (E2 : (S i <? length (positions (fst w)))%nat = false)
        by (apply Nat.ltb_ge; lia).
      rewrite E2. lia.
Qed.

Lemma save_after_delete_misses_position_witness :
  validate (formData (fst (editPosition 1 (setPositions [moutai; pingan] demoEditing),
                           @nil Effect))) = None
  /\ (0 < 1)%nat
  /\ exists w' : World,
       LocalManager.savePosition
         (LocalManager.deletePosition
            0 (editPosition 1 (setPositions [moutai; pingan] demoEditing), []))
       = Return w'
       /\ positions (fst w') !! 0%nat = Some (reweighed 100000 pingan)
       /\ length (positions (fst w')) = 2%nat.
Proof.
  assert (Hv : validate (formData
                           (fst (editPosition 1 (setPositions [moutai; pingan] demoEditing),
                                 @nil Effect))) = None) by reflexivity.
  split; [exact Hv|]. split; [lia|].
  destruct (save_after_delete_misses_position
              (editPosition 1 (setPositions [moutai; pingan] demoEditing), [])
              1 0 pingan Hv eq_refl eq_refl ltac:(lia))
    as (w' & Hs & Hp & _ & Hl).
  exists w'. split; [exact Hs|]. split; [exact Hp | exact Hl].
Defined.

End Removal.

(** ** Saving to the server, when it does not go through *)

Section BackendSave.
Import Js Ledger LedgerVocabulary LedgerAccounts.

Lemma quoteLoop_adds (quote : nat -> string -> QuoteFetch) (ps : list Position) :
  forall (k : nat) (log : list Effect),
  exists mid : list Effect,
    snd (quoteLoop quote k ps log) = log ++ mid
    /\ forallb refreshEffect mid = true.
Proof.
  induction ps as [|p ps IH]; intros k log; cbn [quoteLoop].
  - exists []. split; [now rewrite app_nil_r | reflexivity].
  - destruct (quoteOne_snd (quote k (ts_code p)) p log) as (errs & H1 & Herrs).
    destruct (quoteOne (quote k (ts_code p)) p log) as [pos' log1].
    destruct (IH (S k) log1) as (mid & H2 & Hmid).
    destruct (quoteLoop quote (S k) ps log1) as [rest log2].
    cbn [snd] in *. exists (QuoteRequest (ts_code p) :: errs ++ mid). split.
    + rewrite H2, H1, <- app_assoc. reflexivity.
    + cbn. rewrite forallb_app, Hmid, andb_true_r.
      clear - Herrs. induction errs as [|e errs IHe]; [reflexivity|].
      cbn in *. apply andb_true_iff in Herrs as [He Hr].
      rewrite (IHe Hr), andb_true_r. destruct e; try discriminate. reflexivity.
Qed.

Lemma refreshQuotes_adds (quote : nat -> string -> QuoteFetch) (w : World) :
  exists mid : list Effect,
    snd (refreshQuotes quote w) = snd w ++ mid
    /\ forallb refreshEffect mid = true.
Proof.
  destruct w as [s log]. destruct (positions s) as [|p ps] eqn:E.
  - exists []. unfold refreshQuotes. cbn [fst]. rewrite E.
    split; [now rewrite app_nil_r | reflexivity].
  - assert (Hne : positions s <> []) by congruence.
    rewrite (refreshQuotes_unfold quote s log Hne). cbn [snd].
    destruct (quoteLoop_adds quote (positions s) 0 log) as (mid & -> & Hmid).
    exists (mid ++ [WeightsRecomputed]). split; [now rewrite app_assoc|].
    now rewrite forallb_app, Hmid.
Qed.

Lemma fetchPositions_adds (srv : PortfolioManager.Server) (w : World) :
  exists mid : list Effect,
    snd (PortfolioManager.fetchPositions srv w) = snd w ++ GetPortfolio :: mid
    /\ forallb refreshEffect mid = true.
Proof.
  unfold PortfolioManager.fetchPositions.
  destruct (PortfolioManager.listPositions srv) as [| |data].
  - exists [ConsoleError "加载持仓失败"]. split; [|reflexivity].
    unfold emit. cbn [snd]. now rewrite <- app_assoc.
  - exists []. split; reflexivity.
  - destruct (refreshQuotes_adds
                (PortfolioManager.quote srv)
                (update (setPositions data) (emit GetPortfolio w))) as (mid & H & Hmid).
    exists mid. split; [|exact Hmid]. rewrite H. unfold update, emit. cbn [snd].
    now rewrite <- app_assoc.
Qed.

Lemma refreshEffects_quiet (mid : list Effect) :
  forallb refreshEffect mid = true ->
  alerts mid = [] /\ (forall e, In e mid -> isWrite e = false).
Proof.
  induction mid as [|e mid IH]; cbn; [intros _; split; [reflexivity | intros e []]|].
  intros H. apply andb_true_iff in H as [He Hr]. destruct (IH Hr) as [Ha Hw].
  split.
  - destruct e; try discriminate; cbn; exact Ha.
  - intros e' [<- | Hin]; [destruct e; try discriminate; reflexivity | apply Hw, Hin].
Qed.

Lemma refreshQuotes_form (quote : nat -> string -> QuoteFetch) (w : World) :
  formData (fst (refreshQuotes quote w)) = formData (fst w)
  /\ editingIndex (fst (refreshQuotes quote w)) = editingIndex (fst w).
Proof.
  destruct w as [s0 l0]. unfold refreshQuotes. cbn [fst].
  destruct (positions s0); [split; reflexivity|].
  unfold update. cbn [fst snd].
  destruct (quoteLoop quote 0 (positions (setLoading true s0)) l0).
  split; reflexivity.
Qed.

Lemma fetchPositions_form (srv : PortfolioManager.Server) (w : World) :
  formData (fst (PortfolioManager.fetchPositions srv w)) = formData (fst w)
  /\ editingIndex (fst (PortfolioManager.fetchPositions srv w)) = editingIndex (fst w).
Proof.
  unfold PortfolioManager.fetchPositions.
  destruct (PortfolioManager.listPositions srv) as [| |data]; try (split; reflexivity).
  destruct (refreshQuotes_form (PortfolioManager.quote srv)
              (update (setPositions data) (emit GetPortfolio w))) as [-> ->].
  split; reflexivity.
Qed.

(** X24. What the API-backed [savePosition] does when a save that passed
    the checks cannot be written. With an edit index that no longer points
    at a position it sends nothing, reports the failure and keeps ledger and
    form. With a write the server rejects it reports the failure and does
    not reload, again keeping ledger and form. And when the position edited
    has no id it sends no write at all, yet reloads the ledger and resets
    the form, so the edit is dropped without any message. *)
Theorem backend_save_without_write (srv : PortfolioManager.Server) (w : World) :
  validate (formData (fst w)) = None ->
  (forall i : nat,
      editingIndex (fst w) = Some i -> positions (fst w) !! i = None ->
      PortfolioManager.savePosition srv w
      = (fst w, snd w ++ [ConsoleError "保存持仓失败"; AlertShown "保存失败"]))
  /\ (editingIndex (fst w) = None ->
      PortfolioManager.postPosition srv (positionData (formData (fst w))) = false ->
      PortfolioManager.savePosition srv w
      = (fst w, snd w ++ [PostPosition (positionData (formData (fst w)));
                          ConsoleError "保存持仓失败"; AlertShown "保存失败"]))
  /\ (forall (i : nat) (pos : Position),
        editingIndex (fst w) = Some i -> positions (fst w) !! i = Some pos ->
        id pos = None \/ id pos = Some 0 ->
        (forall e : Effect,
            In e (snd (PortfolioManager.savePosition srv w)) ->
            isWrite e = true -> In e (snd w))
        /\ In GetPortfolio (snd (PortfolioManager.savePosition srv w))
        /\ alerts (snd (PortfolioManager.savePosition srv w)) = alerts (snd w)
        /\ formData (fst (PortfolioManager.savePosition srv w))
           = formData (resetForm (fst w))
        /\ editingIndex (fst (PortfolioManager.savePosition srv w)) = None).
Proof.
  intros Hv. unfold PortfolioManager.savePosition. rewrite Hv.
  split; [|split].
  - intros i Hi Hnone. rewrite Hi, Hnone.
    unfold PortfolioManager.saveFailed, emit. cbn [fst snd].
    now rewrite <- app_assoc.
  - intros Hi Hpost. rewrite Hi, Hpost.
    unfold PortfolioManager.saveFailed, emit. cbn [fst snd].
    now rewrite <- !app_assoc.
  - intros i pos Hi Hpos Hid. rewrite Hi, Hpos.
    assert (Hno : PortfolioManager.truthy_id (id pos) = None)
      by (destruct Hid as [-> | ->]; reflexivity).
    rewrite Hno.
    destruct (fetchPositions_adds srv w) as (mid & Hlog & Hmid).
    destruct (refreshEffects_quiet mid Hmid) as [Hal Hnw].
    destruct (fetchPositions_form srv w) as [Hf He].
    change (snd (update resetForm (PortfolioManager.fetchPositions srv w)))
      with (snd (PortfolioManager.fetchPositions srv w)).
    rewrite Hlog. split; [|split; [|split; [|split]]].
    + intros e Hin Hw. apply in_app_iff in Hin as [Hin | [<- | Hin]];
        [exact Hin | discriminate |].
      rewrite (Hnw e Hin) in Hw. discriminate.
    + apply in_app_iff. right. now left.
    + change (GetPortfolio :: mid) with ([GetPortfolio] ++ mid).
      rewrite !alerts_app, Hal. cbn. now rewrite app_nil_r.
    + reflexivity.
    + reflexivity.
Qed.

Lemma backend_save_without_write_witness :
  validate (formData (fst (editPosition 0 (setPositions
              [mkPosition None "600519.SH" "Moutai" 100 10 None None None None]
              demoState), @nil Effect))) = None
  /\ PortfolioManager.savePosition
       (demoServer [moutai])
       (setQuantity 500
          (editPosition 0 (setPositions
             [mkPosition None "600519.SH" "Moutai" 100 10 None None None None]
             demoState)), [])
     = PortfolioManager.savePosition
         (demoServer [moutai])
         (editPosition 0 (setPositions
            [mkPosition None "600519.SH" "Moutai" 100 10 None None None None]
            demoState), [])
  /\ forall e : Effect,
       In e (snd (PortfolioManager.savePosition
                    (demoServer [moutai])
                    (editPosition 0 (setPositions
                       [mkPosition None "600519.SH" "Moutai" 100 10 None None None None]
                       demoState), []))) ->
       isWrite e = true -> False.
Proof.
  assert (Hv : validate (formData (fst (editPosition 0 (setPositions
                 [mkPosition None "600519.SH" "Moutai" 100 10 None None None None]
                 demoState), @nil Effect))) = None) by reflexivity.
  split; [exact Hv|]. split; [reflexivity|].
  intros e Hin Hw.
  exact (proj1 (proj2 (proj2 (backend_save_without_write (demoServer [moutai]) _ Hv))
                      0%nat _ eq_refl eq_refl (or_introl eq_refl))
               e Hin Hw).
Defined.

End BackendSave.

(** ** Daily diagnosis *)

Section DailyDiagnosis.
Import Js Ledger LedgerVocabulary LedgerAccounts.
Import PortfolioManager.

(** X25. [diagnosePortfolio] on an empty ledger raises one alert, sends
    nothing and leaves the report alone. On a ledger with positions it sends
    exactly one request, carrying the total capital and the positions as
    they are, and ends with the busy flag down; it shows a report exactly
    when the reply says success and the text renders, and the text kept for
    export is then the one rendered; in every other case the report shown
    before is gone and exactly one alert is raised. *)
Theorem diagnosePortfolio_outcome (render : string -> Completion string)
        (reply : DiagnoseReply) (s : State) (r : Report) :
  (positions s = [] ->
   diagnosePortfolio render reply s r = (r, [ReportAlert "请先添加持仓"]))
  /\ (positions s <> [] ->
      List.filter isDiagnoseRequest (snd (diagnosePortfolio render reply s r))
      = [DiagnoseRequest (total_capital s) (positions s)]
      /\ isDiagnosing (fst (diagnosePortfolio render reply s r)) = false
      /\ reportFromRaw render (fst (diagnosePortfolio render reply s r))
      /\ (forall html : string,
            diagnosisResult (fst (diagnosePortfolio render reply s r)) = Some html <->
            exists (text : string) (error : option string),
              reply = DiagnoseBody true text error /\ render text = Return html)
      /\ (diagnosisResult (fst (diagnosePortfolio render reply s r)) = None <->
          length (List.filter isReportAlert (snd (diagnosePortfolio render reply s r)))
          = 1%nat)).
Proof.
  unfold diagnosePortfolio. split.
  - intros ->. reflexivity.
  - intros Hne. destruct (positions s) as [|p ps] eqn:E; [contradiction|].
    destruct reply as [|[] text error]; cbn.
    + repeat split; try discriminate; try reflexivity.
      intros (t & e & H & _). discriminate.
    + destruct (render text) as [html|msg] eqn:Er; cbn.
      * repeat split; try discriminate; try reflexivity.
        -- intros h [= <-]. exists text. split; [reflexivity | exact Er].
        -- intros [= <-]. exists text, error. split; [reflexivity | exact Er].
        -- intros (t & e & [= <- <-] & Hr). congruence.
      * repeat split; try discriminate; try reflexivity.
        intros (t & e & [= <- <-] & Hr). congruence.
    + repeat split; try discriminate; try reflexivity.
      intros (t & e & H & _). discriminate.
Qed.

Lemma diagnosePortfolio_outcome_witness :
  positions demoState <> []
  /\ diagnosisResult
       (fst (diagnosePortfolio demoRender (DiagnoseBody false "" (Some "busy"%string))
                               demoState
                               (mkReport false (Some "<p>old</p>"%string)
                                         (Some "old"%string))))
     = None
  /\ length (List.filter isReportAlert
               (snd (diagnosePortfolio demoRender
                                       (DiagnoseBody false "" (Some "busy"%string))
                                       demoState
                                       (mkReport false (Some "<p>old</p>"%string)
                                                 (Some "old"%string)))))
     = 1%nat.
Proof.
  assert (Hne : positions demoState <> []) by discriminate.
  split; [exact Hne|]. split; [reflexivity|].
  exact (proj1 (proj2 (proj2 (proj2 (proj2 (proj2
           (diagnosePortfolio_outcome demoRender
              (DiagnoseBody false "" (Some "busy"%string)) demoState
              (mkReport false (Some "<p>old</p>"%string) (Some "old"%string)))
           Hne))))) eq_refl).
Defined.

End DailyDiagnosis.
